(** * sadales-tikls-json: the e-st.lv usage data scraper (scraper.py)

    A shallow embedding of [ESTScraper] and of the command line tail of
    scraper.py, followed by the properties of the specification that the
    code decides.

    Conventions of the embedding.
    - Python [str] values are byte strings (UTF-8); [None]-able strings
      are [option string].
    - A Python exception is a value of [exn]; code that can raise returns
      a [result].
    - Code that reads the clock, prints, or talks to the network runs in
      the monad [M]: explicit passing of a [world], which is kept when an
      exception is raised, as in Python.
    - What belongs to the host and to third-party libraries (the clock,
      the time zone database, the remote site, the HTML and JSON parsers)
      is collected in the record [host].
    - Where Python 2 and Python 3 differ the embedding follows Python 3
      (3.7 and later): dicts keep insertion order, [urlencode] leaves
      [~] unquoted, [int] accepts underscores between digits.
    - Where the standard library leans on the platform (the conversion
      of a time stamp, [%Y] for years below 1000) the embedding follows
      CPython 3.11 with the C library of Linux on x86-64: a 64-bit
      [time_t], IEEE doubles, the year of [struct tm] a 32-bit [int]. *)

From Stdlib Require Import ZArith QArith Qround Qabs List String Ascii Bool.
From Stdlib Require Import Lia Lqa.
From Stdlib Require Qcanon.
From Stdlib Require Import DecimalString.
Import ListNotations.

Local Open Scope string_scope.
Local Open Scope list_scope.
Local Open Scope Z_scope.

Infix "+++" := String.append (right associativity, at level 60).

(** ** Exceptions and results *)

Inductive exn : Type :=
| KeyError (key : string)
| TypeError
| ValueError
| OverflowError
| NameError (name : string)
| Exception (msg : string)
| OSError
| TransportError.

Inductive result (A : Type) : Type :=
| Ok (a : A)
| Raise (e : exn).

Arguments Ok {A} a.
Arguments Raise {A} e.

Definition rbind {A B} (r : result A) (k : A -> result B) : result B :=
  match r with
  | Ok a => k a
  | Raise e => Raise e
  end.

Declare Scope result_scope.
Delimit Scope result_scope with result.
Notation "'let?' x ':=' r 'in' k" := (rbind r (fun x => k))
  (at level 10, x name, r at level 100, k at level 200) : result_scope.

(** [[f(x) for x in xs]]: left to right, the first exception aborts. *)
Fixpoint rmap {A B} (f : A -> result B) (xs : list A) : result (list B) :=
  match xs with
  | [] => Ok []
  | x :: xs' =>
      match f x with
      | Raise e => Raise e
      | Ok y =>
          match rmap f xs' with
          | Raise e => Raise e
          | Ok ys => Ok (y :: ys)
          end
      end
  end.

Definition is_ok {A} (r : result A) : bool :=
  match r with Ok _ => true | Raise _ => false end.

(** ** Python values (what [json.loads] can return) *)

Inductive pyfloat : Type :=
| Finite (q : Q)
| Infinity (negative : bool)
| NaN.

#[local] Unset Elimination Schemes.
Inductive value : Type :=
| VNone
| VBool (b : bool)
| VInt (z : Z)
| VFloat (f : pyfloat)
| VStr (s : string)
| VList (items : list value)
| VDict (items : list (string * value)).
#[local] Set Elimination Schemes.

(** A [str | None] argument. *)
Definition pystr := option string.

(** Truth value of a [str | None]: [None] and [''] are false. *)
Definition truthy (x : pystr) : bool :=
  match x with
  | None => false
  | Some s => negb (String.eqb s "")
  end.

(** [str(x)] for a [str | None]. *)
Definition py_str (x : pystr) : string :=
  match x with
  | Some s => s
  | None => "None"
  end.

(** *** Dictionaries keep insertion order *)

Fixpoint dict_get {V} (d : list (string * V)) (k : string) : option V :=
  match d with
  | [] => None
  | (k', v) :: d' => if String.eqb k' k then Some v else dict_get d' k
  end.

(** [d[k] = v]: replaces in place, or appends a new key. *)
Fixpoint dict_set {V} (d : list (string * V)) (k : string) (v : V)
  : list (string * V) :=
  match d with
  | [] => [(k, v)]
  | (k', v') :: d' =>
      if String.eqb k' k then (k', v) :: d' else (k', v') :: dict_set d' k v
  end.

(** [x[key]] with a string key. *)
Definition py_getitem (x : value) (key : string) : result value :=
  match x with
  | VDict d =>
      match dict_get d key with
      | Some v => Ok v
      | None => Raise (KeyError key)
      end
  | _ => Raise TypeError
  end.

(** One-character strings of a string, for iteration over a [str]. *)
Fixpoint chars (s : string) : list string :=
  match s with
  | EmptyString => []
  | String c s' => String c EmptyString :: chars s'
  end.

(** [iter(x)]: a list yields its items, a dict its keys, a string its
    characters; nothing else is iterable. *)
Definition py_iter (x : value) : result (list value) :=
  match x with
  | VList l => Ok l
  | VDict d => Ok (map (fun kv => VStr (fst kv)) d)
  | VStr s => Ok (map VStr (chars s))
  | _ => Raise TypeError
  end.

(** *** [int(x)] *)

(** White space of C's [isspace], which [int] skips around a
    literal. *)
Definition is_space (c : ascii) : bool :=
  let n := nat_of_ascii c in
  (Nat.eqb n 32 || (Nat.leb 9 n && Nat.leb n 13))%bool.

Definition is_digit (c : ascii) : bool :=
  let n := nat_of_ascii c in (Nat.leb 48 n && Nat.leb n 57)%bool.

Definition digit_val (c : ascii) : Z := Z.of_nat (nat_of_ascii c) - 48.

Fixpoint lstrip (s : string) : string :=
  match s with
  | String c s' => if is_space c then lstrip s' else s
  | EmptyString => EmptyString
  end.

Fixpoint string_rev_onto (s acc : string) : string :=
  match s with
  | EmptyString => acc
  | String c s' => string_rev_onto s' (String c acc)
  end.

Definition string_rev (s : string) : string := string_rev_onto s "".

Definition strip (s : string) : string :=
  string_rev (lstrip (string_rev (lstrip s))).

(** A continuation byte of UTF-8 and its six bits. *)
Definition continuation (c : ascii) : option Z :=
  let n := Z.of_nat (nat_of_ascii c) in
  if ((128 <=? n) && (n <=? 191))%bool then Some (n - 128) else None.

(** What [int] makes of a character outside ASCII: a blank for white
    space, the ASCII digit for a decimal digit, [?] for anything else.
    The two tables are those of the interpreter's Unicode database. *)
Definition ascii_for (isspace : Z -> bool) (todecimal : Z -> option Z)
    (cp : Z) : option ascii :=
  if isspace cp then Some " "%char
  else
    match todecimal cp with
    | Some d => Some (ascii_of_nat (48 + Z.to_nat d))
    | None => None
    end.

(** The ASCII text [int] parses for a text: characters below 127 stand
    as they are, the others are replaced after [ascii_for]; at the first
    character that has no replacement the text ends with [?]. The text
    is read as UTF-8; an ill-formed sequence counts as such a
    character. *)
Fixpoint to_ascii_literal (isspace : Z -> bool) (todecimal : Z -> option Z)
    (s : string) : string :=
  let put (cp : Z) (tail : string) : string :=
    match ascii_for isspace todecimal cp with
    | Some c => String c tail
    | None => "?"
    end in
  match s with
  | EmptyString => EmptyString
  | String c0 rest =>
      let b0 := Z.of_nat (nat_of_ascii c0) in
      if b0 <? 127 then String c0 (to_ascii_literal isspace todecimal rest)
      else if b0 <? 128 then "?"
      else
        match rest with
        | EmptyString => "?"
        | String c1 rest1 =>
            match continuation c1 with
            | None => "?"
            | Some x1 =>
                if ((194 <=? b0) && (b0 <=? 223))%bool then
                  put ((b0 - 192) * 64 + x1)
                    (to_ascii_literal isspace todecimal rest1)
                else
                  match rest1 with
                  | EmptyString => "?"
                  | String c2 rest2 =>
                      match continuation c2 with
                      | None => "?"
                      | Some x2 =>
                          if ((224 <=? b0) && (b0 <=? 239))%bool then
                            let cp := (b0 - 224) * 4096 + x1 * 64 + x2 in
                            if ((cp <? 2048) ||
                                ((55296 <=? cp) && (cp <=? 57343)))%bool
                            then "?"
                            else put cp
                                   (to_ascii_literal isspace todecimal rest2)
                          else
                            match rest2 with
                            | EmptyString => "?"
                            | String c3 rest3 =>
                                match continuation c3 with
                                | None => "?"
                                | Some x3 =>
                                    let cp := (b0 - 240) * 262144 + x1 * 4096
                                              + x2 * 64 + x3 in
                                    if ((240 <=? b0) && (b0 <=? 244) &&
                                        (65536 <=? cp) && (cp <=? 1114111))%bool
                                    then put cp
                                           (to_ascii_literal isspace todecimal
                                              rest3)
                                    else "?"
                                end
                            end
                      end
                  end
            end
        end
  end.

(** Digits of an integer literal after the sign: the value and the
    number of digits. [after_digit] tells whether the previous character
    was a digit, the only place where a single underscore may stand. *)
Fixpoint parse_digits (s : string) (acc digits : Z) (after_digit : bool)
  : option (Z * Z) :=
  match s with
  | EmptyString => if after_digit then Some (acc, digits) else None
  | String c s' =>
      if is_digit c
      then parse_digits s' (10 * acc + digit_val c) (digits + 1) true
      else if (Ascii.eqb c "_" && after_digit)%bool then
        match s' with
        | String c' _ =>
            if is_digit c' then parse_digits s' acc digits false else None
        | EmptyString => None
        end
      else None
  end.

(** The limit on the digits of a literal ([sys.int_info]): a literal of
    more than 640 digits is refused when it has more digits than the
    limit, unless the limit is 0. *)
Definition within_limit (max_str_digits digits : Z) : bool :=
  negb ((640 <? digits) && (0 <? max_str_digits) && (max_str_digits <? digits)).

(** [int(s)] for an ASCII literal; [None] stands for ValueError. *)
Definition int_of_string (max_str_digits : Z) (s : string) : option Z :=
  let unsigned (sign : Z) (s' : string) :=
    match parse_digits s' 0 0 false with
    | Some (z, digits) =>
        if within_limit max_str_digits digits then Some (sign * z) else None
    | None => None
    end in
  match strip s with
  | String "-" s' => unsigned (-1) s'
  | String "+" s' => unsigned 1 s'
  | s' => unsigned 1 s'
  end.

(** Truncation toward zero. *)
Definition Qtrunc (q : Q) : Z := Z.quot (Qnum q) (Zpos (Qden q)).

(** ** Dates and times *)

(** A naive [datetime.datetime]. *)
Record datetime : Type := mk_datetime {
  year : Z;
  month : Z;
  day : Z;
  hour : Z;
  minute : Z;
  second : Z;
  microsecond : Z
}.

Definition is_leap (y : Z) : bool :=
  ((y mod 4 =? 0) && (negb (y mod 100 =? 0) || (y mod 400 =? 0)))%bool.

Definition days_in_month (y m : Z) : Z :=
  if m =? 2 then (if is_leap y then 29 else 28)
  else if ((m =? 4) || (m =? 6) || (m =? 9) || (m =? 11))%bool then 30
  else 31.

(** The checks of the [datetime] constructor. *)
Definition datetime_valid (d : datetime) : bool :=
  ((1 <=? year d) && (year d <=? 9999) &&
   (1 <=? month d) && (month d <=? 12) &&
   (1 <=? day d) && (day d <=? days_in_month (year d) (month d)) &&
   (0 <=? hour d) && (hour d <=? 23) &&
   (0 <=? minute d) && (minute d <=? 59) &&
   (0 <=? second d) && (second d <=? 59) &&
   (0 <=? microsecond d) && (microsecond d <=? 999999))%bool.

Definition new_datetime (y m d hh mm ss us : Z) : result datetime :=
  let r := mk_datetime y m d hh mm ss us in
  if datetime_valid r then Ok r else Raise ValueError.

(** Calendar date of a day number counted from 1970-01-01 (proleptic
    Gregorian calendar), as the C library's [localtime] computes it. *)
Definition civil_from_days (days : Z) : Z * Z * Z :=
  let z := days + 719468 in
  let era := z / 146097 in
  let doe := z - era * 146097 in
  let yoe := (doe - doe / 1460 + doe / 36524 - doe / 146096) / 365 in
  let doy := doe - (365 * yoe + yoe / 4 - yoe / 100) in
  let mp := (5 * doy + 2) / 153 in
  let d := doy - (153 * mp + 2) / 5 + 1 in
  let m := if mp <? 10 then mp + 3 else mp - 9 in
  let y := yoe + era * 400 + (if m <=? 2 then 1 else 0) in
  (y, m, d).

(** [time.localtime(t)]: the first six fields of the broken-down time of
    the epoch second [t] in a zone that is [offset t] seconds east of
    UTC at that instant. *)
Definition localtime (offset : Z -> Z) (t : Z) : Z * Z * Z * Z * Z * Z :=
  let lt := t + offset t in
  let days := lt / 86400 in
  let sod := lt mod 86400 in
  let '(y, m, d) := civil_from_days days in
  (y, m, d, sod / 3600, (sod mod 3600) / 60, sod mod 60).

(** *** Doubles *)

(** A finite double is the rational it denotes, in lowest terms.
    [fl q] is the double nearest to [q], ties to the even mantissa: with
    [e] such that [2^52 <= |q| / 2^e < 2^53] it is [m * 2^e] for the
    integer [m] nearest to [q / 2^e]. Overflow is the business of the
    callers; the scraper computes no number small enough to be
    subnormal. *)

(** [round(x)] to an integer, ties to even. *)
Definition py_round (x : Q) : Z :=
  let f := Qfloor x in
  match ((x - inject_Z f) ?= (1 # 2))%Q with
  | Lt => f
  | Gt => f + 1
  | Eq => if Z.even f then f else f + 1
  end.

Definition fl (q : Q) : Q :=
  let n := Qnum q in
  let d := Z.pos (Qden q) in
  if n =? 0 then 0%Q
  else
    let e1 := Z.log2 (Z.abs n) - Z.log2 d - 53 in
    let num e := n * 2 ^ Z.max 0 (- e) in
    let den e := d * 2 ^ Z.max 0 e in
    let e := if Z.abs (num e1) <? 2 ^ 53 * den e1 then e1 else e1 + 1 in
    let m := py_round (Qmake (num e) (Z.to_pos (den e))) in
    Qred (Qmake (m * 2 ^ Z.max 0 e) (Z.to_pos (2 ^ Z.max 0 (- e)))).

(** [float(n)] for an int: OverflowError from the first integer that
    rounds to [2^1024]. *)
Definition float_of_int (n : Z) : result Q :=
  if 2 ^ 1024 - 2 ^ 970 <=? Z.abs n then Raise OverflowError
  else Ok (fl (inject_Z n)).

(** [a / b] on doubles, [b] not zero. *)
Definition float_div (a b : Q) : Q := fl (a / b)%Q.

(** [a * b] on doubles. *)
Definition float_mul (a b : Q) : Q := fl (a * b)%Q.

(** [modf]: fractional and whole part, both with the sign of [t]; they
    are doubles when [t] is one. *)
Definition modf (t : Q) : Q * Z :=
  let w := Qtrunc t in ((t - inject_Z w)%Q, w).

(** *** [datetime.datetime.fromtimestamp] *)

(** The seconds and microseconds of a double, rounding half to even
    ([_PyTime_ObjectToTimeval]): the fraction times 1e6 is rounded, a
    carry goes to the seconds, and the seconds must lie in [time_t].
    The test lets [2^63] through, which the conversion to [time_t] then
    wraps to [-2^63]. Where a carry occurs the seconds are below [2^52],
    so that adding it is exact. *)
Definition to_timeval (d : Q) : result (Z * Z) :=
  let '(floatpart, intpart) := modf d in
  let us := py_round (float_mul floatpart (inject_Z 1000000)) in
  let '(intpart, us) :=
    if 1000000 <=? us then (intpart + 1, us - 1000000)
    else if us <? 0 then (intpart - 1, us + 1000000)
    else (intpart, us) in
  if ((- 2 ^ 63 <=? intpart) && (intpart <=? 2 ^ 63))%bool
  then Ok (if intpart =? 2 ^ 63 then - 2 ^ 63 else intpart, us)
  else Raise OverflowError.

(** [localtime_r]: it fails (EOVERFLOW) when the year less 1900 does not
    fit the [int] of [struct tm]. *)
Definition localtime_r (offset : Z -> Z) (t : Z)
  : result (Z * Z * Z * Z * Z * Z) :=
  let '(y, m, d, hh, mm, ss) := localtime offset t in
  if ((- 2 ^ 31 <=? y - 1900) && (y - 1900 <? 2 ^ 31))%bool
  then Ok (y, m, d, hh, mm, ss)
  else Raise OSError.

(** [utc_to_seconds] of a broken-down time, which refuses a year outside
    1..9999. The seconds it counts for the local time of [t] are
    [t + offset t], up to a constant that cancels where they are
    used. *)
Definition utc_to_seconds (offset : Z -> Z) (t y : Z) : result Z :=
  if ((1 <=? y) && (y <=? 9999))%bool then Ok (t + offset t)
  else Raise ValueError.

(** [local(u)]: the local seconds of the instant [u]. *)
Definition local (offset : Z -> Z) (u : Z) : result Z :=
  (let? tm := localtime_r offset u in
   let '(y, _, _, _, _, _) := tm in
   utc_to_seconds offset u y)%result.

(** [datetime_from_timet_and_us] of _datetimemodule.c, for local time
    without a zone object. After the conversion the local time a day
    earlier is probed to find a repeated hour, and when the offset went
    down during that day, the time that much earlier; each probe can
    fail as the conversion itself can. The fold found is not kept: the
    format does not print it. *)
Definition datetime_from_timet_and_us (offset : Z -> Z) (timet us : Z)
  : result datetime :=
  (let? tm := localtime_r offset timet in
   let '(y, m, d, hh, mm, ss) := tm in
   let second := Z.min 59 ss in
   let? result_seconds := utc_to_seconds offset timet y in
   let? probe_seconds := local offset (timet - 86400) in
   let transition := result_seconds - probe_seconds - 86400 in
   let? _ := (if transition <? 0 then local offset (timet + transition)
              else Ok 0) in
   new_datetime y m d hh mm second us)%result.

(** [datetime.datetime.fromtimestamp(t)] for a double [t]. *)
Definition fromtimestamp (offset : Z -> Z) (t : Q) : result datetime :=
  (let? tv := to_timeval t in
   datetime_from_timet_and_us offset (fst tv) (snd tv))%result.

(** *** [strftime] *)

Definition decimal (n : Z) : string :=
  NilZero.string_of_uint (N.to_uint (Z.to_N n)).

Fixpoint zeros (n : nat) : string :=
  match n with
  | O => ""
  | S n' => String "0" (zeros n')
  end.

(** ["%0<width>d" % n] for a natural number [n]. *)
Definition zfill (width : nat) (n : Z) : string :=
  let s := decimal n in
  zeros (width - String.length s) +++ s.

(** The directives the scraper uses ([%Y %m %d %H %M %S], and [%%]).
    Other directives are not modelled and are copied as they stand. The
    year is printed without padding, as the C library of Linux does. *)
Fixpoint strftime (d : datetime) (fmt : string) : string :=
  match fmt with
  | EmptyString => EmptyString
  | String "%" (String c rest) =>
      let piece :=
        if Ascii.eqb c "Y" then decimal (year d)
        else if Ascii.eqb c "m" then zfill 2 (month d)
        else if Ascii.eqb c "d" then zfill 2 (day d)
        else if Ascii.eqb c "H" then zfill 2 (hour d)
        else if Ascii.eqb c "M" then zfill 2 (minute d)
        else if Ascii.eqb c "S" then zfill 2 (second d)
        else if Ascii.eqb c "%" then "%"
        else String "%" (String c EmptyString) in
      piece +++ strftime d rest
  | String c rest => String c (strftime d rest)
  end.

(** ** [urllib.parse] *)

Definition is_unreserved (c : ascii) : bool :=
  let n := nat_of_ascii c in
  ((Nat.leb 48 n && Nat.leb n 57) ||
   (Nat.leb 65 n && Nat.leb n 90) ||
   (Nat.leb 97 n && Nat.leb n 122) ||
   Ascii.eqb c "_" || Ascii.eqb c "." || Ascii.eqb c "-" ||
   Ascii.eqb c "~")%bool.

Definition hex_digit (n : nat) : ascii :=
  if Nat.ltb n 10 then ascii_of_nat (48 + n) else ascii_of_nat (55 + n).

(** [quote_plus(s)] with no extra safe characters. *)
Fixpoint quote_plus (s : string) : string :=
  match s with
  | EmptyString => EmptyString
  | String c rest =>
      if is_unreserved c then String c (quote_plus rest)
      else if Ascii.eqb c " " then String "+" (quote_plus rest)
      else
        let n := nat_of_ascii c in
        String "%" (String (hex_digit (Nat.div n 16))
                      (String (hex_digit (Nat.modulo n 16))
                         (quote_plus rest)))
  end.

(** [urlencode(params)] of a dict whose values are [str | None]. *)
Definition urlencode (params : list (string * pystr)) : string :=
  String.concat "&"
    (map (fun kv => quote_plus (fst kv) +++ "=" +++ quote_plus (py_str (snd kv)))
       params).

(** ** Parsed HTML and the two kinds of selector the scraper uses *)

#[local] Unset Elimination Schemes.
Inductive element : Type :=
| Element (tag : string) (attrib : list (string * string))
    (children : list element).
#[local] Set Elimination Schemes.

Definition tag_of (e : element) : string :=
  match e with Element t _ _ => t end.

(** [e.get(name)] *)
Definition get_attr (e : element) (name : string) : option string :=
  match e with Element _ a _ => dict_get a name end.

(** The element and its descendants, in document order. *)
Fixpoint descendants_or_self (e : element) : list element :=
  match e with
  | Element _ _ cs => e :: flat_map descendants_or_self cs
  end.

Definition is_xml_space (c : ascii) : bool :=
  let n := nat_of_ascii c in
  (Nat.eqb n 32 || Nat.eqb n 9 || Nat.eqb n 10 || Nat.eqb n 13)%bool.

(** Whitespace-separated tokens; [cur] is the token being read,
    reversed. *)
Fixpoint tokens_from (s : string) (cur : string) : list string :=
  match s with
  | EmptyString =>
      match cur with
      | EmptyString => []
      | _ => [string_rev cur]
      end
  | String c rest =>
      if is_xml_space c then
        match cur with
        | EmptyString => tokens_from rest ""
        | _ => string_rev cur :: tokens_from rest ""
        end
      else tokens_from rest (String c cur)
  end.

Definition tokens (s : string) : list string := tokens_from s "".

Definition has_class (e : element) (cls : string) : bool :=
  match get_attr e "class" with
  | Some v => existsb (String.eqb cls) (tokens v)
  | None => false
  end.

Inductive selector : Type :=
| TagAttr (tag attr val : string)   (* tag[attr=val] *)
| TagClass (tag cls : string).      (* tag.cls *)

Definition matches (sel : selector) (e : element) : bool :=
  match sel with
  | TagAttr t a v =>
      (String.eqb (tag_of e) t &&
       match get_attr e a with
       | Some v' => String.eqb v' v
       | None => false
       end)%bool
  | TagClass t c => (String.eqb (tag_of e) t && has_class e c)%bool
  end.

(** [root(selector)]: the matching elements of the document. *)
Definition pq_select (root : list element) (sel : selector) : list element :=
  filter (matches sel) (flat_map descendants_or_self root).

(** [.attr(name)]: the attribute of the first element of the selection,
    [None] when the selection is empty or the attribute is missing. *)
Definition pq_attr (selection : list element) (name : string) : pystr :=
  match selection with
  | [] => None
  | e :: _ => get_attr e name
  end.

(** ** The host, the world and the monad of effects *)

Inductive request : Type :=
| GET (url : string)
| POST (url : string) (data : list (string * pystr)).

Record host : Type := mk_host {
  (** the successive readings of [datetime.datetime.now()] *)
  clock : nat -> datetime;
  (** seconds east of UTC of the local zone at an epoch second *)
  utcoffset : Z -> Z;
  (** body of the response to the last request of a session, given all
      the requests of the session so far (the cookie jar is a function
      of them), or the exception of the transport *)
  remote : list request -> result string;
  (** [PyQuery(text)] *)
  PyQuery : string -> result (list element);
  (** [json.loads(s)] on a string *)
  json_loads : string -> result value;
  (** [json.dumps(v, indent=n)] *)
  json_dumps : value -> nat -> string;
  (** the Unicode database of the interpreter, for code points from 127
      on: white space, and the value of a decimal digit *)
  unicode_isspace : Z -> bool;
  unicode_decimal : Z -> option Z;
  (** [sys.get_int_max_str_digits()], 0 for no limit *)
  int_max_str_digits : Z;
  (** whether [open(name, 'w')] fails *)
  open_fails : string -> bool;
  (** when writing the text to the file and closing it fails: what
      reached the file *)
  write_fails : string -> string -> option string
}.

Record world : Type := mk_world {
  ticks : nat;                        (* clock readings so far *)
  stdout : list string;               (* lines printed so far *)
  sent : list request;                (* requests of the session so far *)
  written : list (string * string)    (* files written: name, content *)
}.

Definition M (A : Type) : Type := world -> result A * world.

Definition ret {A} (a : A) : M A := fun w => (Ok a, w).

Definition raise {A} (e : exn) : M A := fun w => (Raise e, w).

Definition bind {A B} (m : M A) (k : A -> M B) : M B :=
  fun w =>
    match m w with
    | (Ok a, w') => k a w'
    | (Raise e, w') => (Raise e, w')
    end.

Definition lift {A} (r : result A) : M A := fun w => (r, w).

Declare Scope M_scope.
Delimit Scope M_scope with M.
Notation "x <- m ;; k" := (bind m (fun x => k))
  (at level 61, m at next level, right associativity) : M_scope.
Notation "m ;;; k" := (bind m (fun _ => k))
  (at level 61, right associativity) : M_scope.

Definition now (h : host) : M datetime :=
  fun w =>
    (Ok (clock h (ticks w)),
     mk_world (S (ticks w)) (stdout w) (sent w) (written w)).

Definition print (line : string) : M unit :=
  fun w =>
    (Ok tt, mk_world (ticks w) (stdout w ++ [line]) (sent w) (written w)).

Definition send (h : host) (r : request) : M string :=
  fun w =>
    let log := sent w ++ [r] in
    (remote h log, mk_world (ticks w) (stdout w) log (written w)).

(** A null character in a string. *)
Definition has_nul (s : string) : bool :=
  existsb (Ascii.eqb Ascii.zero) (list_ascii_of_string s).

(** [f = open(name, 'w')]: a ValueError for a name with a null
    character, an OSError of the system, or the file is there and
    empty. *)
Definition open_w (h : host) (name : string) : M unit :=
  fun w =>
    if has_nul name then (Raise ValueError, w)
    else if open_fails h name then (Raise OSError, w)
    else
      (Ok tt,
       mk_world (ticks w) (stdout w) (sent w) (written w ++ [(name, "")])).

(** [f.write(content)] and [f.close()] on the file opened last: the
    text is in the file, or an OSError leaves a part of it there. *)
Definition write_close (h : host) (name content : string) : M unit :=
  fun w =>
    match write_fails h name content with
    | Some part =>
        (Raise OSError,
         mk_world (ticks w) (stdout w) (sent w)
           (removelast (written w) ++ [(name, part)]))
    | None =>
        (Ok tt,
         mk_world (ticks w) (stdout w) (sent w)
           (removelast (written w) ++ [(name, content)]))
    end.

(** [int(x)] *)
Definition py_int (h : host) (x : value) : result Z :=
  match x with
  | VInt z => Ok z
  | VBool b => Ok (if b then 1 else 0)
  | VFloat (Finite q) => Ok (Qtrunc q)
  | VFloat (Infinity _) => Raise OverflowError
  | VFloat NaN => Raise ValueError
  | VStr s =>
      match int_of_string (int_max_str_digits h)
              (to_ascii_literal (unicode_isspace h) (unicode_decimal h) s) with
      | Some z => Ok z
      | None => Raise ValueError
      end
  | VNone | VList _ | VDict _ => Raise TypeError
  end.

(** [json.loads(x)] where [x] may be [None]. *)
Definition py_json_loads (h : host) (x : pystr) : result value :=
  match x with
  | None => Raise TypeError
  | Some s => json_loads h s
  end.

(** ** class ESTScraper *)

Module ESTScraper.

Definition BASE_HOST : string := "https://www.e-st.lv".
Definition LOGIN_URL : string := BASE_HOST +++ "/lv/private/user-authentification/".
Definition DATA_URL : string :=
  BASE_HOST +++ "/lv/private/paterini-un-norekini/paterinu-grafiki/".

Definition PERIOD_DAY : string := "D".
Definition PERIOD_MONTH : string := "M".
Definition PERIOD_YEAR : string := "Y".

Definition GRANULARITY_NATIVE : string := "NATIVE".
Definition GRANULARITY_HOUR : string := "H".
Definition GRANULARITY_DAY : string := "D".

(** The attributes set by [__init__]; the [requests.Session] of the
    instance is the [sent] component of the world. *)
Record t : Type := init {
  login : string;
  password : string;
  meter_id : string
}.

(** [period == constant] for a [str | None] period. *)
Definition period_is (period : pystr) (constant : string) : bool :=
  match period with
  | Some p => String.eqb p constant
  | None => false
  end.

(** [x or m()]: [m] runs only when [x] is [None] or empty. *)
Definition or_else (x : pystr) (m : M string) : M string :=
  if truthy x then ret (py_str x) else m.

Section Methods.

Variable h : host.

Local Open Scope M_scope.

Definition _format_now (options : string) : M string :=
  d <- now h ;; ret (strftime d options).

Definition _get_current_year : M string := _format_now "%Y".

Definition _get_current_month : M string := _format_now "%m".

Definition _get_current_day : M string := _format_now "%d".

(** The [params] dict of [_get_data_url] just before it is encoded. *)
Definition _get_data_url_params (self : t)
    (period year month day granularity : pystr)
  : M (list (string * pystr)) :=
  let params := [("counterNumber", Some (meter_id self)); ("period", period)] in
  year <- or_else year _get_current_year ;;
  let params :=
    if period_is period PERIOD_YEAR
    then dict_set params "year" (Some year)
    else params in
  params <-
    (if period_is period PERIOD_MONTH then
       let params := dict_set params "year" (Some year) in
       month <- or_else month _get_current_month ;;
       let params := dict_set params "month" (Some month) in
       ret (dict_set params "granularity" granularity)
     else ret params) ;;
  if period_is period PERIOD_DAY then
    month <- or_else month _get_current_month ;;
    day <- or_else day _get_current_day ;;
    let params :=
      dict_set params "date" (Some (day +++ "." +++ month +++ "." +++ year)) in
    ret (dict_set params "granularity" granularity)
  else ret params.

Definition _get_data_url (self : t)
    (period year month day granularity : pystr) : M string :=
  params <- _get_data_url_params self period year month day granularity ;;
  print (DATA_URL +++ "?" +++ urlencode params) ;;;
  ret (DATA_URL +++ "?" +++ urlencode params).

Definition _format_timestamp (timestamp : value) : result string :=
  (let? ms := py_int h timestamp in
   let? a := float_of_int ms in
   let? d := fromtimestamp (utcoffset h) (float_div a (inject_Z 1000)) in
   Ok (strftime d "%Y-%m-%d %H:%M:%S"))%result.

(** The dict built for one item of the comprehension. *)
Definition format_item (item : value) : result value :=
  (let? ts := py_getitem item "timestamp" in
   let? data := _format_timestamp ts in
   let? v := py_getitem item "value" in
   Ok (VDict [("data", VStr data); ("value", v)]))%result.

(** [response_data['values']['A+']['total']['data']] *)
Definition graph_data (response_data : value) : result value :=
  (let? a := py_getitem response_data "values" in
   let? b := py_getitem a "A+" in
   let? c := py_getitem b "total" in
   py_getitem c "data")%result.

Definition _format_response (response_data : value) : result value :=
  (let? response_data := graph_data response_data in
   let? items := py_iter response_data in
   let? records := rmap format_item items in
   Ok (VList records))%result.

Definition fields : list string := ["_token"; "returnUrl"; "login"; "password"].

(** The [values] dict after the loop over [fields]. *)
Definition scraped_fields (root : list element) : list (string * pystr) :=
  fold_left
    (fun values field =>
       dict_set values field
         (pq_attr (pq_select root (TagAttr "input" "name" field)) "value"))
    fields [].

(** The [values] dict handed to [session.post]. *)
Definition login_form (self : t) (root : list element)
  : list (string * pystr) :=
  let values := scraped_fields root in
  let values := dict_set values "login" (Some (login self)) in
  dict_set values "password" (Some (password self)).

Definition _fetch_remote_data (self : t)
    (period year month day granularity : pystr) : M value :=
  url <- _get_data_url self period year month day granularity ;;
  text <- send h (GET url) ;;
  root <- lift (PyQuery h text) ;;
  let values := login_form self root in
  text <- send h (POST LOGIN_URL values) ;;
  root <- lift (PyQuery h text) ;;
  let values := pq_attr (pq_select root (TagClass "div" "chart")) "data-values" in
  lift (py_json_loads h values).

Definition get_day_data (self : t) (year month day : pystr) : M value :=
  response <- _fetch_remote_data self (Some PERIOD_DAY) year month day
                (Some GRANULARITY_HOUR) ;;
  lift (_format_response response).

Definition get_month_data (self : t) (year month : pystr) : M value :=
  response <- _fetch_remote_data self (Some PERIOD_MONTH) year month None
                (Some GRANULARITY_DAY) ;;
  lift (_format_response response).

Definition get_year_data (self : t) (year : pystr) : M value :=
  response <- _fetch_remote_data self (Some PERIOD_YEAR) year None None None ;;
  lift (_format_response response).

End Methods.

End ESTScraper.

(** ** The command line ([if __name__ == '__main__']) *)

Module Main.

(** The namespace returned by [parser.parse_args()]. *)
Record options : Type := mk_options {
  username : pystr;
  password : pystr;
  meter : pystr;
  period : string;
  year : pystr;
  month : pystr;
  day : pystr;
  outfile : pystr
}.

Section Script.

Variable h : host.

Local Open Scope M_scope.

(** The three [if opts.period == ...] statements. The module variable
    [data] is [None] here while it is unbound, [Some v] once assigned. *)
Definition dispatch (scraper : ESTScraper.t) (opts : options)
  : M (option value) :=
  let data : option value := None in
  data <-
    (if String.eqb (period opts) "year" then
       v <- ESTScraper.get_year_data h scraper (year opts) ;; ret (Some v)
     else ret data) ;;
  data <-
    (if String.eqb (period opts) "month" then
       v <- ESTScraper.get_month_data h scraper (year opts) (month opts) ;;
       ret (Some v)
     else ret data) ;;
  if String.eqb (period opts) "day" then
    v <- ESTScraper.get_day_data h scraper (year opts) (month opts) (day opts) ;;
    ret (Some v)
  else ret data.

(** Reading the variable [data]. *)
Definition read_data (data : option value) : M value :=
  match data with
  | Some v => ret v
  | None => raise (NameError "data")
  end.

Definition main (opts : options) : M unit :=
  if (negb (truthy (username opts)) || negb (truthy (password opts)))%bool
  then raise (Exception "Username and/or password must be set")
  else if negb (truthy (meter opts))
  then raise (Exception "Electricity meter ID must be set")
  else
    let scraper :=
      ESTScraper.init (py_str (username opts)) (py_str (password opts))
        (py_str (meter opts)) in
    data <- dispatch scraper opts ;;
    v <- read_data data ;;
    let data := json_dumps h v 4 in
    if truthy (outfile opts)
    then
      open_w h (py_str (outfile opts)) ;;;
      write_close h (py_str (outfile opts)) data
    else print data.

End Script.

End Main.

(** ** Vocabulary of the properties *)

(** [fits pattern s]: [s] has the length of [pattern], a digit wherever
    the pattern has [#], and the pattern's character elsewhere. *)
Fixpoint fits (pattern s : string) : bool :=
  match pattern, s with
  | EmptyString, EmptyString => true
  | String p pattern', String c s' =>
      ((if Ascii.eqb p "#" then is_digit c else Ascii.eqb c p) &&
       fits pattern' s')%bool
  | _, _ => false
  end.

(** [f] holds of the [n] integers from [z] on. *)
Fixpoint all_from (f : Z -> bool) (n : nat) (z : Z) : bool :=
  match n with
  | O => true
  | S n' => (f z && all_from f n' (z + 1))%bool
  end.

(** Two readings of the clock on the same calendar date. *)
Definition same_date (a b : datetime) : Prop :=
  year a = year b /\ month a = month b /\ day a = day b.

(** The local broken-down time of an epoch second as a [datetime]. *)
Definition local_datetime (h : host) (t : Z) : datetime :=
  let '(y, m, d, hh, mm, ss) := localtime (utcoffset h) t in
  mk_datetime y m d hh mm ss 0.

(** The year of a day of the 400-year era, counted from the first year
    of the era, as [civil_from_days] computes it. *)
Definition year_in_era (doe : Z) : Z :=
  let yoe := (doe - doe / 1460 + doe / 36524 - doe / 146096) / 365 in
  let doy := doe - (365 * yoe + yoe / 4 - yoe / 100) in
  let mp := (5 * doy + 2) / 153 in
  let m := if mp <? 10 then mp + 3 else mp - 9 in
  yoe + (if m <=? 2 then 1 else 0).

(** A year that [datetime] can hold. *)
Definition in_years (d : datetime) : bool :=
  ((1 <=? year d) && (year d <=? 9999))%bool.

(** By how much the offset of the zone went up during the day that ends
    at [t]; negative when it went down. *)
Definition transition (h : host) (t : Z) : Z :=
  utcoffset h t - utcoffset h (t - 86400).

(** The three years [fromtimestamp] wants in range for the second [t]:
    that of its local time, that of the local time a day earlier and,
    when the offset went down during that day, that of the local time
    that much earlier. *)
Definition convertible (h : host) (t : Z) : bool :=
  (in_years (local_datetime h t) &&
   in_years (local_datetime h (t - 86400)) &&
   (if transition h t <? 0
    then in_years (local_datetime h (t + transition h t))
    else true))%bool.

(** Two to the 53: the integers below it are doubles. *)
Definition two53 : Q := 9007199254740992 # 1.

(** The year of the local time of [t] fits the [int] of [struct tm]. *)
Definition tm_fits (h : host) (t : Z) : bool :=
  ((- 2 ^ 31 <=? year (local_datetime h t) - 1900) &&
   (year (local_datetime h t) - 1900 <? 2 ^ 31))%bool.

(** An explicit argument or, when it is omitted, a piece of today's
    date. *)
Definition or_today (x : pystr) (piece : string) : string :=
  if truthy x then py_str x else piece.

(** A raw entry and a graph payload with the given entries. *)
Definition entry (timestamp v : value) : value :=
  VDict [("timestamp", timestamp); ("value", v)].

Definition payload_of (entries : list value) : value :=
  VDict [("values", VDict [("A+", VDict [("total", VDict [("data", VList entries)])])])].

(** The query parameters of section 4.1 of the specification, in the
    order the builder adds them; [ty], [tm] and [td] are the year, month
    and day of today as text. *)
Definition url_parameters_spec (meter : string)
    (period year month day granularity : pystr) (ty tm td : string)
  : list (string * pystr) :=
  let always := [("counterNumber", Some meter); ("period", period)] in
  if ESTScraper.period_is period "Y" then
    always ++ [("year", Some (or_today year ty))]
  else if ESTScraper.period_is period "M" then
    always ++ [("year", Some (or_today year ty));
               ("month", Some (or_today month tm));
               ("granularity", granularity)]
  else if ESTScraper.period_is period "D" then
    always ++ [("date", Some (or_today day td +++ "." +++ or_today month tm
                              +++ "." +++ or_today year ty));
               ("granularity", granularity)]
  else always.

(** Every element of a parsed page. *)
Definition all_elements (root : list element) : list element :=
  flat_map descendants_or_self root.

(** [root('input[name=<field>]').attr('value')] *)
Definition scraped (root : list element) (field : string) : pystr :=
  pq_attr (pq_select root (TagAttr "input" "name" field)) "value".

(** [root('div.chart').attr('data-values')] *)
Definition chart_lookup (root : list element) : pystr :=
  pq_attr (pq_select root (TagClass "div" "chart")) "data-values".

(** The four ways in which a page after login carries no usable chart:
    no chart element; a chart element without the attribute; an
    attribute that is not JSON; JSON without the fixed path. *)
Definition unusable_chart (h : host) (root : list element) : Prop :=
  pq_select root (TagClass "div" "chart") = []
  \/ (exists e rest,
        pq_select root (TagClass "div" "chart") = e :: rest /\
        get_attr e "data-values" = None)
  \/ (exists s, chart_lookup root = Some s /\ is_ok (json_loads h s) = false)
  \/ (exists s payload,
        chart_lookup root = Some s /\ json_loads h s = Ok payload /\
        is_ok (ESTScraper.graph_data payload) = false).

(** How many times the builder reads the clock: once for an omitted
    year, whatever the period; once for an omitted month when the period
    is MONTH or DAY; once for an omitted day when the period is DAY. *)
Definition clock_reads (period y m d : pystr) : nat :=
  let omitted (x : pystr) := if truthy x then 0%nat else 1%nat in
  (omitted y
   + (if ESTScraper.period_is period "M" then omitted m else 0)
   + (if ESTScraper.period_is period "D" then omitted m + omitted d else 0))%nat.

(** Occurrences of a character in a string. *)
Fixpoint count_char (c : ascii) (s : string) : nat :=
  match s with
  | EmptyString => O
  | String c' s' => ((if Ascii.eqb c' c then 1 else 0) + count_char c s')%nat
  end.

(** A request to one of the two endpoints of the scraper. *)
Definition to_endpoint (r : request) : Prop :=
  match r with
  | GET url => exists query, url = ESTScraper.DATA_URL +++ "?" +++ query
  | POST url _ => url = ESTScraper.LOGIN_URL
  end.

(** ** Fixtures: a host, pages and payloads for concrete runs *)

Module Fixture.

(** Eastern European Time, without daylight saving. *)
Definition riga (t : Z) : Z := 7200.

Definition noon : datetime := mk_datetime 2017 3 5 12 0 0 0.

Definition login_page : list element :=
  [Element "html" []
     [Element "body" []
        [Element "form" [("action", "/lv/private/user-authentification/")]
           [Element "input" [("type", "hidden"); ("name", "_token"); ("value", "abc123")] [];
            Element "input" [("type", "hidden"); ("name", "returnUrl"); ("value", "/lv/")] [];
            Element "input" [("type", "text"); ("name", "login"); ("value", "somebody")] [];
            Element "input" [("type", "password"); ("name", "password")] []]]]].

Definition march_first : value :=
  payload_of [entry (VInt 1456790400000) (VFloat (Finite (25 # 2)))].

(** Entries whose values are not numbers. *)
Definition mixed : value :=
  payload_of
    [entry (VInt 1456790400000) (VStr "12.5");
     entry (VInt 1456794000000) VNone;
     entry (VInt 1456797600000) (VBool true);
     entry (VInt 1456801200000) (VDict [("kWh", VInt 3)]);
     entry (VInt 1456804800000) (VList [VInt 1; VInt 2])].

Definition chart_page (tag : string) (data_values : string) : list element :=
  [Element "html" []
     [Element "body" []
        [Element "h1" [("class", "title")] [];
         Element tag [("class", "chart wide"); ("data-values", data_values)] []]]].

Definition no_chart_page : list element :=
  [Element "html" [] [Element "body" [] [Element "p" [] []]]].

(** The parsers know the pages and payloads above by name. *)
Definition parse (text : string) : result (list element) :=
  if String.eqb text "login" then Ok login_page
  else if String.eqb text "chart" then Ok (chart_page "div" "march_first")
  else if String.eqb text "span-chart" then Ok (chart_page "span" "march_first")
  else if String.eqb text "mixed-chart" then Ok (chart_page "div" "mixed")
  else if String.eqb text "bad-json" then Ok (chart_page "div" "{")
  else if String.eqb text "no-path" then Ok (chart_page "div" "empty-object")
  else Ok no_chart_page.

Definition loads (s : string) : result value :=
  if String.eqb s "march_first" then Ok march_first
  else if String.eqb s "mixed" then Ok mixed
  else if String.eqb s "empty-object" then Ok (VDict [])
  else Raise ValueError.

Definition dumps (v : value) (indent : nat) : string := "<json>".

(** A site that answers the first request with the login page and the
    login POST with the page named [after_login]. *)
Definition site (after_login : string) (log : list request) : result string :=
  match last log (GET "") with
  | GET _ => Ok "login"
  | POST _ _ => Ok after_login
  end.

(** A part of the Unicode database: the no-break space and the ideographic
    space; the Arabic-Indic and the fullwidth digits. *)
Definition isspace (cp : Z) : bool := ((cp =? 160) || (cp =? 12288))%bool.

Definition todecimal (cp : Z) : option Z :=
  if ((1632 <=? cp) && (cp <=? 1641))%bool then Some (cp - 1632)
  else if ((65296 <=? cp) && (cp <=? 65305))%bool then Some (cp - 65296)
  else None.

(** A file system in which only the directory [nodir] is missing and the
    device [/dev/full] takes nothing. *)
Definition no_such_directory (name : string) : bool :=
  String.prefix "nodir/" name.

Definition device_full (name content : string) : option string :=
  if String.eqb name "/dev/full" then Some EmptyString else None.

Definition host_serving (after_login : string) : host :=
  mk_host (fun _ => noon) riga (site after_login) parse loads dumps
    isspace todecimal 4300 no_such_directory device_full.

Definition fresh : world := mk_world 0 [] [] [].

Definition me : ESTScraper.t := ESTScraper.init "user" "secret" "12345".

End Fixture.

(** * Properties *)

(** ** Doubles and [fromtimestamp] *)

Lemma py_round_exact num den k :
  num = k * Z.pos den -> py_round (num # den) = k.
Proof.
  intros ->. unfold py_round, Qfloor.
  rewrite Z.div_mul by discriminate.
  unfold Qcompare, Qminus, Qplus, Qopp, inject_Z. cbn [Qnum Qden].
  replace ((k * Z.pos den * 1 + - k * Z.pos den) * 2) with 0 by ring.
  reflexivity.
Qed.

(** The integer nearest to [n / d] is within a half of it. *)
Lemma py_round_near n d :
  2 * Z.abs (n - py_round (n # d) * Z.pos d) <= Z.pos d.
Proof.
  unfold py_round, Qfloor, Qcompare, Qminus, Qplus, Qopp, inject_Z.
  cbn [Qnum Qden].
  pose proof (Z.div_mod n (Z.pos d) ltac:(discriminate)) as Hdm.
  pose proof (Z.mod_pos_bound n (Z.pos d) ltac:(reflexivity)) as Hmod.
  set (f := n / Z.pos d) in *. set (r := n mod Z.pos d) in *.
  replace ((n * 1 + - f * Z.pos d) * 2) with (2 * r) by lia.
  replace (1 * Z.pos (d * 1)) with (Z.pos d) by (rewrite Pos.mul_1_r; lia).
  destruct (Z.compare_spec (2 * r) (Z.pos d)) as [E | L | G].
  - destruct (Z.even f); lia.
  - lia.
  - lia.
Qed.

(** A rational below [2^53] in magnitude: the scale of its double. *)
Lemma fl_scale n d :
  n <> 0 -> Z.abs n < 2 ^ 53 * Z.pos d ->
  exists s,
    0 <= s /\
    2 ^ 52 * Z.pos d <= Z.abs n * 2 ^ s /\
    fl (n # d) =
    Qred (py_round ((n * 2 ^ s) # d) # Z.to_pos (2 ^ s)).
Proof.
  intros Hn Hlt. unfold fl. cbn [Qnum Qden].
  apply Z.eqb_neq in Hn as Hn'. rewrite Hn'.
  set (la := Z.log2 (Z.abs n)). set (ld := Z.log2 (Z.pos d)).
  assert (Ha : 2 ^ la <= Z.abs n < 2 ^ (la + 1)).
  { unfold la. pose proof (Z.log2_spec (Z.abs n) ltac:(lia)) as H.
    now rewrite <- Z.add_1_r in H. }
  assert (Hd : 2 ^ ld <= Z.pos d < 2 ^ (ld + 1)).
  { unfold ld. pose proof (Z.log2_spec (Z.pos d) ltac:(lia)) as H.
    now rewrite <- Z.add_1_r in H. }
  assert (Hla : 0 <= la) by apply Z.log2_nonneg.
  assert (Hld : 0 <= ld) by apply Z.log2_nonneg.
  assert (He1 : la - ld - 53 <= 0).
  { destruct (Z_le_gt_dec (la - ld - 53) 0) as [H | H]; [exact H | exfalso].
    assert (2 ^ (53 + (ld + 1)) <= 2 ^ la) by (apply Z.pow_le_mono_r; lia).
    rewrite Z.pow_add_r in H0 by lia. nia. }
  set (e1 := la - ld - 53) in *.
  assert (Hmax1 : Z.max 0 e1 = 0) by lia.
  assert (Hmin1 : Z.max 0 (- e1) = - e1) by lia.
  rewrite Hmax1, Hmin1. rewrite Z.pow_0_r, Z.mul_1_r.
  destruct (Z.abs (n * 2 ^ (- e1)) <? 2 ^ 53 * Z.pos d) eqn:Htest.
  - exists (- e1). rewrite Hmax1, Hmin1, Z.pow_0_r, !Z.mul_1_r.
    split; [lia | split; [ | reflexivity]].
    (* the lower bound needs the strict part of the logarithm of [d] *)
    assert (E : 2 ^ (53 + ld) = 2 ^ la * 2 ^ (- e1)).
    { rewrite <- Z.pow_add_r by lia. f_equal. lia. }
    assert (2 ^ (53 + ld) = 2 ^ 52 * 2 ^ (ld + 1)).
    { rewrite <- Z.pow_add_r by lia. f_equal. lia. }
    assert (0 < 2 ^ (- e1)) by (apply Z.pow_pos_nonneg; lia).
    nia.
  - apply Z.ltb_ge in Htest.
    assert (He1' : e1 < 0).
    { destruct (Z.eq_dec e1 0) as [E | E]; [ | lia].
      rewrite E in Htest. cbn in Htest. lia. }
    exists (- (e1 + 1)).
    assert (Hmax2 : Z.max 0 (e1 + 1) = 0) by lia.
    assert (Hmin2 : Z.max 0 (- (e1 + 1)) = - (e1 + 1)) by lia.
    rewrite Hmax2, Hmin2, Z.pow_0_r, !Z.mul_1_r.
    split; [lia | split; [ | reflexivity]].
    assert (E : 2 ^ (- e1) = 2 * 2 ^ (- (e1 + 1))).
    { replace (- e1) with (1 + - (e1 + 1)) at 1 by lia.
      rewrite Z.pow_add_r by lia. reflexivity. }
    rewrite Z.abs_mul, (Z.abs_eq (2 ^ (- e1))) in Htest
      by (apply Z.pow_nonneg; lia).
    rewrite E in Htest.
    change (2 ^ 53) with (2 * 2 ^ 52) in Htest. lia.
Qed.

Lemma fl_exact n d k :
  n = k * Z.pos d -> Z.abs k < 2 ^ 53 -> fl (n # d) = inject_Z k.
Proof.
  intros Hn Hk. destruct (Z.eq_dec k 0) as [-> | Hk0].
  - subst n. reflexivity.
  - assert (Hn0 : n <> 0) by (subst n; nia).
    assert (Hlt : Z.abs n < 2 ^ 53 * Z.pos d).
    { subst n. rewrite Z.abs_mul, (Z.abs_eq (Z.pos d)) by lia. nia. }
    destruct (fl_scale n d Hn0 Hlt) as (s & Hs & _ & ->).
    assert (Hpow : 0 < 2 ^ s) by (apply Z.pow_pos_nonneg; lia).
    rewrite (py_round_exact _ d (k * 2 ^ s)) by (subst n; ring).
    rewrite <- (Qcanon.Qred_identity (inject_Z k)) by apply Z.gcd_1_r.
    apply Qred_complete. unfold Qeq, inject_Z. cbn [Qnum Qden].
    rewrite Z2Pos.id by exact Hpow. ring.
Qed.


(** The relative error of rounding to a double. *)
Lemma fl_error q :
  Z.abs (Qnum q) < 2 ^ 53 * Z.pos (Qden q) ->
  ((fl q - q) * two53 <= Qabs q /\ (q - fl q) * two53 <= Qabs q)%Q.
Proof.
  destruct q as [n d]. cbn [Qnum Qden]. intros Hlt.
  destruct (Z.eq_dec n 0) as [-> | Hn0].
  - change (fl (0 # d)) with 0%Q.
    split; unfold Qle, Qminus, Qplus, Qmult, Qopp, Qabs, two53;
      cbn [Qnum Qden Z.abs Z.mul Z.add Z.opp]; lia.
  - destruct (fl_scale n d Hn0 Hlt) as (s & Hs & Hlow & ->).
    assert (Hpow : 0 < 2 ^ s) by (apply Z.pow_pos_nonneg; lia).
    pose proof (py_round_near (n * 2 ^ s) d) as Hnear.
    set (m := py_round (n * 2 ^ s # d)) in *.
    rewrite Qred_correct.
    unfold Qle, Qminus, Qplus, Qmult, Qopp, Qabs, two53. cbn [Qnum Qden].
    rewrite !Pos2Z.inj_mul, Z2Pos.id by exact Hpow.
    set (P := 2 ^ s) in *. set (D := Z.pos d) in *.
    assert (HD : 0 < D) by reflexivity.
    change (2 ^ 52) with 4503599627370496 in Hlow.
    split; nia.
Qed.

Lemma fl_error_abs q :
  (Qabs q < two53)%Q ->
  ((fl q - q) * two53 <= Qabs q /\ (q - fl q) * two53 <= Qabs q)%Q.
Proof.
  intros H. apply fl_error. destruct q as [n d].
  unfold Qlt, Qabs, two53 in H. cbn [Qnum Qden] in *. lia.
Qed.

Lemma py_round_ge c y : (inject_Z c <= y)%Q -> c <= py_round y.
Proof.
  destruct y as [n d]. unfold Qle, inject_Z. cbn [Qnum Qden]. intros H.
  pose proof (py_round_near n d). nia.
Qed.

Lemma py_round_le c y : (y <= inject_Z c)%Q -> py_round y <= c.
Proof.
  destruct y as [n d]. unfold Qle, inject_Z. cbn [Qnum Qden]. intros H.
  pose proof (py_round_near n d). nia.
Qed.

Lemma Qtrunc_between r k :
  (inject_Z k < r)%Q -> (r < inject_Z k + 1)%Q ->
  Qtrunc r = if 0 <=? k then k else k + 1.
Proof.
  destruct r as [n d]. unfold Qlt, Qplus, inject_Z, Qtrunc.
  cbn [Qnum Qden]. intros Hlo Hhi.
  destruct (0 <=? k) eqn:Hk; [apply Z.leb_le in Hk | apply Z.leb_gt in Hk];
    Z.to_euclidean_division_equations; nia.
Qed.

Lemma to_timeval_whole k :
  - 2 ^ 63 <= k < 2 ^ 63 -> to_timeval (inject_Z k) = Ok (k, 0).
Proof.
  intros Hk. unfold to_timeval, modf, Qtrunc, inject_Z. cbn [Qnum Qden].
  rewrite Z.quot_1_r. unfold float_mul.
  replace (fl _) with 0%Q.
  2:{ unfold Qminus, Qplus, Qmult, Qopp. cbn [Qnum Qden].
      replace ((k * 1 + - k * 1) * 1000000) with 0 by ring. reflexivity. }
  change (py_round 0) with 0. cbn [Z.leb Z.ltb Z.compare].
  replace (- 2 ^ 63 <=? k) with true by (symmetry; apply Z.leb_le; lia).
  replace (k <=? 2 ^ 63) with true by (symmetry; apply Z.leb_le; lia).
  replace (k =? 2 ^ 63) with false by (symmetry; apply Z.eqb_neq; lia).
  reflexivity.
Qed.

Lemma float_of_small_int n :
  Z.abs n < 2 ^ 53 -> float_of_int n = Ok (inject_Z n).
Proof.
  intros H. unfold float_of_int.
  assert (Hbig : 2 ^ 53 < 2 ^ 1024 - 2 ^ 970) by (vm_compute; reflexivity).
  replace (2 ^ 1024 - 2 ^ 970 <=? Z.abs n) with false
    by (symmetry; apply Z.leb_gt; lia).
  f_equal. apply fl_exact; [ring | exact H].
Qed.

Lemma quotient_by_1000 ms :
  (inject_Z ms / inject_Z 1000 = ms * 1 # 1000)%Q.
Proof. reflexivity. Qed.

Lemma time_t_range {A} k (x : A) :
  Z.abs k < 274877906944 ->
  (if ((- 2 ^ 63 <=? k) && (k <=? 2 ^ 63))%bool
   then Ok (if k =? 2 ^ 63 then - 2 ^ 63 else k, x)
   else Raise OverflowError) = Ok (k, x).
Proof.
  intros H.
  assert (H63 : 2 ^ 63 = 9223372036854775808) by reflexivity.
  replace (- 2 ^ 63 <=? k) with true by (symmetry; apply Z.leb_le; lia).
  replace (k <=? 2 ^ 63) with true by (symmetry; apply Z.leb_le; lia).
  replace (k =? 2 ^ 63) with false by (symmetry; apply Z.eqb_neq; lia).
  reflexivity.
Qed.

(** The seconds and microseconds of [ms / 1000.0]: the seconds are the
    integer quotient, whatever the rounding of the division and of the
    product with 1e6 did to the fraction. *)
Lemma timeval_of_millis ms :
  Z.abs (ms / 1000) < 2 ^ 38 ->
  exists us,
    to_timeval (float_div (inject_Z ms) (inject_Z 1000)) = Ok (ms / 1000, us) /\
    0 <= us <= 999999.
Proof.
  intros Hk. unfold float_div. rewrite quotient_by_1000, Z.mul_1_r.
  pose proof (Z.div_mod ms 1000 ltac:(lia)) as Hdm.
  pose proof (Z.mod_pos_bound ms 1000 ltac:(lia)) as Hj.
  set (k := ms / 1000) in *. set (j := ms mod 1000) in *.
  change (2 ^ 38) with 274877906944 in Hk.
  destruct (Z.eq_dec j 0) as [Hj0 | Hj0].
  - rewrite (fl_exact ms 1000 k) by (change (2 ^ 53) with 9007199254740992; lia).
    exists 0. split; [ | lia]. apply to_timeval_whole.
    change (2 ^ 63) with 9223372036854775808. lia.
  - set (q := (ms # 1000)%Q). set (r := fl q).
    assert (Hq : (q == inject_Z k + (j # 1000))%Q).
    { unfold q, Qeq, Qplus, inject_Z. cbn [Qnum Qden]. lia. }
    assert (Hklo : (- (274877906943 # 1) <= inject_Z k)%Q)
      by (unfold Qle, Qopp, inject_Z; cbn [Qnum Qden Z.opp]; lia).
    assert (Hkhi : (inject_Z k <= 274877906943 # 1)%Q)
      by (unfold Qle, inject_Z; cbn [Qnum Qden]; lia).
    assert (Hjlo : ((1 # 1000) <= (j # 1000))%Q)
      by (unfold Qle; cbn [Qnum Qden]; lia).
    assert (Hjhi : ((j # 1000) <= (999 # 1000))%Q)
      by (unfold Qle; cbn [Qnum Qden]; lia).
    assert (Habs : (Qabs q <= (274877906944 # 1))%Q).
    { apply Qabs_Qle_condition. split; lra. }
    destruct (fl_error_abs q) as [Hup Hdown];
      [unfold two53; lra | fold r in Hup, Hdown; unfold two53 in Hup, Hdown].
    assert (Hrlo : (inject_Z k < r)%Q) by lra.
    assert (Hrhi : (r < inject_Z k + 1)%Q) by lra.
    unfold to_timeval, modf. rewrite (Qtrunc_between r k Hrlo Hrhi).
    unfold float_mul.
    set (w := if 0 <=? k then k else k + 1).
    set (x := ((r - inject_Z w) * inject_Z 1000000)%Q).
    set (y := fl x).
    assert (Hw : (inject_Z w == inject_Z k \/ inject_Z w == inject_Z k + 1)%Q).
    { unfold w. destruct (0 <=? k); [left; reflexivity | right].
      rewrite inject_Z_plus. reflexivity. }
    assert (Hmillion : (inject_Z 1000000 == 1000000 # 1)%Q) by reflexivity.
    assert (Hxabs : (Qabs x <= (1000000 # 1))%Q).
    { apply Qabs_Qle_condition. unfold x. destruct Hw as [Hw | Hw];
        rewrite Hw, Hmillion; split; lra. }
    destruct (fl_error_abs x) as [Hyup Hydown];
      [unfold two53; lra | fold y in Hyup, Hydown; unfold two53 in Hyup, Hydown].
    destruct (0 <=? k) eqn:Hsign; subst w.
    + assert (Hlo : (inject_Z 1 <= y)%Q).
      { change (inject_Z 1) with (1 # 1)%Q. unfold x in *.
        rewrite Hmillion in *. lra. }
      assert (Hhi : (y <= inject_Z 999999)%Q).
      { change (inject_Z 999999) with (999999 # 1)%Q. unfold x in *.
        rewrite Hmillion in *. lra. }
      apply py_round_ge in Hlo. apply py_round_le in Hhi.
      exists (py_round y). split; [ | lia].
      replace (1000000 <=? py_round y) with false
        by (symmetry; apply Z.leb_gt; lia).
      replace (py_round y <? 0) with false by (symmetry; apply Z.ltb_ge; lia).
      apply time_t_range. lia.
    + assert (Hw1 : (inject_Z (k + 1) == inject_Z k + 1)%Q)
        by (rewrite inject_Z_plus; reflexivity).
      assert (Hlo : (inject_Z (- 999999) <= y)%Q).
      { change (inject_Z (- 999999)) with (- 999999 # 1)%Q. unfold x in *.
        rewrite Hw1, Hmillion in *. lra. }
      assert (Hhi : (y <= inject_Z (- 1))%Q).
      { change (inject_Z (- 1)) with (- 1 # 1)%Q. unfold x in *.
        rewrite Hw1, Hmillion in *. lra. }
      apply py_round_ge in Hlo. apply py_round_le in Hhi.
      exists (py_round y + 1000000). split; [ | lia].
      replace (1000000 <=? py_round y) with false
        by (symmetry; apply Z.leb_gt; lia).
      replace (py_round y <? 0) with true by (symmetry; apply Z.ltb_lt; lia).
      replace (k + 1 - 1) with k by ring.
      apply time_t_range. lia.
Qed.

(** ** The calendar *)

Lemma is_leap_shift y k : is_leap (y + k * 400) = is_leap y.
Proof.
  unfold is_leap.
  replace ((y + k * 400) mod 4) with (y mod 4)
    by (replace (y + k * 400) with (y + (k * 100) * 4) by ring;
        now rewrite Z.mod_add by lia).
  replace ((y + k * 400) mod 100) with (y mod 100)
    by (replace (y + k * 400) with (y + (k * 4) * 100) by ring;
        now rewrite Z.mod_add by lia).
  now rewrite Z.mod_add by lia.
Qed.

(** In the year that starts on 1 March, day 365 exists only before a
    leap February. *)
Lemma year_of_era doe :
  0 <= doe <= 146096 ->
  let yoe := (doe - doe / 1460 + doe / 36524 - doe / 146096) / 365 in
  let doy := doe - (365 * yoe + yoe / 4 - yoe / 100) in
  0 <= yoe <= 399 /\ 0 <= doy <= 365 /\
  (doy = 365 -> is_leap (yoe + 1) = true).
Proof.
  intros H yoe doy.
  assert (0 <= yoe <= 399 /\ 0 <= doy <= 365 /\
          (doy = 365 ->
           (yoe + 1) mod 4 = 0 /\
           ((yoe + 1) mod 100 <> 0 \/ (yoe + 1) mod 400 = 0))) as (Hy & Hd & Hl).
  { subst yoe doy. Z.div_mod_to_equations. lia. }
  repeat split; try lia.
  intros E. destruct (Hl E) as [H4 H100]. unfold is_leap.
  rewrite H4. simpl.
  destruct H100 as [H100 | H400].
  - apply Z.eqb_neq in H100. now rewrite H100.
  - rewrite H400. apply orb_true_r.
Qed.

Lemma month_day_of doy :
  0 <= doy <= 365 ->
  let mp := (5 * doy + 2) / 153 in
  let d := doy - (153 * mp + 2) / 5 + 1 in
  let m := if mp <? 10 then mp + 3 else mp - 9 in
  1 <= m <= 12 /\ 1 <= d /\
  (doy <= 364 -> d <= days_in_month 1 m) /\
  (doy = 365 -> m = 2 /\ d = 29) /\
  (306 <= doy <-> m <= 2).
Proof.
  intros H mp d m.
  assert (Hmp : 0 <= mp <= 11) by (subst mp; Z.div_mod_to_equations; lia).
  assert (Hc : mp = 0 \/ mp = 1 \/ mp = 2 \/ mp = 3 \/ mp = 4 \/ mp = 5 \/
               mp = 6 \/ mp = 7 \/ mp = 8 \/ mp = 9 \/ mp = 10 \/ mp = 11)
    by lia.
  subst m d.
  repeat (destruct Hc as [E | Hc]; [rewrite E; subst mp; cbn;
    Z.div_mod_to_equations; lia | ]).
  rewrite Hc; subst mp; cbn; Z.div_mod_to_equations; lia.
Qed.

Lemma days_in_month_common y m : days_in_month 1 m <= days_in_month y m.
Proof.
  unfold days_in_month. destruct (m =? 2); [ | lia].
  change (is_leap 1) with false. cbv iota. destruct (is_leap y); lia.
Qed.


Lemma year_in_era_cases doe :
  0 <= doe <= 146096 ->
  let yoe := (doe - doe / 1460 + doe / 36524 - doe / 146096) / 365 in
  let doy := doe - (365 * yoe + yoe / 4 - yoe / 100) in
  (306 <= doy -> year_in_era doe = yoe + 1) /\
  (doy < 306 -> year_in_era doe = yoe) /\
  0 <= doy <= 365 /\ 0 <= yoe <= 399.
Proof.
  intros H yoe doy. unfold year_in_era. fold yoe. fold doy.
  destruct (year_of_era doe H) as (Hy & Hd & _). fold yoe in Hy, Hd. fold doy in Hd.
  destruct (month_day_of doy Hd) as (_ & _ & _ & _ & Hm).
  cbv zeta in Hm. clearbody doy yoe.
  set (m := if (5 * doy + 2) / 153 <? 10
            then (5 * doy + 2) / 153 + 3 else (5 * doy + 2) / 153 - 9) in *.
  clearbody m.
  repeat split; try lia; intros Hdoy; destruct (Z.leb_spec m 2); lia.
Qed.

(** A day earlier the year is the same or the one before. *)
Lemma year_in_era_bounds doe :
  0 <= doe <= 146096 -> 0 <= year_in_era doe <= 400.
Proof.
  intros H. destruct (year_in_era_cases doe H) as (A1 & A2 & A3 & A4).
  cbv zeta in *.
  set (yoe := (doe - doe / 1460 + doe / 36524 - doe / 146096) / 365) in *.
  destruct (Z_lt_ge_dec (doe - (365 * yoe + yoe / 4 - yoe / 100)) 306)
    as [L | G].
  - rewrite (A2 L). lia.
  - rewrite (A1 ltac:(lia)). lia.
Qed.

Lemma year_in_era_step doe :
  1 <= doe <= 146096 ->
  year_in_era (doe - 1) <= year_in_era doe <= year_in_era (doe - 1) + 1.
Proof.
  intros H.
  destruct (year_in_era_cases doe ltac:(lia)) as (A1 & A2 & A3 & A4).
  destruct (year_in_era_cases (doe - 1) ltac:(lia)) as (B1 & B2 & B3 & B4).
  cbv zeta in *.
  set (y1 := (doe - doe / 1460 + doe / 36524 - doe / 146096) / 365) in *.
  set (y0 := (doe - 1 - (doe - 1) / 1460 + (doe - 1) / 36524
              - (doe - 1) / 146096) / 365) in *.
  assert (Hrel : y0 = y1 \/
                 (y0 = y1 - 1 /\ doe - (365 * y1 + y1 / 4 - y1 / 100) = 0)).
  { subst y0 y1. Z.div_mod_to_equations. lia. }
  set (d1 := doe - (365 * y1 + y1 / 4 - y1 / 100)) in *.
  set (d0 := doe - 1 - (365 * y0 + y0 / 4 - y0 / 100)) in *.
  assert (Hd : y0 = y1 -> d0 = d1 - 1)
    by (intros E; subst d0 d1; rewrite E; lia).
  assert (Hd' : y0 = y1 - 1 -> 364 <= d0).
  { intros E. subst d0 d1. destruct Hrel as [E' | [_ E']]; [lia | ].
    rewrite E. Z.div_mod_to_equations. lia. }
  destruct (Z_lt_ge_dec d1 306), (Z_lt_ge_dec d0 306);
    try (rewrite (A2 ltac:(lia))); try (rewrite (A1 ltac:(lia)));
    try (rewrite (B2 ltac:(lia))); try (rewrite (B1 ltac:(lia))); lia.
Qed.

Lemma civil_year days :
  fst (fst (civil_from_days days)) =
  year_in_era ((days + 719468) mod 146097)
  + 400 * ((days + 719468) / 146097).
Proof.
  unfold civil_from_days, year_in_era. cbn [fst].
  rewrite Z.mod_eq by lia.
  replace (days + 719468 - 146097 * ((days + 719468) / 146097))
    with (days + 719468 - (days + 719468) / 146097 * 146097) by ring.
  ring.
Qed.

Lemma civil_year_step days :
  fst (fst (civil_from_days (days - 1))) <= fst (fst (civil_from_days days))
  <= fst (fst (civil_from_days (days - 1))) + 1.
Proof.
  rewrite !civil_year.
  set (z := days + 719468). replace (days - 1 + 719468) with (z - 1) by (subst z; ring).
  pose proof (Z.mod_pos_bound z 146097 ltac:(lia)) as Hdoe.
  destruct (Z.eq_dec (z mod 146097) 0) as [E | E].
  - assert (E1 : (z - 1) mod 146097 = 146096)
      by (Z.div_mod_to_equations; lia).
    assert (E2 : (z - 1) / 146097 = z / 146097 - 1)
      by (Z.div_mod_to_equations; lia).
    rewrite E, E1, E2.
    change (year_in_era 0) with 0. change (year_in_era 146096) with 400. lia.
  - assert (E1 : (z - 1) mod 146097 = z mod 146097 - 1)
      by (Z.div_mod_to_equations; lia).
    assert (E2 : (z - 1) / 146097 = z / 146097)
      by (Z.div_mod_to_equations; lia).
    rewrite E1, E2.
    pose proof (year_in_era_step (z mod 146097) ltac:(lia)). lia.
Qed.

Lemma civil_from_days_valid days :
  let '(y, m, d) := civil_from_days days in
  1 <= m <= 12 /\ 1 <= d <= days_in_month y m.
Proof.
  unfold civil_from_days.
  set (z := days + 719468).
  set (era := z / 146097).
  set (doe := z - era * 146097).
  assert (Hdoe : 0 <= doe <= 146096)
    by (subst doe era; Z.div_mod_to_equations; lia).
  clearbody doe. clearbody era. clear z.
  destruct (year_of_era doe Hdoe) as (Hy & Hdoy & Hleap).
  set (yoe := (doe - doe / 1460 + doe / 36524 - doe / 146096) / 365) in *.
  set (doy := doe - (365 * yoe + yoe / 4 - yoe / 100)) in *.
  clearbody doy.
  destruct (month_day_of doy Hdoy) as (Hm & Hd1 & Hcommon & Hfeb & _).
  set (mp := (5 * doy + 2) / 153) in *.
  set (d := doy - (153 * mp + 2) / 5 + 1) in *.
  set (m := if mp <? 10 then mp + 3 else mp - 9) in *.
  clearbody m d. split; [exact Hm | split; [exact Hd1 | ]].
  destruct (Z_le_gt_dec doy 364) as [Hle | Hgt].
  - pose proof (days_in_month_common
                  (yoe + era * 400 + (if m <=? 2 then 1 else 0)) m).
    specialize (Hcommon Hle). lia.
  - assert (E : doy = 365) by lia.
    destruct (Hfeb E) as [-> ->]. change (2 <=? 2) with true. cbv iota.
    replace (yoe + era * 400 + 1) with (yoe + 1 + era * 400) by ring.
    unfold days_in_month. change (2 =? 2) with true. cbv iota.
    rewrite is_leap_shift, (Hleap E). lia.
Qed.

Lemma localtime_valid off t :
  let '(y, m, d, hh, mm, ss) := localtime off t in
  1 <= m <= 12 /\ 1 <= d <= days_in_month y m /\
  0 <= hh <= 23 /\ 0 <= mm <= 59 /\ 0 <= ss <= 59.
Proof.
  unfold localtime.
  pose proof (civil_from_days_valid ((t + off t) / 86400)) as H.
  destruct (civil_from_days ((t + off t) / 86400)) as [[y m] d].
  destruct H as (Hm & Hd).
  repeat split; try lia; Z.div_mod_to_equations; lia.
Qed.

(** ** Text of dates *)

Lemma append_empty_r s : s +++ EmptyString = s.
Proof. induction s as [ | c s IH]; simpl; [ | rewrite IH]; reflexivity. Qed.

Lemma all_from_spec f n : forall z,
  all_from f n z = true -> forall i, z <= i < z + Z.of_nat n -> f i = true.
Proof.
  induction n as [ | n IH]; intros z H i Hi; [lia | ].
  simpl in H. apply andb_prop in H. destruct H as [Hz Hrest].
  destruct (Z.eq_dec i z) as [-> | Hne]; [exact Hz | ].
  apply (IH (z + 1) Hrest). lia.
Qed.

Lemma zfill2_fits n : 0 <= n <= 99 -> fits "##" (zfill 2 n) = true.
Proof.
  intros H.
  apply (all_from_spec (fun k => fits "##" (zfill 2 k)) 100 0);
    [vm_compute; reflexivity | lia].
Qed.

Lemma year_fits n : 1000 <= n <= 9999 -> fits "####" (decimal n) = true.
Proof.
  intros H.
  apply (all_from_spec (fun k => fits "####" (decimal k)) (Z.to_nat 9000) 1000);
    [vm_compute; reflexivity | lia].
Qed.

Lemma year_four_digits n : 1000 <= n <= 9999 -> decimal n = zfill 4 n.
Proof.
  intros H.
  assert (E : String.eqb (decimal n) (zfill 4 n) = true).
  { apply (all_from_spec (fun k => String.eqb (decimal k) (zfill 4 k))
             (Z.to_nat 9000) 1000); [vm_compute; reflexivity | lia]. }
  now apply String.eqb_eq.
Qed.

Lemma fits_app p1 : forall s1 p2 s2,
  fits p1 s1 = true -> fits p2 s2 = true -> fits (p1 +++ p2) (s1 +++ s2) = true.
Proof.
  induction p1 as [ | p p1 IH]; intros [ | c s1] p2 s2 H1 H2;
    simpl in *; try discriminate; auto.
  apply andb_prop in H1. destruct H1 as [Hc H1].
  rewrite Hc. simpl. now apply IH.
Qed.

Lemma strftime_timestamp d :
  strftime d "%Y-%m-%d %H:%M:%S" =
  decimal (year d) +++ "-" +++ zfill 2 (month d) +++ "-" +++
  zfill 2 (day d) +++ " " +++ zfill 2 (hour d) +++ ":" +++
  zfill 2 (minute d) +++ ":" +++ zfill 2 (second d).
Proof.
  rewrite <- (append_empty_r (zfill 2 (second d))). reflexivity.
Qed.

Lemma strftime_Y d : strftime d "%Y" = decimal (year d).
Proof. cbn. apply append_empty_r. Qed.

Lemma strftime_m d : strftime d "%m" = zfill 2 (month d).
Proof. cbn. apply append_empty_r. Qed.

Lemma strftime_d d : strftime d "%d" = zfill 2 (day d).
Proof. cbn. apply append_empty_r. Qed.

Lemma datetime_valid_bounds d :
  datetime_valid d = true ->
  1 <= year d <= 9999 /\ 1 <= month d <= 12 /\ 1 <= day d <= 31 /\
  0 <= hour d <= 23 /\ 0 <= minute d <= 59 /\ 0 <= second d <= 59.
Proof.
  unfold datetime_valid. intros H.
  repeat (apply andb_prop in H; destruct H as [H ?]).
  repeat match goal with
         | E : (_ <=? _) = true |- _ => apply Z.leb_le in E
         end.
  assert (days_in_month (year d) (month d) <= 31).
  { unfold days_in_month.
    destruct (month d =? 2); [destruct (is_leap _); lia | ].
    destruct (_ || _)%bool; lia. }
  lia.
Qed.

Lemma timestamp_text_fits d :
  datetime_valid d = true -> 1000 <= year d ->
  fits "####-##-## ##:##:##" (strftime d "%Y-%m-%d %H:%M:%S") = true.
Proof.
  intros H Hy. apply datetime_valid_bounds in H.
  rewrite strftime_timestamp.
  change "####-##-## ##:##:##"
    with ("####" +++ "-" +++ "##" +++ "-" +++ "##" +++ " " +++ "##" +++ ":"
          +++ "##" +++ ":" +++ "##").
  repeat (apply fits_app;
          [first [apply year_fits; lia | apply zfill2_fits; lia | reflexivity] | ]).
  apply zfill2_fits; lia.
Qed.

(** ** [_format_timestamp] *)

Section Timestamp.

Variable h : host.

Lemma new_datetime_format y m d hh mm ss us :
  0 <= us <= 999999 ->
  (let? dt := new_datetime y m d hh mm ss us in
   Ok (strftime dt "%Y-%m-%d %H:%M:%S"))%result =
  (let? dt := new_datetime y m d hh mm ss 0 in
   Ok (strftime dt "%Y-%m-%d %H:%M:%S"))%result.
Proof.
  intros Hus. unfold new_datetime, datetime_valid. cbn [year month day hour minute second microsecond].
  replace (0 <=? us) with true by (symmetry; apply Z.leb_le; lia).
  replace (us <=? 999999) with true by (symmetry; apply Z.leb_le; lia).
  change (0 <=? 0) with true. change (0 <=? 999999) with true.
  destruct (_ && _)%bool; reflexivity.
Qed.

(** The microseconds do not reach the text. *)
Lemma from_timet_format t us :
  0 <= us <= 999999 ->
  (let? dt := datetime_from_timet_and_us (utcoffset h) t us in
   Ok (strftime dt "%Y-%m-%d %H:%M:%S"))%result =
  (let? dt := datetime_from_timet_and_us (utcoffset h) t 0 in
   Ok (strftime dt "%Y-%m-%d %H:%M:%S"))%result.
Proof.
  intros Hus. unfold datetime_from_timet_and_us.
  destruct (localtime_r (utcoffset h) t) as [[[[[[y m] d] hh] mm] ss] | e];
    [ | reflexivity].
  cbn [rbind].
  destruct (utc_to_seconds (utcoffset h) t y) as [rs | e]; [ | reflexivity].
  cbn [rbind].
  destruct (local (utcoffset h) (t - 86400)) as [ps | e]; [ | reflexivity].
  cbn [rbind].
  destruct (if rs - ps - 86400 <? 0
            then local (utcoffset h) (t + (rs - ps - 86400)) else Ok 0)
    as [x | e]; [ | reflexivity].
  cbn [rbind]. now apply new_datetime_format.
Qed.

Lemma format_timestamp_whole ts ms :
  py_int h ts = Ok ms ->
  Z.abs (ms / 1000) < 2 ^ 38 ->
  ESTScraper._format_timestamp h ts =
  (let? d := fromtimestamp (utcoffset h) (inject_Z (ms / 1000)) in
   Ok (strftime d "%Y-%m-%d %H:%M:%S"))%result.
Proof.
  intros Hms Hk. unfold ESTScraper._format_timestamp. rewrite Hms.
  cbn [rbind].
  assert (Hsmall : Z.abs ms < 2 ^ 53).
  { change (2 ^ 38) with 274877906944 in Hk.
    change (2 ^ 53) with 9007199254740992.
    Z.div_mod_to_equations. lia. }
  rewrite (float_of_small_int ms Hsmall). cbn [rbind].
  destruct (timeval_of_millis ms Hk) as (us & Htv & Hus).
  unfold fromtimestamp. rewrite Htv, to_timeval_whole.
  2:{ change (2 ^ 38) with 274877906944 in Hk.
      change (2 ^ 63) with 9223372036854775808. lia. }
  cbn [rbind fst snd]. now apply from_timet_format.
Qed.

Lemma year_local_datetime t :
  year (local_datetime h t) =
  fst (fst (civil_from_days ((t + utcoffset h t) / 86400))).
Proof.
  unfold local_datetime, localtime.
  destruct (civil_from_days ((t + utcoffset h t) / 86400)) as [[y m] d].
  reflexivity.
Qed.

Lemma in_years_fits t :
  in_years (local_datetime h t) = true -> tm_fits h t = true.
Proof.
  unfold in_years, tm_fits. intros H. apply andb_prop in H.
  destruct H as [H1 H2]. apply Z.leb_le in H1, H2.
  apply andb_true_intro.
  change (2 ^ 31) with 2147483648.
  split; [apply Z.leb_le | apply Z.ltb_lt]; lia.
Qed.

Lemma localtime_r_fits t :
  tm_fits h t = true ->
  localtime_r (utcoffset h) t = Ok (localtime (utcoffset h) t).
Proof.
  unfold tm_fits, localtime_r, local_datetime.
  destruct (localtime (utcoffset h) t) as [[[[[y m] d] hh] mm] ss].
  cbn [year]. now intros ->.
Qed.

Lemma local_outcome u :
  tm_fits h u = true ->
  local (utcoffset h) u =
  if in_years (local_datetime h u) then Ok (u + utcoffset h u)
  else Raise ValueError.
Proof.
  intros Hfit. unfold local. rewrite (localtime_r_fits u Hfit).
  unfold in_years, local_datetime, utc_to_seconds.
  destruct (localtime (utcoffset h) u) as [[[[[y m] d] hh] mm] ss].
  reflexivity.
Qed.

(** The outcome of the conversion of a second whose three probes have
    years that fit [struct tm]. *)
Lemma from_timet_cases t :
  tm_fits h t = true ->
  tm_fits h (t - 86400) = true ->
  (transition h t < 0 -> tm_fits h (t + transition h t) = true) ->
  (let? dt := datetime_from_timet_and_us (utcoffset h) t 0 in
   Ok (strftime dt "%Y-%m-%d %H:%M:%S"))%result =
  if convertible h t
  then Ok (strftime (local_datetime h t) "%Y-%m-%d %H:%M:%S")
  else Raise ValueError.
Proof.
  intros Hfit Hfit1 Hfit2.
  unfold datetime_from_timet_and_us, convertible.
  rewrite (localtime_r_fits t Hfit).
  pose proof (localtime_valid (utcoffset h) t) as Hvalid.
  unfold in_years at 1. unfold local_datetime at 1 2 5.
  destruct (localtime (utcoffset h) t) as [[[[[y m] d] hh] mm] ss].
  cbn [rbind year]. unfold utc_to_seconds at 1.
  destruct ((1 <=? y) && (y <=? 9999))%bool eqn:Hy; [ | reflexivity].
  cbn [rbind andb]. rewrite (local_outcome _ Hfit1).
  destruct (in_years (local_datetime h (t - 86400))); [ | reflexivity].
  cbn [rbind andb].
  replace (t + utcoffset h t - (t - 86400 + utcoffset h (t - 86400)) - 86400)
    with (transition h t) by (unfold transition; ring).
  destruct (transition h t <? 0) eqn:Htr.
  - apply Z.ltb_lt in Htr. rewrite (local_outcome _ (Hfit2 Htr)).
    destruct (in_years (local_datetime h (t + transition h t)));
      [ | reflexivity].
    cbn [rbind]. unfold new_datetime, datetime_valid.
    cbn [year month day hour minute second microsecond].
    replace (Z.min 59 ss) with ss by lia.
    apply andb_prop in Hy. destruct Hy as [Hy1 Hy2].
    rewrite Hy1, Hy2.
    repeat match goal with
           | |- context [?a <=? ?b] =>
               replace (a <=? b) with true by (symmetry; apply Z.leb_le; lia)
           end.
    reflexivity.
  - cbn [rbind]. unfold new_datetime, datetime_valid.
    cbn [year month day hour minute second microsecond].
    replace (Z.min 59 ss) with ss by lia.
    apply andb_prop in Hy. destruct Hy as [Hy1 Hy2].
    rewrite Hy1, Hy2.
    repeat match goal with
           | |- context [?a <=? ?b] =>
               replace (a <=? b) with true by (symmetry; apply Z.leb_le; lia)
           end.
    reflexivity.
Qed.

End Timestamp.

Lemma civil_year_mono d1 d2 :
  d1 <= d2 -> fst (fst (civil_from_days d1)) <= fst (fst (civil_from_days d2)).
Proof.
  intros Hle. replace d2 with (d1 + Z.of_nat (Z.to_nat (d2 - d1))) by lia.
  induction (Z.to_nat (d2 - d1)) as [ | n IH].
  - rewrite Z.add_0_r. lia.
  - pose proof (civil_year_step (d1 + Z.of_nat (S n))) as Hstep.
    replace (d1 + Z.of_nat (S n) - 1) with (d1 + Z.of_nat n) in Hstep by lia.
    lia.
Qed.

(** Within five days of a day of the years 2 to 9998 the year is 1 to
    9999. *)
Lemma year_near days days' :
  2 <= fst (fst (civil_from_days days)) <= 9998 ->
  Z.abs (days' - days) <= 5 ->
  1 <= fst (fst (civil_from_days days')) <= 9999.
Proof.
  intros [Hlo Hhi] Hnear.
  assert (Hfrom : - 718797 <= days).
  { destruct (Z_le_gt_dec (- 718797) days) as [H | H]; [exact H | exfalso].
    pose proof (civil_year_mono days (- 718798) ltac:(lia)) as Hmono.
    change (fst (fst (civil_from_days (- 718798)))) with 1 in Hmono. lia. }
  assert (Hto : days <= 2932531).
  { destruct (Z_le_gt_dec days 2932531) as [H | H]; [exact H | exfalso].
    pose proof (civil_year_mono 2932532 days ltac:(lia)) as Hmono.
    change (fst (fst (civil_from_days 2932532))) with 9999 in Hmono. lia. }
  pose proof (civil_year_mono (- 719162) days' ltac:(lia)) as H1.
  pose proof (civil_year_mono days' 2932896 ltac:(lia)) as H2.
  change (fst (fst (civil_from_days (- 719162)))) with 1 in H1.
  change (fst (fst (civil_from_days 2932896))) with 9999 in H2. lia.
Qed.

Section Conversion.

Variable h : host.

Lemma tm_fits_bound t :
  Z.abs (t + utcoffset h t) < 2 ^ 39 -> tm_fits h t = true.
Proof.
  intros H. unfold tm_fits. rewrite year_local_datetime, civil_year.
  change (2 ^ 39) with 549755813888 in H.
  change (2 ^ 31) with 2147483648.
  set (z := (t + utcoffset h t) / 86400 + 719468).
  pose proof (Z.mod_pos_bound z 146097 ltac:(lia)) as Hdoe.
  pose proof (year_in_era_bounds (z mod 146097) ltac:(lia)) as Hyear.
  assert (Hera : - 100 <= z / 146097 <= 100)
    by (subst z; Z.div_mod_to_equations; lia).
  apply andb_true_intro. split; [apply Z.leb_le | apply Z.ltb_lt]; lia.
Qed.

(** The outcome of the conversion when the three years are in range. *)
Lemma from_timet_convertible t :
  convertible h t = true ->
  (let? dt := datetime_from_timet_and_us (utcoffset h) t 0 in
   Ok (strftime dt "%Y-%m-%d %H:%M:%S"))%result =
  Ok (strftime (local_datetime h t) "%Y-%m-%d %H:%M:%S").
Proof.
  intros Hconv. pose proof Hconv as Hthree. unfold convertible in Hthree.
  apply andb_prop in Hthree. destruct Hthree as [Hthree Hfold].
  apply andb_prop in Hthree. destruct Hthree as [Hin Hin1].
  rewrite from_timet_cases, Hconv.
  - reflexivity.
  - now apply in_years_fits.
  - now apply in_years_fits.
  - intros Hdown. apply Z.ltb_lt in Hdown. rewrite Hdown in Hfold.
    now apply in_years_fits.
Qed.

(** Where no offset exceeds a day, the seconds of the years 2 to 9998
    can be converted. *)
Lemma convertible_years t :
  (forall u, Z.abs (utcoffset h u) <= 86400) ->
  2 <= year (local_datetime h t) <= 9998 ->
  convertible h t = true.
Proof.
  intros Hoff Hy. unfold convertible, in_years.
  assert (Hnear : forall u,
            Z.abs (u + utcoffset h u - (t + utcoffset h t)) <= 4 * 86400 ->
            ((1 <=? year (local_datetime h u)) &&
             (year (local_datetime h u) <=? 9999))%bool = true).
  { intros u Hu. rewrite year_local_datetime in Hy |- *.
    pose proof (year_near ((t + utcoffset h t) / 86400)
                  ((u + utcoffset h u) / 86400) Hy) as Hyear.
    apply andb_true_intro. split; apply Z.leb_le; apply Hyear;
      Z.div_mod_to_equations; lia. }
  pose proof (Hoff t) as H0. pose proof (Hoff (t - 86400)) as H1.
  rewrite (Hnear t) by lia. rewrite (Hnear (t - 86400)) by lia.
  cbn [andb]. destruct (transition h t <? 0) eqn:Hdown; [ | reflexivity].
  apply Z.ltb_lt in Hdown. apply Hnear. unfold transition in *.
  pose proof (Hoff (t + (utcoffset h t - utcoffset h (t - 86400)))) as H2.
  lia.
Qed.

End Conversion.

(** ** [_format_timestamp]: its errors, and seconds far from the epoch *)

(** A rational of magnitude [2^53] or more: the scale of its double. *)
Lemma fl_scale_up n d :
  2 ^ 53 * Z.pos d <= Z.abs n ->
  exists s,
    0 <= s /\
    2 ^ 52 * (Z.pos d * 2 ^ s) <= Z.abs n /\
    fl (n # d) =
    Qred (py_round (n # Z.to_pos (Z.pos d * 2 ^ s)) * 2 ^ s # 1).
Proof.
  intros Hge. unfold fl. cbn [Qnum Qden].
  assert (Hn : n <> 0) by lia.
  apply Z.eqb_neq in Hn as Hn'. rewrite Hn'.
  set (la := Z.log2 (Z.abs n)). set (ld := Z.log2 (Z.pos d)).
  assert (Ha : 2 ^ la <= Z.abs n < 2 ^ (la + 1)).
  { unfold la. pose proof (Z.log2_spec (Z.abs n) ltac:(lia)) as H.
    now rewrite <- Z.add_1_r in H. }
  assert (Hd : 2 ^ ld <= Z.pos d < 2 ^ (ld + 1)).
  { unfold ld. pose proof (Z.log2_spec (Z.pos d) ltac:(lia)) as H.
    now rewrite <- Z.add_1_r in H. }
  assert (Hla : 0 <= la) by apply Z.log2_nonneg.
  assert (Hld : 0 <= ld) by apply Z.log2_nonneg.
  assert (He1 : 0 <= la - ld - 53 + 1).
  { destruct (Z_le_gt_dec 0 (la - ld - 53 + 1)) as [H | H]; [exact H | exfalso].
    assert (2 ^ (la + 1) <= 2 ^ (53 + ld - 1)) by (apply Z.pow_le_mono_r; lia).
    assert (2 ^ (53 + ld) = 2 * 2 ^ (53 + ld - 1)).
    { replace (53 + ld) with (1 + (53 + ld - 1)) at 1 by lia.
      rewrite Z.pow_add_r by lia. reflexivity. }
    rewrite Z.pow_add_r in H1 by lia. nia. }
  set (e1 := la - ld - 53) in *.
  (* the candidate scale [e1] is too small only when it is -1 *)
  destruct (Z.abs (n * 2 ^ Z.max 0 (- e1)) <? 2 ^ 53 * (Z.pos d * 2 ^ Z.max 0 e1))
    eqn:Htest.
  - apply Z.ltb_lt in Htest.
    assert (He1' : 0 <= e1).
    { destruct (Z_le_gt_dec 0 e1) as [H | H]; [exact H | exfalso].
      assert (e1 = -1) by lia.
      replace (Z.max 0 (- e1)) with 1 in Htest by lia.
      replace (Z.max 0 e1) with 0 in Htest by lia.
      rewrite Z.pow_0_r, Z.pow_1_r in Htest. lia. }
    replace (Z.max 0 (- e1)) with 0 in * by lia.
    replace (Z.max 0 e1) with e1 in * by lia.
    rewrite Z.pow_0_r, Z.mul_1_r in *.
    exists e1. split; [exact He1' | split].
    + assert (E : 2 ^ la = 2 ^ 53 * 2 ^ ld * 2 ^ e1).
      { rewrite <- !Z.pow_add_r by lia. f_equal. lia. }
      assert (E2 : 2 ^ (ld + 1) = 2 * 2 ^ ld).
      { rewrite Z.pow_add_r by lia. ring. }
      assert (0 < 2 ^ e1) by (apply Z.pow_pos_nonneg; lia).
      change (2 ^ 53) with (2 * 2 ^ 52) in E. nia.
    + reflexivity.
  - apply Z.ltb_ge in Htest.
    replace (Z.max 0 (- (e1 + 1))) with 0 by lia.
    replace (Z.max 0 (e1 + 1)) with (e1 + 1) by lia.
    rewrite Z.pow_0_r, Z.mul_1_r.
    exists (e1 + 1). split; [exact He1 | split].
    + destruct (Z_le_gt_dec 0 e1) as [H | H].
      * replace (Z.max 0 (- e1)) with 0 in Htest by lia.
        replace (Z.max 0 e1) with e1 in Htest by lia.
        rewrite Z.pow_0_r, Z.mul_1_r in Htest.
        replace (e1 + 1) with (1 + e1) by lia.
        rewrite Z.pow_add_r by lia.
        change (2 ^ 53) with (2 * 2 ^ 52) in Htest.
        change (2 ^ 1) with 2. lia.
      * assert (e1 = -1) by lia.
        replace (e1 + 1) with 0 by lia.
        rewrite Z.pow_0_r, Z.mul_1_r. change (2 ^ 53) with (2 * 2 ^ 52) in Hge.
        lia.
    + reflexivity.
Qed.

(** The relative error of rounding to a double, at any magnitude. *)
Lemma fl_error_any q :
  ((fl q - q) * two53 <= Qabs q /\ (q - fl q) * two53 <= Qabs q)%Q.
Proof.
  destruct (Z_lt_ge_dec (Z.abs (Qnum q)) (2 ^ 53 * Z.pos (Qden q))) as [L | G].
  - now apply fl_error.
  - destruct q as [n d]. cbn [Qnum Qden] in G.
    destruct (fl_scale_up n d ltac:(lia)) as (s & Hs & Hlow & ->).
    assert (Hpow : 0 < 2 ^ s) by (apply Z.pow_pos_nonneg; lia).
    pose proof (py_round_near n (Z.to_pos (Z.pos d * 2 ^ s))) as Hnear.
    set (m := py_round (n # Z.to_pos (Z.pos d * 2 ^ s))) in *.
    rewrite Z2Pos.id in Hnear by lia.
    rewrite Qred_correct.
    unfold Qle, Qminus, Qplus, Qmult, Qopp, Qabs, two53. cbn [Qnum Qden].
    rewrite ?Pos2Z.inj_mul, ?Pos.mul_1_l, ?Pos.mul_1_r.
    set (P := 2 ^ s) in *. set (D := Z.pos d) in *.
    assert (HD : 0 < D) by reflexivity.
    change (2 ^ 52) with 4503599627370496 in Hlow.
    split; nia.
Qed.

(** Rounding keeps a number on its side of a bound, up to the relative
    error. *)
Lemma fl_above b q :
  (0 <= b)%Q -> (b <= q)%Q ->
  (b * (9007199254740991 # 9007199254740992) <= fl q)%Q.
Proof.
  intros Hb Hq. destruct (fl_error_any q) as [_ H].
  rewrite Qabs_pos in H by lra. unfold two53 in *. lra.
Qed.

Lemma fl_below b q :
  (b <= 0)%Q -> (q <= b)%Q ->
  (fl q <= b * (9007199254740991 # 9007199254740992))%Q.
Proof.
  intros Hb Hq. destruct (fl_error_any q) as [H _].
  rewrite Qabs_neg in H by lra. unfold two53 in *. lra.
Qed.

(** The seconds of a double far from zero are far from zero. *)
Lemma to_timeval_far d :
  ((274877906942 # 1) <= d \/ d <= - (274877906942 # 1))%Q ->
  match to_timeval d with
  | Ok (t, _) => 2 ^ 38 - 4 <= Z.abs t
  | Raise e => e = OverflowError
  end.
Proof.
  intros Hd. unfold to_timeval, modf.
  assert (Hw : 274877906942 <= Z.abs (Qtrunc d)).
  { destruct d as [n D]. unfold Qle, Qopp, Qtrunc in *. cbn [Qnum Qden] in *.
    destruct Hd as [Hd | Hd]; Z.to_euclidean_division_equations; nia. }
  set (w := Qtrunc d) in *.
  set (us := py_round (float_mul (d - inject_Z w) (inject_Z 1000000))).
  change (2 ^ 38) with 274877906944.
  change (2 ^ 63) with 9223372036854775808.
  destruct (1000000 <=? us); [ | destruct (us <? 0)];
    match goal with
    | |- context [(?a <=? ?i) && (?i <=? ?b)] =>
        destruct ((a <=? i) && (i <=? b)) eqn:Hrange
    end; try reflexivity;
    match goal with
    | |- context [?i =? ?b] => destruct (Z.eqb_spec i b)
    end; lia.
Qed.

Lemma quotient_far ms :
  2 ^ 38 <= Z.abs (ms / 1000) ->
  let d := float_div (fl (inject_Z ms)) (inject_Z 1000) in
  ((274877906942 # 1) <= d \/ d <= - (274877906942 # 1))%Q.
Proof.
  intros Hk d. change (2 ^ 38) with 274877906944 in Hk.
  unfold float_div in d.
  set (a := fl (inject_Z ms)) in *.
  set (q := (a / inject_Z 1000)%Q) in *.
  assert (Hq : (q == a * (1 # 1000))%Q) by reflexivity.
  destruct (Z_le_gt_dec 0 (ms / 1000)) as [Hpos | Hneg].
  - left.
    assert (Hms : ((274877906944000 # 1) <= inject_Z ms)%Q).
    { unfold Qle, inject_Z. cbn [Qnum Qden].
      Z.to_euclidean_division_equations. lia. }
    pose proof (fl_above (274877906944000 # 1) _ ltac:(discriminate) Hms) as Ha.
    fold a in Ha.
    assert (Hq' : ((274877906944000 # 1) * (9007199254740991 # 9007199254740992)
                   * (1 # 1000) <= q)%Q) by lra.
    assert (Hpos' : (0 <= (274877906944000 # 1)
                          * (9007199254740991 # 9007199254740992)
                          * (1 # 1000))%Q) by (vm_compute; discriminate).
    pose proof (fl_above _ _ Hpos' Hq') as Hd. fold d in Hd. lra.
  - right.
    assert (Hms : (inject_Z ms <= - (274877906943001 # 1))%Q).
    { unfold Qle, Qopp, inject_Z. cbn [Qnum Qden Z.opp].
      Z.to_euclidean_division_equations. lia. }
    pose proof (fl_below (- (274877906943001 # 1)) _ ltac:(discriminate) Hms)
      as Ha.
    fold a in Ha.
    assert (Hq' : (q <= - (274877906943001 # 1)
                        * (9007199254740991 # 9007199254740992)
                        * (1 # 1000))%Q) by lra.
    assert (Hneg' : (- (274877906943001 # 1)
                        * (9007199254740991 # 9007199254740992)
                        * (1 # 1000) <= 0)%Q) by (vm_compute; discriminate).
    pose proof (fl_below _ _ Hneg' Hq') as Hd. fold d in Hd. lra.
Qed.

Lemma year_far days :
  (3181456 <= days -> 9999 < fst (fst (civil_from_days days))) /\
  (days <= - 3181457 -> fst (fst (civil_from_days days)) < 1).
Proof.
  rewrite civil_year.
  set (z := days + 719468).
  pose proof (Z.mod_pos_bound z 146097 ltac:(lia)) as Hdoe.
  pose proof (year_in_era_bounds (z mod 146097) ltac:(lia)) as Hyear.
  split; intros H.
  - assert (26 <= z / 146097) by (subst z; Z.div_mod_to_equations; lia). lia.
  - assert (z / 146097 <= - 17) by (subst z; Z.div_mod_to_equations; lia). lia.
Qed.

Section Far.

Variable h : host.

Lemma py_int_raises ts e :
  py_int h ts = Raise e ->
  e = TypeError \/ e = ValueError \/ e = OverflowError.
Proof.
  destruct ts as [ | | | [ | | ] | s | | ]; cbn [py_int];
    try discriminate; try (intros [= <-]; auto).
  destruct (int_of_string _ _); [discriminate | ].
  intros [= <-]. auto.
Qed.

Lemma local_raises u e :
  local (utcoffset h) u = Raise e -> e = ValueError \/ e = OSError.
Proof.
  unfold local, localtime_r, utc_to_seconds.
  destruct (localtime (utcoffset h) u) as [[[[[y m] d] hh] mm] ss].
  destruct ((- 2 ^ 31 <=? y - 1900) && (y - 1900 <? 2 ^ 31))%bool;
    cbn [rbind]; [ | intros [= <-]; auto].
  destruct ((1 <=? y) && (y <=? 9999))%bool; [discriminate | ].
  intros [= <-]. auto.
Qed.

Lemma from_timet_raises t us e :
  datetime_from_timet_and_us (utcoffset h) t us = Raise e ->
  e = ValueError \/ e = OSError.
Proof.
  unfold datetime_from_timet_and_us, localtime_r.
  destruct (localtime (utcoffset h) t) as [[[[[y m] d] hh] mm] ss].
  destruct ((- 2 ^ 31 <=? y - 1900) && (y - 1900 <? 2 ^ 31))%bool;
    cbn [rbind]; [ | intros [= <-]; auto].
  unfold utc_to_seconds at 1.
  destruct ((1 <=? y) && (y <=? 9999))%bool;
    cbn [rbind]; [ | intros [= <-]; auto].
  destruct (local (utcoffset h) (t - 86400)) as [ps | e'] eqn:Hprobe;
    cbn [rbind]; [ | intros [= <-]; exact (local_raises _ _ Hprobe)].
  match goal with
  | |- context [if ?c then local ?o ?u else Ok 0] =>
      destruct c;
        [destruct (local o u) as [x | e'] eqn:Hfold | ]
  end; cbn [rbind];
    try (intros [= <-]; exact (local_raises _ _ Hfold));
    unfold new_datetime; destruct (datetime_valid _);
    try discriminate; intros [= <-]; auto.
Qed.

Lemma to_timeval_raises d e : to_timeval d = Raise e -> e = OverflowError.
Proof.
  unfold to_timeval, modf.
  set (us := py_round _).
  destruct (1000000 <=? us); [ | destruct (us <? 0)];
    match goal with
    | |- context [(?a <=? ?i) && (?i <=? ?b)] =>
        destruct ((a <=? i) && (i <=? b))
    end; try discriminate; now intros [= <-].
Qed.

(** The errors of [_format_timestamp]. *)
Lemma format_timestamp_raises ts e :
  ESTScraper._format_timestamp h ts = Raise e ->
  e = TypeError \/ e = ValueError \/ e = OverflowError \/ e = OSError.
Proof.
  unfold ESTScraper._format_timestamp.
  destruct (py_int h ts) as [ms | e'] eqn:Hms; cbn [rbind].
  2:{ intros [= <-]. destruct (py_int_raises _ _ Hms) as [-> | [-> | ->]]; auto. }
  unfold float_of_int.
  destruct (2 ^ 1024 - 2 ^ 970 <=? Z.abs ms); cbn [rbind];
    [intros [= <-]; auto | ].
  unfold fromtimestamp.
  destruct (to_timeval _) as [[t us] | e'] eqn:Htv; cbn [rbind fst snd].
  2:{ intros [= <-]. rewrite (to_timeval_raises _ _ Htv). auto. }
  destruct (datetime_from_timet_and_us (utcoffset h) t us) as [dt | e'] eqn:Hdt;
    cbn [rbind]; [discriminate | ].
  intros [= <-]. destruct (from_timet_raises _ _ _ Hdt) as [-> | ->]; auto.
Qed.

Hypothesis offsets : forall u, Z.abs (utcoffset h u) <= 86400.

(** Far from the epoch the local year is out of the range of
    [datetime]. *)
Lemma year_far_seconds t :
  2 ^ 38 - 4 <= Z.abs t ->
  year (local_datetime h t) < 1 \/ 9999 < year (local_datetime h t).
Proof.
  intros Ht. change (2 ^ 38) with 274877906944 in Ht.
  pose proof (offsets t) as Hoff.
  rewrite year_local_datetime.
  destruct (year_far ((t + utcoffset h t) / 86400)) as [Hhi Hlo].
  destruct (Z_le_gt_dec 0 t) as [Hpos | Hneg]; [right; apply Hhi | left; apply Hlo];
    Z.div_mod_to_equations; lia.
Qed.

Lemma from_timet_far t us :
  2 ^ 38 - 4 <= Z.abs t ->
  is_ok (datetime_from_timet_and_us (utcoffset h) t us) = false.
Proof.
  intros Ht. pose proof (year_far_seconds t Ht) as Hout.
  unfold datetime_from_timet_and_us, localtime_r.
  unfold local_datetime in Hout.
  destruct (localtime (utcoffset h) t) as [[[[[y m] d] hh] mm] ss].
  cbn [year] in Hout.
  destruct ((- 2 ^ 31 <=? y - 1900) && (y - 1900 <? 2 ^ 31))%bool;
    cbn [rbind]; [ | reflexivity].
  unfold utc_to_seconds at 1.
  replace ((1 <=? y) && (y <=? 9999))%bool with false; [reflexivity | ].
  symmetry. apply andb_false_iff.
  destruct Hout; [left; apply Z.leb_gt | right; apply Z.leb_gt]; lia.
Qed.

(** Beyond 2^38 seconds from the epoch nothing is returned. *)
Lemma format_timestamp_far ts ms :
  py_int h ts = Ok ms ->
  2 ^ 38 <= Z.abs (ms / 1000) ->
  is_ok (ESTScraper._format_timestamp h ts) = false.
Proof.
  intros Hms Hk. unfold ESTScraper._format_timestamp. rewrite Hms.
  cbn [rbind]. unfold float_of_int.
  destruct (2 ^ 1024 - 2 ^ 970 <=? Z.abs ms); cbn [rbind]; [reflexivity | ].
  unfold fromtimestamp.
  pose proof (to_timeval_far _ (quotient_far ms Hk)) as Hfar.
  destruct (to_timeval _) as [[t us] | e]; cbn [rbind fst snd];
    [ | reflexivity].
  pose proof (from_timet_far t us Hfar) as Hno.
  destruct (datetime_from_timet_and_us (utcoffset h) t us); [discriminate | ].
  reflexivity.
Qed.

(** Within 2^38 seconds of the epoch the outcome is that of the three
    probes. *)
Lemma format_timestamp_near ts ms :
  py_int h ts = Ok ms ->
  Z.abs (ms / 1000) < 2 ^ 38 ->
  ESTScraper._format_timestamp h ts =
  if convertible h (ms / 1000)
  then Ok (strftime (local_datetime h (ms / 1000)) "%Y-%m-%d %H:%M:%S")
  else Raise ValueError.
Proof.
  intros Hms Hk. rewrite (format_timestamp_whole h ts ms Hms Hk).
  unfold fromtimestamp. rewrite to_timeval_whole.
  2:{ change (2 ^ 38) with 274877906944 in Hk.
      change (2 ^ 63) with 9223372036854775808. lia. }
  cbn [rbind fst snd]. change (2 ^ 38) with 274877906944 in Hk.
  apply from_timet_cases.
  - apply tm_fits_bound. pose proof (offsets (ms / 1000)).
    change (2 ^ 39) with 549755813888. lia.
  - apply tm_fits_bound. pose proof (offsets (ms / 1000 - 86400)).
    change (2 ^ 39) with 549755813888. lia.
  - intros _. apply tm_fits_bound. unfold transition.
    pose proof (offsets (ms / 1000)). pose proof (offsets (ms / 1000 - 86400)).
    pose proof (offsets (ms / 1000 + (utcoffset h (ms / 1000)
                                      - utcoffset h (ms / 1000 - 86400)))).
    change (2 ^ 39) with 549755813888. lia.
Qed.

End Far.

(** Rounding does not take a number beyond a bound by more than the
    relative error. *)
Lemma fl_at_most b q :
  (0 <= q)%Q -> (q <= b)%Q ->
  (fl q <= b * (9007199254740993 # 9007199254740992))%Q.
Proof.
  intros Hq Hb. destruct (fl_error_any q) as [H _].
  rewrite Qabs_pos in H by lra. unfold two53 in *. lra.
Qed.

Lemma fl_at_least b q :
  (q <= 0)%Q -> (b <= q)%Q ->
  (b * (9007199254740993 # 9007199254740992) <= fl q)%Q.
Proof.
  intros Hq Hb. destruct (fl_error_any q) as [_ H].
  rewrite Qabs_neg in H by lra. unfold two53 in *. lra.
Qed.

(** The double quotient of a number of milliseconds whose whole second
    lies between two bounds of one sign. *)
Lemma quotient_between ms lo hi :
  0 < lo ->
  lo <= Z.abs (ms / 1000) <= hi ->
  let d := float_div (fl (inject_Z ms)) (inject_Z 1000) in
  let down := (9007199254740991 # 9007199254740992)%Q in
  let up := (9007199254740993 # 9007199254740992)%Q in
  ((inject_Z lo - 1) * down * down <= d /\
   d <= (inject_Z hi + 1) * up * up)%Q \/
  (- (inject_Z hi + 1) * up * up <= d /\
   d <= - (inject_Z lo - 1) * down * down)%Q.
Proof.
  intros Hlo Hs d down up. unfold float_div in d.
  set (a := fl (inject_Z ms)) in *.
  set (q := (a / inject_Z 1000)%Q) in *.
  assert (Hq : (q == a * (1 # 1000))%Q) by reflexivity.
  assert (Hlo' : (1 <= inject_Z lo)%Q)
    by (unfold Qle, inject_Z; cbn [Qnum Qden]; lia).
  assert (Hhi' : (inject_Z lo <= inject_Z hi)%Q)
    by (unfold Qle, inject_Z; cbn [Qnum Qden]; lia).
  destruct (Z_le_gt_dec 0 (ms / 1000)) as [Hpos | Hneg].
  - left.
    assert (Hms1 : (inject_Z lo * (1000 # 1) <= inject_Z ms)%Q).
    { unfold Qle, Qmult, inject_Z. cbn [Qnum Qden Pos.mul].
      Z.to_euclidean_division_equations. lia. }
    assert (Hms2 : (inject_Z ms <= (inject_Z hi + 1) * (1000 # 1))%Q).
    { unfold Qle, Qplus, Qmult, inject_Z. cbn [Qnum Qden Pos.mul].
      Z.to_euclidean_division_equations. lia. }
    assert (H0 : (0 <= inject_Z ms)%Q) by lra.
    pose proof (fl_above (inject_Z lo * (1000 # 1)) _ ltac:(lra) Hms1) as Ha1.
    pose proof (fl_at_most _ _ H0 Hms2) as Ha2.
    fold a in Ha1, Ha2. clearbody a. clear Hms1 Hms2 H0.
    assert (Hq1 : (inject_Z lo * down <= q)%Q)
      by (unfold down; clearbody q; lra).
    assert (Hq2 : (q <= (inject_Z hi + 1) * up)%Q)
      by (unfold up; clearbody q; lra).
    assert (Hq0 : (0 <= q)%Q) by (unfold down in Hq1; clearbody q; lra).
    assert (Hb : (0 <= inject_Z lo * down)%Q) by (unfold down; lra).
    pose proof (fl_above _ _ Hb Hq1) as Hd1.
    pose proof (fl_at_most _ _ Hq0 Hq2) as Hd2.
    fold d in Hd1, Hd2. clearbody d. clearbody q.
    unfold down, up in *. split; lra.
  - right.
    assert (Hms1 : (inject_Z ms <= - (inject_Z lo - 1) * (1000 # 1))%Q).
    { unfold Qle, Qminus, Qplus, Qmult, Qopp, inject_Z.
      cbn [Qnum Qden Pos.mul Z.opp].
      Z.to_euclidean_division_equations. lia. }
    assert (Hms2 : (- inject_Z hi * (1000 # 1) <= inject_Z ms)%Q).
    { unfold Qle, Qmult, Qopp, inject_Z. cbn [Qnum Qden Pos.mul].
      Z.to_euclidean_division_equations. lia. }
    assert (H0 : (inject_Z ms <= 0)%Q) by lra.
    pose proof (fl_below (- (inject_Z lo - 1) * (1000 # 1)) _ ltac:(lra) Hms1)
      as Ha1.
    pose proof (fl_at_least _ _ H0 Hms2) as Ha2.
    fold a in Ha1, Ha2. clearbody a. clear Hms1 Hms2 H0.
    assert (Hq1 : (q <= - (inject_Z lo - 1) * down)%Q)
      by (unfold down; clearbody q; lra).
    assert (Hq2 : (- inject_Z hi * up <= q)%Q)
      by (unfold up; clearbody q; lra).
    assert (Hq0 : (q <= 0)%Q) by (unfold down in Hq1; clearbody q; lra).
    assert (Hb : (- (inject_Z lo - 1) * down <= 0)%Q) by (unfold down; lra).
    pose proof (fl_below _ _ Hb Hq1) as Hd1.
    pose proof (fl_at_least _ _ Hq0 Hq2) as Hd2.
    fold d in Hd1, Hd2. clearbody d. clearbody q.
    unfold down, up in *. split; lra.
Qed.

(** The seconds of a double between two bounds of one sign. *)
Lemma to_timeval_between d B1 B2 :
  0 < B1 -> B2 + 1 < 2 ^ 63 ->
  ((B1 # 1) <= d /\ d <= (B2 # 1) \/
   - (B2 # 1) <= d /\ d <= - (B1 # 1))%Q ->
  exists t us,
    to_timeval d = Ok (t, us) /\ B1 - 1 <= Z.abs t <= B2 + 1.
Proof.
  intros HB1 HB2 Hd. unfold to_timeval, modf.
  assert (Hw : B1 <= Z.abs (Qtrunc d) <= B2).
  { destruct d as [n D]. unfold Qle, Qopp, Qtrunc in *. cbn [Qnum Qden] in *.
    destruct Hd as [[H1 H2] | [H1 H2]];
      Z.to_euclidean_division_equations; nia. }
  set (w := Qtrunc d) in *.
  set (us := py_round (float_mul (d - inject_Z w) (inject_Z 1000000))).
  change (2 ^ 63) with 9223372036854775808 in *.
  destruct (1000000 <=? us); [ | destruct (us <? 0)];
    match goal with
    | |- context [(?a <=? ?i) && (?i <=? ?b)] =>
        replace ((a <=? i) && (i <=? b))%bool with true
          by (symmetry; apply andb_true_intro; split; apply Z.leb_le; lia);
        replace (i =? b) with false by (symmetry; apply Z.eqb_neq; lia)
    end; do 2 eexists; (split; [reflexivity | lia]).
Qed.

Lemma to_timeval_beyond d :
  ((9223372036854775810 # 1) <= d \/ d <= - (9223372036854775810 # 1))%Q ->
  to_timeval d = Raise OverflowError.
Proof.
  intros Hd. unfold to_timeval, modf.
  assert (Hw : 9223372036854775810 <= Z.abs (Qtrunc d)).
  { destruct d as [n D]. unfold Qle, Qopp, Qtrunc in *. cbn [Qnum Qden] in *.
    destruct Hd as [Hd | Hd]; Z.to_euclidean_division_equations; nia. }
  set (w := Qtrunc d) in *.
  set (us := py_round (float_mul (d - inject_Z w) (inject_Z 1000000))).
  change (2 ^ 63) with 9223372036854775808.
  destruct (1000000 <=? us); [ | destruct (us <? 0)];
    match goal with
    | |- context [(?a <=? ?i) && (?i <=? ?b)] =>
        replace ((a <=? i) && (i <=? b))%bool with false
          by (symmetry; apply andb_false_iff;
              destruct (Z_le_gt_dec 0 w);
              [right; apply Z.leb_gt | left; apply Z.leb_gt]; lia)
    end; reflexivity.
Qed.

(** The years of seconds that fit [struct tm], and of seconds that do
    not. *)
Lemma year_of_days_bounds days :
  (Z.abs days <= 417000000000 ->
   - 2 ^ 31 <= fst (fst (civil_from_days days)) - 1900 < 2 ^ 31) /\
  (1157000000000 <= Z.abs days ->
   fst (fst (civil_from_days days)) - 1900 < - 2 ^ 31 \/
   2 ^ 31 <= fst (fst (civil_from_days days)) - 1900).
Proof.
  rewrite civil_year. change (2 ^ 31) with 2147483648.
  set (z := days + 719468).
  pose proof (Z.mod_pos_bound z 146097 ltac:(lia)) as Hdoe.
  pose proof (year_in_era_bounds (z mod 146097) ltac:(lia)) as Hyear.
  split; intros H.
  - assert (- 2854300 <= z / 146097 <= 2854300)
      by (subst z; Z.div_mod_to_equations; lia).
    lia.
  - destruct (Z_le_gt_dec 0 days) as [Hpos | Hneg].
    + right.
      assert (7919000 <= z / 146097) by (subst z; Z.div_mod_to_equations; lia).
      lia.
    + left.
      assert (z / 146097 <= - 7919000) by (subst z; Z.div_mod_to_equations; lia).
      lia.
Qed.

(** Seconds that [time_t] cannot hold. *)
Lemma format_timestamp_overflow (h : host) ts ms :
  py_int h ts = Ok ms ->
  10 ^ 19 <= Z.abs (ms / 1000) ->
  ESTScraper._format_timestamp h ts = Raise OverflowError.
Proof.
  intros Hms Hs. unfold ESTScraper._format_timestamp. rewrite Hms.
  cbn [rbind]. unfold float_of_int, fromtimestamp.
  change (10 ^ 19) with 10000000000000000000 in Hs.
  destruct (2 ^ 1024 - 2 ^ 970 <=? Z.abs ms); [reflexivity | ].
  cbn [rbind].
  pose proof (quotient_between ms 10000000000000000000 (Z.abs (ms / 1000))
                ltac:(lia) ltac:(lia)) as Hd.
  cbv zeta in Hd.
  set (d := float_div (fl (inject_Z ms)) (inject_Z 1000)) in *. clearbody d.
  change (inject_Z 10000000000000000000)
    with (10000000000000000000 # 1)%Q in Hd.
  rewrite to_timeval_beyond; [reflexivity | ].
  assert (Hhi : (0 <= inject_Z (Z.abs (ms / 1000)))%Q)
    by (unfold Qle, inject_Z; cbn [Qnum Qden]; lia).
  set (x := inject_Z (Z.abs (ms / 1000))) in *. clearbody x.
  destruct Hd as [[H1 H2] | [H1 H2]]; [left | right]; lra.
Qed.

Section Classes.

Variable h : host.

Hypothesis offsets : forall u, Z.abs (utcoffset h u) <= 86400.

Lemma from_timet_value_error t us :
  2 ^ 38 - 4 <= Z.abs t <= 2 ^ 55 + 2 ^ 20 ->
  datetime_from_timet_and_us (utcoffset h) t us = Raise ValueError.
Proof.
  intros Ht. pose proof (year_far_seconds h offsets t ltac:(lia)) as Hout.
  pose proof (offsets t) as Hoff.
  assert (Hfit : tm_fits h t = true).
  { unfold tm_fits. rewrite year_local_datetime.
    destruct (year_of_days_bounds ((t + utcoffset h t) / 86400)) as [Hin _].
    change (2 ^ 55) with 36028797018963968 in Ht.
    change (2 ^ 20) with 1048576 in Ht.
    assert (Hdays : Z.abs ((t + utcoffset h t) / 86400) <= 417000000000)
      by (Z.div_mod_to_equations; lia).
    specialize (Hin Hdays).
    apply andb_true_intro. split; [apply Z.leb_le | apply Z.ltb_lt]; lia. }
  unfold datetime_from_timet_and_us. rewrite (localtime_r_fits h t Hfit).
  unfold local_datetime in Hout.
  destruct (localtime (utcoffset h) t) as [[[[[y m] d] hh] mm] ss].
  cbn [year] in Hout. cbn [rbind]. unfold utc_to_seconds at 1.
  replace ((1 <=? y) && (y <=? 9999))%bool with false; [reflexivity | ].
  symmetry. apply andb_false_iff.
  destruct Hout; [left; apply Z.leb_gt | right; apply Z.leb_gt]; lia.
Qed.

Lemma from_timet_os_error t us :
  10 ^ 17 - 10 ^ 6 <= Z.abs t ->
  datetime_from_timet_and_us (utcoffset h) t us = Raise OSError.
Proof.
  intros Ht. pose proof (offsets t) as Hoff.
  change (10 ^ 17) with 100000000000000000 in Ht.
  change (10 ^ 6) with 1000000 in Ht.
  destruct (year_of_days_bounds ((t + utcoffset h t) / 86400)) as [_ Hfar].
  assert (Hdays : 1157000000000 <= Z.abs ((t + utcoffset h t) / 86400))
    by (Z.div_mod_to_equations; lia).
  specialize (Hfar Hdays). rewrite <- year_local_datetime in Hfar.
  unfold datetime_from_timet_and_us, localtime_r.
  unfold local_datetime in Hfar.
  destruct (localtime (utcoffset h) t) as [[[[[y m] d] hh] mm] ss].
  cbn [year] in Hfar.
  replace ((- 2 ^ 31 <=? y - 1900) && (y - 1900 <? 2 ^ 31))%bool with false;
    [reflexivity | ].
  symmetry. apply andb_false_iff.
  destruct Hfar; [left; apply Z.leb_gt | right; apply Z.ltb_ge]; lia.
Qed.

(** The class of the error far from the epoch: a year that [datetime]
    cannot hold, then a year that [struct tm] cannot hold. *)
Lemma format_timestamp_far_classes ts ms :
  py_int h ts = Ok ms ->
  (2 ^ 38 <= Z.abs (ms / 1000) <= 2 ^ 55 ->
   ESTScraper._format_timestamp h ts = Raise ValueError) /\
  (10 ^ 17 <= Z.abs (ms / 1000) <= 9 * 10 ^ 18 ->
   ESTScraper._format_timestamp h ts = Raise OSError).
Proof.
  intros Hms. unfold ESTScraper._format_timestamp. rewrite Hms.
  cbn [rbind]. unfold float_of_int, fromtimestamp.
  split; intros Hs.
  - change (2 ^ 38) with 274877906944 in Hs.
    change (2 ^ 55) with 36028797018963968 in Hs.
    replace (2 ^ 1024 - 2 ^ 970 <=? Z.abs ms) with false.
    2:{ symmetry. apply Z.leb_gt.
        assert (Z.abs ms < 2 ^ 70)
          by (change (2 ^ 70) with 1180591620717411303424;
              Z.div_mod_to_equations; lia).
        assert (2 ^ 70 < 2 ^ 1024 - 2 ^ 970) by (vm_compute; reflexivity).
        lia. }
    cbn [rbind].
    pose proof (quotient_between ms 274877906944 36028797018963968
                  ltac:(lia) Hs) as Hd.
    cbv zeta in Hd.
    set (d := float_div (fl (inject_Z ms)) (inject_Z 1000)) in *. clearbody d.
    change (inject_Z 274877906944) with (274877906944 # 1)%Q in Hd.
    change (inject_Z 36028797018963968) with (36028797018963968 # 1)%Q in Hd.
    destruct (to_timeval_between d 274877906942 36028797018964000
                ltac:(lia) ltac:(vm_compute; reflexivity))
      as (t & us & -> & Ht).
    { destruct Hd as [[H1 H2] | [H1 H2]]; [left | right]; split; lra. }
    cbn [rbind fst snd]. rewrite from_timet_value_error; [reflexivity | ].
    change (2 ^ 38) with 274877906944. change (2 ^ 55) with 36028797018963968.
    change (2 ^ 20) with 1048576. lia.
  - change (10 ^ 17) with 100000000000000000 in Hs.
    change (9 * 10 ^ 18) with 9000000000000000000 in Hs.
    replace (2 ^ 1024 - 2 ^ 970 <=? Z.abs ms) with false.
    2:{ symmetry. apply Z.leb_gt.
        assert (Z.abs ms < 2 ^ 80)
          by (change (2 ^ 80) with 1208925819614629174706176;
              Z.div_mod_to_equations; lia).
        assert (2 ^ 80 < 2 ^ 1024 - 2 ^ 970) by (vm_compute; reflexivity).
        lia. }
    cbn [rbind].
    pose proof (quotient_between ms 100000000000000000 9000000000000000000
                  ltac:(lia) Hs) as Hd.
    cbv zeta in Hd.
    set (d := float_div (fl (inject_Z ms)) (inject_Z 1000)) in *. clearbody d.
    change (inject_Z 100000000000000000)
      with (100000000000000000 # 1)%Q in Hd.
    change (inject_Z 9000000000000000000)
      with (9000000000000000000 # 1)%Q in Hd.
    destruct (to_timeval_between d 99999999999999000 9000000000000010000
                ltac:(lia) ltac:(vm_compute; reflexivity))
      as (t & us & -> & Ht).
    { destruct Hd as [[H1 H2] | [H1 H2]]; [left | right]; split; lra. }
    cbn [rbind fst snd]. rewrite from_timet_os_error; [reflexivity | ].
    change (10 ^ 17) with 100000000000000000. change (10 ^ 6) with 1000000.
    lia.
Qed.

End Classes.

(** ** [_format_timestamp]: the whole second *)

Section TimestampClaims.

Variable h : host.


End TimestampClaims.



(** ** [_format_response] *)

Lemma rmap_Forall2 {A B} (f : A -> result B) (R : A -> B -> Prop) xs :
  (forall x, In x xs -> exists y, f x = Ok y /\ R x y) ->
  exists ys, rmap f xs = Ok ys /\ Forall2 R xs ys.
Proof.
  induction xs as [ | x xs IH]; intros H.
  - exists []. split; [reflexivity | constructor].
  - destruct (H x (or_introl eq_refl)) as (y & Hy & HR).
    destruct IH as (ys & Hys & HF).
    { intros x' Hin. apply H. now right. }
    exists (y :: ys). cbn [rmap]. rewrite Hy, Hys.
    split; [reflexivity | now constructor].
Qed.

Lemma format_item_entry h item ts v s :
  py_getitem item "timestamp" = Ok ts ->
  py_getitem item "value" = Ok v ->
  ESTScraper._format_timestamp h ts = Ok s ->
  ESTScraper.format_item h item = Ok (VDict [("data", VStr s); ("value", v)]).
Proof.
  intros Hts Hv Hs. unfold ESTScraper.format_item.
  rewrite Hts. cbn [rbind]. rewrite Hs. cbn [rbind]. rewrite Hv. reflexivity.
Qed.

Lemma graph_data_payload_of entries :
  ESTScraper.graph_data (payload_of entries) = Ok (VList entries).
Proof. reflexivity. Qed.

(** C1: when the fixed path leads to a sequence of N entries, each with
    a timestamp that can be formatted and a value, [_format_response]
    returns N records, the i-th made from the i-th entry: ['data'] is the
    formatted timestamp of the entry and ['value'] its value. *)
Theorem format_response_records h payload items :
  ESTScraper.graph_data payload = Ok (VList items) ->
  (forall item, In item items ->
     exists ts v s,
       py_getitem item "timestamp" = Ok ts /\
       py_getitem item "value" = Ok v /\
       ESTScraper._format_timestamp h ts = Ok s) ->
  exists records,
    ESTScraper._format_response h payload = Ok (VList records) /\
    List.length records = List.length items /\
    Forall2
      (fun item record =>
         exists ts v s,
           py_getitem item "timestamp" = Ok ts /\
           py_getitem item "value" = Ok v /\
           ESTScraper._format_timestamp h ts = Ok s /\
           record = VDict [("data", VStr s); ("value", v)])
      items records.
Proof.
  intros Hpath Hitems.
  destruct (rmap_Forall2 (ESTScraper.format_item h)
              (fun item record =>
                 exists ts v s,
                   py_getitem item "timestamp" = Ok ts /\
                   py_getitem item "value" = Ok v /\
                   ESTScraper._format_timestamp h ts = Ok s /\
                   record = VDict [("data", VStr s); ("value", v)])
              items) as (records & Hmap & HF).
  { intros item Hin. destruct (Hitems item Hin) as (ts & v & s & Hts & Hv & Hs).
    exists (VDict [("data", VStr s); ("value", v)]). split.
    - now apply format_item_entry with (ts := ts).
    - exists ts, v, s. auto. }
  exists records. unfold ESTScraper._format_response.
  rewrite Hpath. cbn [rbind py_iter]. rewrite Hmap.
  split; [reflexivity | split; [ | exact HF]].
  symmetry. exact (Forall2_length HF).
Qed.

Lemma format_response_records_witness :
  let h := Fixture.host_serving "chart" in
  let items :=
    [entry (VInt 1456790400000) (VInt 7); entry (VInt 1456794000000) (VInt 9)] in
  ESTScraper.graph_data (payload_of items) = Ok (VList items) /\
  exists records,
    ESTScraper._format_response h (payload_of items) = Ok (VList records) /\
    List.length records = 2%nat.
Proof.
  intros h items. split; [reflexivity | ].
  destruct (format_response_records h (payload_of items) items eq_refl)
    as (records & Hok & Hlen & _).
  - intros item [<- | [<- | []]].
    + exists (VInt 1456790400000), (VInt 7), "2016-03-01 02:00:00".
      repeat split; reflexivity.
    + exists (VInt 1456794000000), (VInt 9), "2016-03-01 03:00:00".
      repeat split; reflexivity.
  - exists records. split; [exact Hok | exact Hlen].
Defined.

(** C10: the value of an entry is not inspected. Whatever Python values
    the entries carry (numbers or strings, [None], booleans, dicts,
    lists), as long as the timestamps can be formatted the call returns,
    and the ['value'] of each record is the value of its entry. *)
Theorem format_response_value_untyped h (tvs : list (value * value)) :
  (forall ts v, In (ts, v) tvs ->
     is_ok (ESTScraper._format_timestamp h ts) = true) ->
  exists records,
    ESTScraper._format_response h
      (payload_of (map (fun tv => entry (fst tv) (snd tv)) tvs))
    = Ok (VList records) /\
    map (fun record => py_getitem record "value") records =
    map (fun tv => Ok (snd tv)) tvs.
Proof.
  intros Hts.
  destruct (rmap_Forall2 (ESTScraper.format_item h)
              (fun item record =>
                 exists v, py_getitem item "value" = Ok v /\
                           py_getitem record "value" = Ok v)
              (map (fun tv => entry (fst tv) (snd tv)) tvs))
    as (records & Hmap & HF).
  { intros item Hin. apply in_map_iff in Hin.
    destruct Hin as ([ts v] & <- & Hin). cbn [fst snd].
    specialize (Hts ts v Hin).
    destruct (ESTScraper._format_timestamp h ts) as [s | e] eqn:Hs;
      [ | discriminate].
    exists (VDict [("data", VStr s); ("value", v)]). split.
    - now apply format_item_entry with (ts := ts).
    - exists v. split; reflexivity. }
  exists records. unfold ESTScraper._format_response.
  rewrite graph_data_payload_of. cbn [rbind py_iter]. rewrite Hmap.
  split; [reflexivity | ].
  clear Hmap Hts. revert records HF.
  induction tvs as [ | [ts v] tvs IH]; intros records HF;
    inversion HF as [ | item record items records' Hhead Htail]; subst.
  - reflexivity.
  - cbn [map]. f_equal; [ | now apply IH].
    destruct Hhead as (v' & Hv' & Hrec). cbn in Hv'.
    injection Hv' as <-. exact Hrec.
Qed.

Lemma format_response_value_untyped_witness :
  let h := Fixture.host_serving "mixed-chart" in
  exists records,
    ESTScraper._format_response h Fixture.mixed = Ok (VList records) /\
    map (fun record => py_getitem record "value") records =
    [Ok (VStr "12.5"); Ok VNone; Ok (VBool true);
     Ok (VDict [("kWh", VInt 3)]); Ok (VList [VInt 1; VInt 2])].
Proof.
  intros h.
  apply (format_response_value_untyped h
           [(VInt 1456790400000, VStr "12.5");
            (VInt 1456794000000, VNone);
            (VInt 1456797600000, VBool true);
            (VInt 1456801200000, VDict [("kWh", VInt 3)]);
            (VInt 1456804800000, VList [VInt 1; VInt 2])]).
  intros ts v Hin.
  repeat (destruct Hin as [Hin | Hin];
          [injection Hin as <- <-; vm_compute; reflexivity | ]).
  destruct Hin.
Defined.

(** ** The URL builder *)

Section Builder.
Variable h : host.

Lemma params_spec self period y m d g w today :
  (forall n, (ticks w <= n < ticks w + 3)%nat -> same_date (clock h n) today) ->
  fst (ESTScraper._get_data_url_params h self period y m d g w) =
  Ok (url_parameters_spec (ESTScraper.meter_id self) period y m d g
        (decimal (year today)) (zfill 2 (month today)) (zfill 2 (day today))).
Proof.
  intros Hclock.
  assert (H0 := Hclock (ticks w) ltac:(lia)).
  assert (H1 := Hclock (S (ticks w)) ltac:(lia)).
  assert (H2 := Hclock (S (S (ticks w))) ltac:(lia)).
  destruct H0 as (Y0 & M0 & D0), H1 as (Y1 & M1 & D1), H2 as (Y2 & M2 & D2).
  unfold ESTScraper._get_data_url_params, url_parameters_spec, or_today,
    ESTScraper.or_else, ESTScraper._get_current_year, ESTScraper._get_current_month, ESTScraper._get_current_day, ESTScraper._format_now, ESTScraper.period_is.
  change ESTScraper.PERIOD_YEAR with "Y".
  change ESTScraper.PERIOD_MONTH with "M".
  change ESTScraper.PERIOD_DAY with "D".
  destruct period as [p | ].
  - destruct (String.eqb p "Y") eqn:EY;
      [apply String.eqb_eq in EY; subst p | ];
      [ | destruct (String.eqb p "M") eqn:EM;
          [apply String.eqb_eq in EM; subst p | ] ];
      [ | | destruct (String.eqb p "D") eqn:ED;
            [apply String.eqb_eq in ED; subst p | ] ];
      destruct (truthy y), (truthy m), (truthy d);
      cbn -[strftime zfill];
      rewrite ?strftime_Y, ?strftime_m, ?strftime_d,
        ?Y0, ?M0, ?M1, ?D0, ?D1, ?D2;
      reflexivity.
  - destruct (truthy y); reflexivity.
Qed.

Lemma params_effects self period y m d g w :
  exists ps w1,
    ESTScraper._get_data_url_params h self period y m d g w = (Ok ps, w1) /\
    stdout w1 = stdout w /\ sent w1 = sent w /\ written w1 = written w.
Proof.
  unfold ESTScraper._get_data_url_params, ESTScraper.or_else,
    ESTScraper._get_current_year, ESTScraper._get_current_month,
    ESTScraper._get_current_day, ESTScraper._format_now.
  destruct (ESTScraper.period_is period ESTScraper.PERIOD_YEAR),
    (ESTScraper.period_is period ESTScraper.PERIOD_MONTH),
    (ESTScraper.period_is period ESTScraper.PERIOD_DAY),
    (truthy y), (truthy m), (truthy d);
    cbn -[strftime dict_set];
    (do 2 eexists; split; [reflexivity | repeat split; reflexivity]).
Qed.

Lemma get_data_url_run self period y m d g w :
  exists ps w1,
    ESTScraper._get_data_url_params h self period y m d g w = (Ok ps, w1) /\
    ESTScraper._get_data_url h self period y m d g w =
      (Ok (ESTScraper.DATA_URL +++ "?" +++ urlencode ps),
       mk_world (ticks w1)
         (stdout w ++ [ESTScraper.DATA_URL +++ "?" +++ urlencode ps])
         (sent w) (written w)).
Proof.
  destruct (params_effects self period y m d g w)
    as (ps & w1 & Hrun & Hout & Hsent & Hwritten).
  exists ps, w1. split; [exact Hrun | ].
  unfold ESTScraper._get_data_url, bind. rewrite Hrun.
  unfold print, ret. cbn [ticks stdout sent written].
  now rewrite Hout, Hsent, Hwritten.
Qed.

End Builder.

(** ** The fetch *)

Section Fetch.

Variable h : host.

(** The course of [_fetch_remote_data]: the world after the GET, and
    after the POST when the login page could be read. *)
Lemma fetch_run self p y m d g w :
  exists url tk,
    fst (ESTScraper._get_data_url h self p y m d g w) = Ok url /\
    let log1 := sent w ++ [GET url] in
    let w1 := mk_world tk (stdout w ++ [url]) log1 (written w) in
    ESTScraper._fetch_remote_data h self p y m d g w =
    match remote h log1 with
    | Raise e => (Raise e, w1)
    | Ok text =>
        match PyQuery h text with
        | Raise e => (Raise e, w1)
        | Ok root =>
            let log2 :=
              log1 ++ [POST ESTScraper.LOGIN_URL (ESTScraper.login_form self root)] in
            let w2 := mk_world tk (stdout w ++ [url]) log2 (written w) in
            match remote h log2 with
            | Raise e => (Raise e, w2)
            | Ok text2 =>
                match PyQuery h text2 with
                | Raise e => (Raise e, w2)
                | Ok root2 => (py_json_loads h (chart_lookup root2), w2)
                end
            end
        end
    end.
Proof.
  destruct (get_data_url_run h self p y m d g w) as (ps & w0 & _ & Hurl).
  exists (ESTScraper.DATA_URL +++ "?" +++ urlencode ps), (ticks w0).
  split; [now rewrite Hurl | ].
  cbv zeta. unfold ESTScraper._fetch_remote_data, bind. rewrite Hurl.
  unfold send, lift. cbn [ticks stdout sent written].
  destruct (remote h _) as [text | e]; [ | reflexivity].
  destruct (PyQuery h text) as [root | e]; [ | reflexivity].
  destruct (remote h _) as [text2 | e]; [ | reflexivity].
  destruct (PyQuery h text2) as [root2 | e]; reflexivity.
Qed.

Lemma login_form_fields self root :
  ESTScraper.login_form self root =
  [("_token", scraped root "_token");
   ("returnUrl", scraped root "returnUrl");
   ("login", Some (ESTScraper.login self));
   ("password", Some (ESTScraper.password self))].
Proof. reflexivity. Qed.

(** C2: whenever the login page was fetched and parsed, the second
    request of the fetch is the POST to the login URL whose fields are,
    in this order, [_token] and [returnUrl] as scraped from the page
    ([None] when missing) and [login] and [password] as given to the
    constructor: what the page holds for [login] and [password] does not
    reach the body. *)
Theorem login_post_body self p y m d g w url text root :
  fst (ESTScraper._get_data_url h self p y m d g w) = Ok url ->
  remote h (sent w ++ [GET url]) = Ok text ->
  PyQuery h text = Ok root ->
  sent (snd (ESTScraper._fetch_remote_data h self p y m d g w)) =
  sent w ++
  [GET url;
   POST ESTScraper.LOGIN_URL
     [("_token", scraped root "_token");
      ("returnUrl", scraped root "returnUrl");
      ("login", Some (ESTScraper.login self));
      ("password", Some (ESTScraper.password self))]].
Proof.
  intros Hurl Hget Hparse.
  destruct (fetch_run self p y m d g w) as (url' & tk & Hurl' & Hrun).
  rewrite Hurl in Hurl'. injection Hurl' as <-.
  cbv zeta in Hrun. rewrite Hrun, Hget, Hparse, login_form_fields.
  rewrite <- app_assoc. cbn [app].
  match goal with
  | |- context [remote h ?log] => destruct (remote h log) as [text2 | e]
  end; [ | reflexivity].
  destruct (PyQuery h text2) as [root2 | e]; reflexivity.
Qed.

End Fetch.

Lemma login_post_body_witness :
  let h := Fixture.host_serving "chart" in
  let url :=
    "https://www.e-st.lv/lv/private/paterini-un-norekini/paterinu-grafiki/?counterNumber=12345&period=M&year=2016&month=03&granularity=D" in
  PyQuery h "login" = Ok Fixture.login_page /\
  scraped Fixture.login_page "login" = Some "somebody" /\
  sent (snd (ESTScraper._fetch_remote_data h Fixture.me (Some "M")
               (Some "2016") (Some "03") None (Some "D") Fixture.fresh)) =
  [GET url;
   POST ESTScraper.LOGIN_URL
     [("_token", Some "abc123"); ("returnUrl", Some "/lv/");
      ("login", Some "user"); ("password", Some "secret")]].
Proof.
  intros h url. split; [reflexivity | split; [reflexivity | ]].
  apply (login_post_body h Fixture.me (Some "M") (Some "2016") (Some "03")
           None (Some "D") Fixture.fresh url "login" Fixture.login_page);
    reflexivity.
Defined.

Section Outcome.

Variable h : host.

(** A fetch followed by [_format_response], as in the three public
    methods. When the last request sent was answered by a page that
    could be parsed, that request was the login POST, the second of two,
    and the result is decided by the chart of that page. *)
Lemma post_login_outcome self p y m d g w r w' text root :
  bind (ESTScraper._fetch_remote_data h self p y m d g)
    (fun response => lift (ESTScraper._format_response h response)) w
  = (r, w') ->
  remote h (sent w') = Ok text ->
  PyQuery h text = Ok root ->
  (exists url body, sent w' = sent w ++ [GET url; POST ESTScraper.LOGIN_URL body]) /\
  r = rbind (py_json_loads h (chart_lookup root)) (ESTScraper._format_response h).
Proof.
  destruct (fetch_run h self p y m d g w) as (url & tk & _ & Hfetch).
  cbv zeta in Hfetch. unfold bind. rewrite Hfetch. clear Hfetch.
  destruct (remote h (sent w ++ [GET url])) as [text1 | e1] eqn:Hget.
  2:{ intros [= <- <-] Hresp _. cbn [sent] in Hresp. congruence. }
  destruct (PyQuery h text1) as [root1 | e1] eqn:Hparse1.
  2:{ intros [= <- <-] Hresp Hparse. cbn [sent] in Hresp. congruence. }
  match goal with
  | |- context [remote h ?log] =>
      destruct (remote h log) as [text2 | e2] eqn:Hpost
  end.
  2:{ intros [= <- <-] Hresp _. cbn [sent] in Hresp. congruence. }
  destruct (PyQuery h text2) as [root2 | e2] eqn:Hparse2.
  2:{ intros [= <- <-] Hresp Hparse. cbn [sent] in Hresp. congruence. }
  intros Hrun Hresp Hparse.
  assert (Hsent : sent w' =
            (sent w ++ [GET url]) ++
            [POST ESTScraper.LOGIN_URL (ESTScraper.login_form self root1)]).
  { destruct (py_json_loads h (chart_lookup root2));
      injection Hrun as _ <-; reflexivity. }
  rewrite Hsent in Hresp.
  assert (root = root2) as -> by congruence.
  split.
  - exists url, (ESTScraper.login_form self root1).
    rewrite Hsent, <- app_assoc. reflexivity.
  - destruct (py_json_loads h (chart_lookup root2));
      injection Hrun as <- _; reflexivity.
Qed.

Lemma unusable_chart_raises root :
  unusable_chart h root ->
  exists e,
    rbind (py_json_loads h (chart_lookup root)) (ESTScraper._format_response h)
    = Raise e.
Proof.
  unfold unusable_chart, chart_lookup.
  intros [Habsent | [(e & rest & Hsel & Hattr) | [(s & Hs & Hbad) | (s & payload & Hs & Hload & Hpath)]]].
  - rewrite Habsent. exists TypeError. reflexivity.
  - rewrite Hsel. cbn [pq_attr]. rewrite Hattr. exists TypeError. reflexivity.
  - unfold chart_lookup in Hs. rewrite Hs. cbn [py_json_loads].
    destruct (json_loads h s) as [v | e]; [discriminate | ].
    exists e. reflexivity.
  - unfold chart_lookup in Hs. rewrite Hs. cbn [py_json_loads].
    rewrite Hload. cbn [rbind]. unfold ESTScraper._format_response.
    destruct (ESTScraper.graph_data payload) as [v | e]; [discriminate | ].
    exists e. reflexivity.
Qed.

(** C4: for each of the three public fetch operations, if the page that
    came back from the login POST has no chart element, or a chart
    element without [data-values], or a [data-values] that [json.loads]
    rejects, or JSON without the path values, A+, total, data, then the
    operation raises: it returns no result, empty or partial. It has
    sent the two requests of the normal course and no other. *)
Theorem unusable_chart_is_fatal self y m d fetch :
  In fetch [ESTScraper.get_day_data h self y m d;
            ESTScraper.get_month_data h self y m;
            ESTScraper.get_year_data h self y] ->
  forall w r w' text root,
    fetch w = (r, w') ->
    remote h (sent w') = Ok text ->
    PyQuery h text = Ok root ->
    unusable_chart h root ->
    (exists e, r = Raise e) /\
    (exists url body,
       sent w' = sent w ++ [GET url; POST ESTScraper.LOGIN_URL body]).
Proof.
  intros Hfetch w r w' text root Hrun Hresp Hparse Hbad.
  assert (Hout :
    (exists url body,
       sent w' = sent w ++ [GET url; POST ESTScraper.LOGIN_URL body]) /\
    r = rbind (py_json_loads h (chart_lookup root))
          (ESTScraper._format_response h)).
  { destruct Hfetch as [<- | [<- | [<- | []]]];
      eapply post_login_outcome; eassumption. }
  destruct Hout as [Hsent ->]. split; [ | exact Hsent].
  now apply unusable_chart_raises.
Qed.

Lemma filter_none {A} (f : A -> bool) l :
  (forall x, In x l -> f x = false) -> filter f l = [].
Proof.
  induction l as [ | x l IH]; intros H; [reflexivity | ].
  cbn [filter]. rewrite (H x (or_introl eq_refl)).
  apply IH. intros x' Hin. apply H. now right.
Qed.

(** C9: the chart is looked up with the selector [div.chart]. If on the
    page that came back from the login POST every element of class
    [chart] is something else than a [div], whatever attributes it has,
    the selection is empty, as on a page without any chart, and the
    fetch raises the [TypeError] of [json.loads(None)]. *)
Theorem chart_on_other_element_not_found self y m d fetch :
  In fetch [ESTScraper.get_day_data h self y m d;
            ESTScraper.get_month_data h self y m;
            ESTScraper.get_year_data h self y] ->
  forall w r w' text root,
    fetch w = (r, w') ->
    remote h (sent w') = Ok text ->
    PyQuery h text = Ok root ->
    (forall e, In e (all_elements root) ->
       has_class e "chart" = true -> tag_of e <> "div") ->
    pq_select root (TagClass "div" "chart") = [] /\
    chart_lookup root = None /\
    r = Raise TypeError.
Proof.
  intros Hfetch w r w' text root Hrun Hresp Hparse Hother.
  assert (Hempty : pq_select root (TagClass "div" "chart") = []).
  { apply filter_none. intros e Hin. cbn [matches].
    destruct (has_class e "chart") eqn:Hclass; [ | apply andb_false_r].
    specialize (Hother e Hin Hclass).
    apply String.eqb_neq in Hother. now rewrite Hother. }
  assert (Hout :
    r = rbind (py_json_loads h (chart_lookup root))
          (ESTScraper._format_response h)).
  { destruct Hfetch as [<- | [<- | [<- | []]]];
      eapply post_login_outcome; eassumption. }
  unfold chart_lookup in *. rewrite Hempty in *.
  split; [reflexivity | split; [reflexivity | exact Hout]].
Qed.

End Outcome.

Lemma unusable_chart_is_fatal_witness :
  let h := Fixture.host_serving "bad-json" in
  let run :=
    ESTScraper.get_day_data h Fixture.me (Some "2016") (Some "03") (Some "01")
      Fixture.fresh in
  remote h (sent (snd run)) = Ok "bad-json" /\
  unusable_chart h (Fixture.chart_page "div" "{") /\
  (exists e, fst run = Raise e) /\
  List.length (sent (snd run)) = 2%nat.
Proof.
  intros h run.
  assert (Hbad : unusable_chart h (Fixture.chart_page "div" "{")).
  { right. right. left. exists "{". split; reflexivity. }
  destruct (unusable_chart_is_fatal h Fixture.me (Some "2016") (Some "03")
              (Some "01") _ (or_introl eq_refl) Fixture.fresh (fst run) (snd run)
              "bad-json" (Fixture.chart_page "div" "{"))
    as [Hraise (url & body & Hsent)];
    [reflexivity | reflexivity | reflexivity | exact Hbad | ].
  split; [reflexivity | split; [exact Hbad | split; [exact Hraise | ]]].
  rewrite Hsent. reflexivity.
Defined.

Lemma chart_on_other_element_not_found_witness :
  let h := Fixture.host_serving "span-chart" in
  let run := ESTScraper.get_year_data h Fixture.me (Some "2016") Fixture.fresh in
  let page := Fixture.chart_page "span" "march_first" in
  PyQuery h "span-chart" = Ok page /\
  is_ok (py_json_loads h
           (pq_attr (pq_select page (TagClass "span" "chart")) "data-values"))
    = true /\
  chart_lookup page = None /\
  fst run = Raise TypeError.
Proof.
  intros h run page.
  destruct (chart_on_other_element_not_found h Fixture.me (Some "2016") None
              None _ (or_intror (or_intror (or_introl eq_refl))) Fixture.fresh
              (fst run) (snd run) "span-chart" page)
    as (_ & Hlookup & Hraise);
    [reflexivity | reflexivity | reflexivity | | ].
  - intros e Hin Hclass.
    repeat (destruct Hin as [<- | Hin]; [discriminate | ]).
    destruct Hin.
  - split; [reflexivity | split; [reflexivity | split; assumption]].
Defined.

(** ** The URL builder: the claims *)

Section BuilderClaims.

Variable h : host.

Lemma get_data_url_fst self p y m d g w ps :
  fst (ESTScraper._get_data_url_params h self p y m d g w) = Ok ps ->
  fst (ESTScraper._get_data_url h self p y m d g w) =
  Ok (ESTScraper.DATA_URL +++ "?" +++ urlencode ps).
Proof.
  destruct (get_data_url_run h self p y m d g w) as (ps' & w1 & Hparams & Hurl).
  rewrite Hparams, Hurl. cbn [fst]. now intros [= ->].
Qed.

Lemma truthy_nonempty s : s <> EmptyString -> truthy (Some s) = true.
Proof.
  intros H. cbn [truthy]. apply String.eqb_neq in H. now rewrite H.
Qed.

(** C5, as the code has it: for the DAY period with explicit, non-empty
    year, month and day, the parameters are counterNumber, period=D,
    [date] and granularity, and no others; [date] is the given day,
    month and year joined by dots, as they were given. [get_day_data]
    asks for granularity H and requests this URL first. The date has the
    form DD.MM.YYYY when the caller gives two digits for the day and the
    month and four for the year. *)
Theorem day_url_date_verbatim self Y Mo D w :
  Y <> EmptyString -> Mo <> EmptyString -> D <> EmptyString ->
  let date := D +++ "." +++ Mo +++ "." +++ Y in
  let params :=
    [("counterNumber", Some (ESTScraper.meter_id self));
     ("period", Some "D"); ("date", Some date); ("granularity", Some "H")] in
  let url := ESTScraper.DATA_URL +++ "?" +++ urlencode params in
  fst (ESTScraper._get_data_url_params h self (Some ESTScraper.PERIOD_DAY)
         (Some Y) (Some Mo) (Some D) (Some ESTScraper.GRANULARITY_HOUR) w)
    = Ok params /\
  fst (ESTScraper._get_data_url h self (Some ESTScraper.PERIOD_DAY)
         (Some Y) (Some Mo) (Some D) (Some ESTScraper.GRANULARITY_HOUR) w)
    = Ok url /\
  (exists rest,
     sent (snd (ESTScraper.get_day_data h self (Some Y) (Some Mo) (Some D) w))
     = sent w ++ GET url :: rest) /\
  (fits "##" D = true -> fits "##" Mo = true -> fits "####" Y = true ->
   fits "##.##.####" date = true).
Proof.
  intros HY HM HD date params url.
  assert (Hparams :
    fst (ESTScraper._get_data_url_params h self (Some ESTScraper.PERIOD_DAY)
           (Some Y) (Some Mo) (Some D) (Some ESTScraper.GRANULARITY_HOUR) w)
    = Ok params).
  { unfold ESTScraper._get_data_url_params, ESTScraper.or_else.
    rewrite !truthy_nonempty by assumption. reflexivity. }
  assert (Hurl :
    fst (ESTScraper._get_data_url h self (Some ESTScraper.PERIOD_DAY)
           (Some Y) (Some Mo) (Some D) (Some ESTScraper.GRANULARITY_HOUR) w)
    = Ok url) by now apply get_data_url_fst.
  split; [exact Hparams | split; [exact Hurl | split]].
  - unfold ESTScraper.get_day_data, bind.
    destruct (fetch_run h self (Some ESTScraper.PERIOD_DAY) (Some Y) (Some Mo)
                (Some D) (Some ESTScraper.GRANULARITY_HOUR) w)
      as (url' & tk & Hurl' & Hrun).
    rewrite Hurl in Hurl'. injection Hurl' as <-.
    cbv zeta in Hrun. rewrite Hrun.
    destruct (remote h (sent w ++ [GET url])) as [text | e];
      [ | exists []; reflexivity].
    destruct (PyQuery h text) as [root | e]; [ | exists []; reflexivity].
    exists [POST ESTScraper.LOGIN_URL (ESTScraper.login_form self root)].
    match goal with
    | |- context [remote h ?log] => destruct (remote h log) as [text2 | e]
    end; [ | cbn [snd sent]; now rewrite <- app_assoc].
    destruct (PyQuery h text2) as [root2 | e];
      [ | cbn [snd sent]; now rewrite <- app_assoc].
    destruct (py_json_loads h (chart_lookup root2));
      cbn [snd sent lift]; now rewrite <- app_assoc.
  - intros HfD HfM HfY. subst date.
    change "##.##.####" with ("##" +++ "." +++ "##" +++ "." +++ "####").
    repeat (apply fits_app; [assumption || reflexivity | ]). assumption.
Qed.

(** C6: while the clock stays on one date during the call, every
    omitted (or empty) year, month or day is replaced by that of the
    date: the year in all three periods where it is used, the month for
    MONTH and DAY, the day for DAY. Month and day are two digits; the
    year is its decimal digits, which from the year 1000 on are four. *)
Theorem omitted_components_from_clock self y m d g w today :
  (forall n, (ticks w <= n < ticks w + 3)%nat -> same_date (clock h n) today) ->
  let meter := ("counterNumber", Some (ESTScraper.meter_id self)) in
  let ty := or_today y (decimal (year today)) in
  let tm := or_today m (zfill 2 (month today)) in
  let td := or_today d (zfill 2 (day today)) in
  fst (ESTScraper._get_data_url h self (Some ESTScraper.PERIOD_YEAR) y m d g w)
    = Ok (ESTScraper.DATA_URL +++ "?" +++
          urlencode [meter; ("period", Some "Y"); ("year", Some ty)]) /\
  fst (ESTScraper._get_data_url h self (Some ESTScraper.PERIOD_MONTH) y m d g w)
    = Ok (ESTScraper.DATA_URL +++ "?" +++
          urlencode [meter; ("period", Some "M"); ("year", Some ty);
                     ("month", Some tm); ("granularity", g)]) /\
  fst (ESTScraper._get_data_url h self (Some ESTScraper.PERIOD_DAY) y m d g w)
    = Ok (ESTScraper.DATA_URL +++ "?" +++
          urlencode [meter; ("period", Some "D");
                     ("date", Some (td +++ "." +++ tm +++ "." +++ ty));
                     ("granularity", g)]) /\
  (1000 <= year today <= 9999 -> decimal (year today) = zfill 4 (year today)).
Proof.
  intros Hclock meter ty tm td.
  split; [ | split; [ | split]];
    [apply get_data_url_fst;
     rewrite (params_spec h _ _ _ _ _ _ _ today Hclock); reflexivity .. | ].
  apply year_four_digits.
Qed.

(** C8, as the code has it: the URL returned is a function of the
    arguments and of the date the clock shows during the call; the call
    cannot fail, sends nothing and writes nothing, but it prints the URL,
    once, on standard output. *)
Theorem get_data_url_function_and_print self p y m d g w1 w2 today :
  (forall n, (ticks w1 <= n < ticks w1 + 3)%nat -> same_date (clock h n) today) ->
  (forall n, (ticks w2 <= n < ticks w2 + 3)%nat -> same_date (clock h n) today) ->
  exists url,
    fst (ESTScraper._get_data_url h self p y m d g w1) = Ok url /\
    fst (ESTScraper._get_data_url h self p y m d g w2) = Ok url /\
    (forall w, w = w1 \/ w = w2 ->
       let w' := snd (ESTScraper._get_data_url h self p y m d g w) in
       stdout w' = stdout w ++ [url] /\
       sent w' = sent w /\ written w' = written w).
Proof.
  intros H1 H2.
  pose proof (params_spec h self p y m d g w1 today H1) as Hp1.
  pose proof (params_spec h self p y m d g w2 today H2) as Hp2.
  destruct (get_data_url_run h self p y m d g w1) as (ps1 & v1 & Hq1 & Hu1).
  destruct (get_data_url_run h self p y m d g w2) as (ps2 & v2 & Hq2 & Hu2).
  rewrite Hq1 in Hp1. rewrite Hq2 in Hp2. cbn [fst] in Hp1, Hp2.
  assert (ps2 = ps1) as -> by congruence.
  exists (ESTScraper.DATA_URL +++ "?" +++ urlencode ps1).
  split; [now rewrite Hu1 | split; [now rewrite Hu2 | ]].
  intros w [-> | ->]; cbv zeta; [rewrite Hu1 | rewrite Hu2];
    repeat split; reflexivity.
Qed.

End BuilderClaims.

Lemma day_url_date_verbatim_witness :
  let h := Fixture.host_serving "chart" in
  "2016" <> EmptyString /\ "03" <> EmptyString /\ "01" <> EmptyString /\
  fst (ESTScraper._get_data_url h Fixture.me (Some "D") (Some "2016")
         (Some "03") (Some "01") (Some "H") Fixture.fresh)
  = Ok "https://www.e-st.lv/lv/private/paterini-un-norekini/paterinu-grafiki/?counterNumber=12345&period=D&date=01.03.2016&granularity=H" /\
  fits "##.##.####" "01.03.2016" = true.
Proof.
  intros h.
  assert (HY : "2016" <> EmptyString) by discriminate.
  assert (HM : "03" <> EmptyString) by discriminate.
  assert (HD : "01" <> EmptyString) by discriminate.
  destruct (day_url_date_verbatim h Fixture.me "2016" "03" "01" Fixture.fresh
              HY HM HD) as (_ & Hurl & _ & Hform).
  split; [exact HY | split; [exact HM | split; [exact HD | split]]].
  - exact Hurl.
  - apply Hform; reflexivity.
Defined.

(** C5 as stated fails: an explicit day 5 and month 3 give date=5.3.2017,
    which is not of the form DD.MM.YYYY. *)
Lemma day_url_date_zero_padded_counterexample :
  ~ (forall (h : host) self Y Mo D w,
       Y <> EmptyString -> Mo <> EmptyString -> D <> EmptyString ->
       exists params date,
         fst (ESTScraper._get_data_url_params h self
                (Some ESTScraper.PERIOD_DAY) (Some Y) (Some Mo) (Some D)
                (Some ESTScraper.GRANULARITY_HOUR) w) = Ok params /\
         dict_get params "date" = Some (Some date) /\
         fits "##.##.####" date = true).
Proof.
  intros H.
  destruct (H (Fixture.host_serving "chart") Fixture.me "2017" "3" "5"
              Fixture.fresh) as (params & date & Hparams & Hdate & Hfits);
    try discriminate.
  cbn in Hparams. injection Hparams as <-.
  cbn in Hdate. injection Hdate as <-.
  discriminate Hfits.
Qed.

Lemma omitted_components_from_clock_witness :
  let h := Fixture.host_serving "chart" in
  same_date (clock h 0) Fixture.noon /\
  fst (ESTScraper._get_data_url h Fixture.me (Some "D") None None None
         (Some "H") Fixture.fresh)
  = Ok "https://www.e-st.lv/lv/private/paterini-un-norekini/paterinu-grafiki/?counterNumber=12345&period=D&date=05.03.2017&granularity=H" /\
  fst (ESTScraper._get_data_url h Fixture.me (Some "M") None (Some "07") None
         (Some "D") Fixture.fresh)
  = Ok "https://www.e-st.lv/lv/private/paterini-un-norekini/paterinu-grafiki/?counterNumber=12345&period=M&year=2017&month=07&granularity=D".
Proof.
  intros h.
  assert (Hclock : forall n,
            (ticks Fixture.fresh <= n < ticks Fixture.fresh + 3)%nat ->
            same_date (clock h n) Fixture.noon)
    by (intros n _; repeat split).
  split; [repeat split | split].
  - destruct (omitted_components_from_clock h Fixture.me None None None
                (Some "H") Fixture.fresh Fixture.noon Hclock)
      as (_ & _ & Hday & _).
    exact Hday.
  - destruct (omitted_components_from_clock h Fixture.me None (Some "07") None
                (Some "D") Fixture.fresh Fixture.noon Hclock)
      as (_ & Hmonth & _).
    exact Hmonth.
Defined.

Lemma get_data_url_function_and_print_witness :
  let h := Fixture.host_serving "chart" in
  let later := mk_world 7 ["earlier output"] [] [] in
  exists url,
    fst (ESTScraper._get_data_url h Fixture.me (Some "Y") None None None None
           Fixture.fresh) = Ok url /\
    fst (ESTScraper._get_data_url h Fixture.me (Some "Y") None None None None
           later) = Ok url /\
    stdout (snd (ESTScraper._get_data_url h Fixture.me (Some "Y") None None
                   None None later)) = ["earlier output"; url].
Proof.
  intros h later.
  destruct (get_data_url_function_and_print h Fixture.me (Some "Y") None None
              None None Fixture.fresh later Fixture.noon)
    as (url & H1 & H2 & Heffects).
  - intros n _; repeat split.
  - intros n _; repeat split.
  - exists url. split; [exact H1 | split; [exact H2 | ]].
    destruct (Heffects later (or_intror eq_refl)) as (Hout & _ & _).
    exact Hout.
Defined.

(** C8 as stated fails: the builder prints. *)
Lemma get_data_url_side_effect_free_counterexample :
  ~ (forall (h : host) self p y m d g w,
       stdout (snd (ESTScraper._get_data_url h self p y m d g w)) = stdout w).
Proof.
  intros H.
  specialize (H (Fixture.host_serving "chart") Fixture.me (Some "Y")
                (Some "2016") None None None Fixture.fresh).
  discriminate H.
Qed.

(** ** The command line *)

Section CommandLine.

Variable h : host.

(** C7: a period other than year, month and day runs none of the three
    fetches: the dispatch leaves the world as it was (nothing sent, the
    clock not read, nothing printed) and the variable [data] unbound. No
    error about the argument is raised there; with credentials and meter
    given, the script ends at the next statement, which reads [data],
    with a NameError. *)
Theorem unknown_period_is_ignored scraper opts w :
  Main.period opts <> "year" ->
  Main.period opts <> "month" ->
  Main.period opts <> "day" ->
  Main.dispatch h scraper opts w = (Ok None, w) /\
  (truthy (Main.username opts) = true ->
   truthy (Main.password opts) = true ->
   truthy (Main.meter opts) = true ->
   Main.main h opts w = (Raise (NameError "data"), w)).
Proof.
  intros Hy Hm Hd.
  apply String.eqb_neq in Hy, Hm, Hd.
  assert (Hdispatch : forall s, Main.dispatch h s opts w = (Ok None, w)).
  { intros s. unfold Main.dispatch, bind. rewrite Hy, Hm, Hd. reflexivity. }
  split; [apply Hdispatch | ].
  intros Hu Hp Hmeter. unfold Main.main.
  rewrite Hu, Hp, Hmeter. cbn [negb orb].
  unfold bind. rewrite Hdispatch. reflexivity.
Qed.

End CommandLine.

Lemma unknown_period_is_ignored_witness :
  let h := Fixture.host_serving "chart" in
  let opts :=
    Main.mk_options (Some "user") (Some "secret") (Some "12345") "week"
      None None None None in
  Main.period opts <> "year" /\
  Main.dispatch h Fixture.me opts Fixture.fresh = (Ok None, Fixture.fresh) /\
  Main.main h opts Fixture.fresh = (Raise (NameError "data"), Fixture.fresh).
Proof.
  intros h opts.
  assert (Hy : Main.period opts <> "year") by discriminate.
  assert (Hm : Main.period opts <> "month") by discriminate.
  assert (Hd : Main.period opts <> "day") by discriminate.
  destruct (unknown_period_is_ignored h Fixture.me opts Fixture.fresh Hy Hm Hd)
    as [Hdispatch Hmain].
  split; [exact Hy | split; [exact Hdispatch | ]].
  apply Hmain; reflexivity.
Defined.

(** ** Concrete runs *)

Example int_of_padded_text :
  py_int (Fixture.host_serving "chart") (VStr "  1_456_790_400_000 ")
  = Ok 1456790400000.
Proof. reflexivity. Qed.

Example int_of_fraction_text :
  py_int (Fixture.host_serving "chart") (VStr "12.5") = Raise ValueError.
Proof. reflexivity. Qed.

(** The file separator (code 28) is no white space for [int] on ASCII
    text; the fullwidth digit one (U+FF11) is a digit, a no-break space
    (U+00A0) is white space. *)
Example int_of_text_code_points :
  let h := Fixture.host_serving "chart" in
  py_int h (VStr (String (ascii_of_nat 28) "12")) = Raise ValueError /\
  py_int h (VStr (String (ascii_of_nat 239) (String (ascii_of_nat 188)
                   (String (ascii_of_nat 145) "")))) = Ok 1 /\
  py_int h (VStr (String (ascii_of_nat 194) (String (ascii_of_nat 160) "12")))
  = Ok 12 /\
  py_int h (VStr ("12" +++ String Ascii.zero "")) = Raise ValueError.
Proof. repeat split. Qed.

Example quote_plus_meter : quote_plus "12 345/6" = "12+345%2F6".
Proof. reflexivity. Qed.

Example before_epoch :
  ESTScraper._format_timestamp (Fixture.host_serving "chart") (VInt (-500))
  = Ok "1970-01-01 01:59:59".
Proof. vm_compute. reflexivity. Qed.

Example last_second_of_9999 :
  ESTScraper._format_timestamp (Fixture.host_serving "chart")
    (VInt 253402293599999) = Ok "9999-12-31 23:59:59" /\
  ESTScraper._format_timestamp (Fixture.host_serving "chart")
    (VInt 253402293600000) = Raise ValueError.
Proof. split; vm_compute; reflexivity. Qed.

(** A year before 1000 is printed without padding. *)
Example year_999 :
  ESTScraper._format_timestamp (Fixture.host_serving "chart")
    (VInt (-30627504000000)) = Ok "999-06-15 02:00:00".
Proof. vm_compute. reflexivity. Qed.

(** The first day of the year 1: the second is in range at two hours
    east of UTC, the second a day earlier is not. *)
Example first_day_of_year_1 :
  ESTScraper._format_timestamp (Fixture.host_serving "chart")
    (VInt (-62135596800000)) = Raise ValueError /\
  ESTScraper._format_timestamp (Fixture.host_serving "chart")
    (VInt (-62135510400000)) = Ok "1-01-02 02:00:00".
Proof. split; vm_compute; reflexivity. Qed.

(** Far from the epoch: a year beyond the [int] of [struct tm], a
    second beyond [time_t], an integer beyond the doubles. *)
Example far_from_the_epoch :
  let h := Fixture.host_serving "chart" in
  ESTScraper._format_timestamp h (VInt (10 ^ 20)) = Raise OSError /\
  ESTScraper._format_timestamp h (VInt (10 ^ 30)) = Raise OverflowError /\
  ESTScraper._format_timestamp h (VInt (10 ^ 400)) = Raise OverflowError.
Proof. repeat split; vm_compute; reflexivity. Qed.

(** The end-to-end scenario of the specification. *)
Example end_to_end :
  ESTScraper.get_day_data (Fixture.host_serving "chart") Fixture.me
    (Some "2016") (Some "03") (Some "01") Fixture.fresh
  = (Ok (VList [VDict [("data", VStr "2016-03-01 02:00:00");
                       ("value", VFloat (Finite (25 # 2)))]]),
     let url :=
       "https://www.e-st.lv/lv/private/paterini-un-norekini/paterinu-grafiki/?counterNumber=12345&period=D&date=01.03.2016&granularity=H" in
     mk_world 0 [url]
       [GET url;
        POST "https://www.e-st.lv/lv/private/user-authentification/"
          [("_token", Some "abc123"); ("returnUrl", Some "/lv/");
           ("login", Some "user"); ("password", Some "secret")]]
       []).
Proof. vm_compute. reflexivity. Qed.

Example no_chart_after_login :
  fst (ESTScraper.get_month_data (Fixture.host_serving "login failed")
         Fixture.me None None Fixture.fresh) = Raise TypeError.
Proof. vm_compute. reflexivity. Qed.

Example path_missing :
  fst (ESTScraper.get_month_data (Fixture.host_serving "no-path")
         Fixture.me None None Fixture.fresh) = Raise (KeyError "values").
Proof. vm_compute. reflexivity. Qed.

Example month_is_the_default_period :
  fst (Main.main (Fixture.host_serving "chart")
         (Main.mk_options (Some "user") None (Some "12345") "month"
            None None None None) Fixture.fresh)
  = Raise (Exception "Username and/or password must be set").
Proof. reflexivity. Qed.

(** * Further properties of the code *)

(** ** The URL builder beyond the claims *)

Section BuilderMore.

Variable h : host.

(** X1: for the YEAR period with an explicit year the URL carries
    counterNumber, period=Y and the year as given, nothing else; month,
    day and granularity are ignored and the clock is not read. *)
Theorem year_url_explicit self Y m d g w :
  Y <> EmptyString ->
  let url :=
    ESTScraper.DATA_URL +++ "?" +++
    urlencode [("counterNumber", Some (ESTScraper.meter_id self));
               ("period", Some "Y"); ("year", Some Y)] in
  ESTScraper._get_data_url h self (Some ESTScraper.PERIOD_YEAR) (Some Y) m d g w
  = (Ok url, mk_world (ticks w) (stdout w ++ [url]) (sent w) (written w)).
Proof.
  intros HY url.
  unfold ESTScraper._get_data_url, ESTScraper._get_data_url_params,
    ESTScraper.or_else.
  rewrite (truthy_nonempty Y HY). reflexivity.
Qed.

(** X2: for the MONTH period with explicit year and month the URL
    carries counterNumber, period=M, year, month and the granularity it
    was given, no date; the day is ignored and the clock is not read. *)
Theorem month_url_explicit self Y Mo d g w :
  Y <> EmptyString -> Mo <> EmptyString ->
  let url :=
    ESTScraper.DATA_URL +++ "?" +++
    urlencode [("counterNumber", Some (ESTScraper.meter_id self));
               ("period", Some "M"); ("year", Some Y); ("month", Some Mo);
               ("granularity", g)] in
  ESTScraper._get_data_url h self (Some ESTScraper.PERIOD_MONTH)
    (Some Y) (Some Mo) d g w
  = (Ok url, mk_world (ticks w) (stdout w ++ [url]) (sent w) (written w)).
Proof.
  intros HY HM url.
  unfold ESTScraper._get_data_url, ESTScraper._get_data_url_params,
    ESTScraper.or_else.
  rewrite (truthy_nonempty Y HY), (truthy_nonempty Mo HM). reflexivity.
Qed.

(** X3: a period that is none of Y, M, D (also [None]) gives a URL with
    only counterNumber and period, the period as its [str()] text; year,
    month, day and granularity do not appear in it. *)
Theorem unknown_period_url self p y m d g w :
  ESTScraper.period_is p "Y" = false ->
  ESTScraper.period_is p "M" = false ->
  ESTScraper.period_is p "D" = false ->
  fst (ESTScraper._get_data_url h self p y m d g w)
  = Ok (ESTScraper.DATA_URL +++ "?counterNumber=" +++
        quote_plus (ESTScraper.meter_id self) +++ "&period=" +++
        quote_plus (py_str p)).
Proof.
  intros HY HM HD. unfold ESTScraper._get_data_url.
  unfold ESTScraper._get_data_url_params, ESTScraper.or_else, bind.
  change ESTScraper.PERIOD_YEAR with "Y".
  change ESTScraper.PERIOD_MONTH with "M".
  change ESTScraper.PERIOD_DAY with "D".
  rewrite HY, HM, HD.
  destruct (truthy y); cbn -[quote_plus String.append];
    unfold urlencode; cbn -[quote_plus]; reflexivity.
Qed.

(** X4: an empty string for year, month or day is taken as omitted: the
    call does exactly what it does for [None]. *)
Theorem empty_component_is_omitted self p y m d g w :
  ESTScraper._get_data_url h self p (Some EmptyString) m d g w
    = ESTScraper._get_data_url h self p None m d g w /\
  ESTScraper._get_data_url h self p y (Some EmptyString) d g w
    = ESTScraper._get_data_url h self p y None d g w /\
  ESTScraper._get_data_url h self p y m (Some EmptyString) g w
    = ESTScraper._get_data_url h self p y m None g w.
Proof. repeat split. Qed.

(** X5: the builder reads the clock once for each omitted component it
    needs, and for an omitted year even when the period does not use
    it. *)
Theorem builder_clock_readings self p y m d g w :
  ticks (snd (ESTScraper._get_data_url h self p y m d g w))
  = (ticks w + clock_reads p y m d)%nat.
Proof.
  destruct (get_data_url_run h self p y m d g w) as (ps & w1 & Hparams & Hurl).
  rewrite Hurl. cbn [snd ticks].
  replace (ticks w1)
    with (ticks (snd (ESTScraper._get_data_url_params h self p y m d g w)))
    by now rewrite Hparams.
  clear. unfold clock_reads, ESTScraper._get_data_url_params, ESTScraper.or_else,
    ESTScraper._get_current_year, ESTScraper._get_current_month,
    ESTScraper._get_current_day, ESTScraper._format_now.
  change ESTScraper.PERIOD_YEAR with "Y".
  change ESTScraper.PERIOD_MONTH with "M".
  change ESTScraper.PERIOD_DAY with "D".
  destruct p as [p | ]; unfold ESTScraper.period_is.
  - destruct (String.eqb p "Y") eqn:EY;
      [apply String.eqb_eq in EY; subst p | ];
      [ | destruct (String.eqb p "M") eqn:EM;
          [apply String.eqb_eq in EM; subst p | ] ];
      [ | | destruct (String.eqb p "D") eqn:ED;
            [apply String.eqb_eq in ED; subst p | ] ];
      destruct (truthy y), (truthy m), (truthy d);
      cbn -[strftime]; lia.
  - destruct (truthy y); cbn -[strftime]; lia.
Qed.

End BuilderMore.

Lemma year_url_explicit_witness :
  let h := Fixture.host_serving "chart" in
  "2016" <> EmptyString /\
  ESTScraper._get_data_url h Fixture.me (Some "Y") (Some "2016") (Some "03")
    (Some "01") (Some "H") Fixture.fresh
  = (let url :=
       "https://www.e-st.lv/lv/private/paterini-un-norekini/paterinu-grafiki/?counterNumber=12345&period=Y&year=2016" in
     (Ok url, mk_world 0 [url] [] [])).
Proof.
  intros h.
  assert (HY : "2016" <> EmptyString) by discriminate.
  split; [exact HY | ].
  exact (year_url_explicit h Fixture.me "2016" (Some "03") (Some "01")
           (Some "H") Fixture.fresh HY).
Defined.

Lemma month_url_explicit_witness :
  let h := Fixture.host_serving "chart" in
  "2016" <> EmptyString /\ "13" <> EmptyString /\
  ESTScraper._get_data_url h Fixture.me (Some "M") (Some "2016") (Some "13")
    (Some "01") None Fixture.fresh
  = (let url :=
       "https://www.e-st.lv/lv/private/paterini-un-norekini/paterinu-grafiki/?counterNumber=12345&period=M&year=2016&month=13&granularity=None" in
     (Ok url, mk_world 0 [url] [] [])).
Proof.
  intros h.
  assert (HY : "2016" <> EmptyString) by discriminate.
  assert (HM : "13" <> EmptyString) by discriminate.
  split; [exact HY | split; [exact HM | ]].
  exact (month_url_explicit h Fixture.me "2016" "13" (Some "01") None
           Fixture.fresh HY HM).
Defined.

Lemma unknown_period_url_witness :
  let h := Fixture.host_serving "chart" in
  ESTScraper.period_is None "Y" = false /\
  fst (ESTScraper._get_data_url h Fixture.me None (Some "2016") None None
         (Some "H") Fixture.fresh)
  = Ok "https://www.e-st.lv/lv/private/paterini-un-norekini/paterinu-grafiki/?counterNumber=12345&period=None".
Proof.
  intros h. split; [reflexivity | ].
  exact (unknown_period_url h Fixture.me None (Some "2016") None None
           (Some "H") Fixture.fresh eq_refl eq_refl eq_refl).
Defined.

(** ** [_format_timestamp] and [_format_response] beyond the claims *)

Section NormalizerMore.

Variable h : host.

Lemma format_timestamp_cases ts :
  (forall e, py_int h ts = Raise e ->
     ESTScraper._format_timestamp h ts = Raise e) /\
  (forall e, ESTScraper._format_timestamp h ts = Raise e ->
     e = TypeError \/ e = ValueError \/ e = OverflowError \/ e = OSError) /\
  (forall ms, py_int h ts = Ok ms ->
     (2 ^ 1024 - 2 ^ 970 <= Z.abs ms \/ 10 ^ 19 <= Z.abs (ms / 1000) ->
      ESTScraper._format_timestamp h ts = Raise OverflowError) /\
     ((forall u, Z.abs (utcoffset h u) <= 86400) ->
      (Z.abs (ms / 1000) < 2 ^ 38 ->
       ESTScraper._format_timestamp h ts =
         if convertible h (ms / 1000)
         then Ok (strftime (local_datetime h (ms / 1000)) "%Y-%m-%d %H:%M:%S")
         else Raise ValueError) /\
      (2 ^ 38 <= Z.abs (ms / 1000) ->
       is_ok (ESTScraper._format_timestamp h ts) = false) /\
      (2 ^ 38 <= Z.abs (ms / 1000) <= 2 ^ 55 ->
       ESTScraper._format_timestamp h ts = Raise ValueError) /\
      (10 ^ 17 <= Z.abs (ms / 1000) <= 9 * 10 ^ 18 ->
       ESTScraper._format_timestamp h ts = Raise OSError))).
Proof.
  split; [ | split].
  - intros e He. unfold ESTScraper._format_timestamp. now rewrite He.
  - apply format_timestamp_raises.
  - intros ms Hms. split.
    + intros [Hbig | Hbig].
      * unfold ESTScraper._format_timestamp, float_of_int.
        rewrite Hms. cbn [rbind].
        replace (2 ^ 1024 - 2 ^ 970 <=? Z.abs ms) with true
          by (symmetry; now apply Z.leb_le).
        reflexivity.
      * now apply (format_timestamp_overflow h ts ms).
    + intros Hoff.
      destruct (format_timestamp_far_classes h Hoff ts ms Hms)
        as [Hvalue Hos].
      split; [ | split; [ | split]].
      * intros Hk. now apply format_timestamp_near.
      * intros Hk. now apply (format_timestamp_far h Hoff ts ms).
      * exact Hvalue.
      * exact Hos.
Qed.

(** X6: the outcome of [_format_timestamp] in full, on CPython 3.11
    with the C library of Linux. It raises what [int()] raises on the
    timestamp, and nothing but TypeError, ValueError, OverflowError and
    OSError. An integer that no double holds, or whose seconds are
    10^19 or more, raises OverflowError. In a zone whose offsets stay
    within a day: less than 2^38 seconds from the epoch the call returns
    the local time of the whole second when the year of that second, of
    the second a day earlier and, if the offset went down during that
    day, of the second that much earlier are all in 1..9999, and raises
    ValueError otherwise; from 2^38 seconds on it returns nothing: it
    raises ValueError up to 2^55 seconds (a year that [datetime] cannot
    hold) and OSError from 10^17 to 9 * 10^18 seconds (a year that
    [struct tm] cannot hold). *)
Theorem format_timestamp_outcome ts :
  (forall e, py_int h ts = Raise e ->
     ESTScraper._format_timestamp h ts = Raise e) /\
  (forall e, ESTScraper._format_timestamp h ts = Raise e ->
     e = TypeError \/ e = ValueError \/ e = OverflowError \/ e = OSError) /\
  (forall ms, py_int h ts = Ok ms ->
     (2 ^ 1024 - 2 ^ 970 <= Z.abs ms \/ 10 ^ 19 <= Z.abs (ms / 1000) ->
      ESTScraper._format_timestamp h ts = Raise OverflowError) /\
     ((forall u, Z.abs (utcoffset h u) <= 86400) ->
      (Z.abs (ms / 1000) < 2 ^ 38 ->
       ESTScraper._format_timestamp h ts =
         if convertible h (ms / 1000)
         then Ok (strftime (local_datetime h (ms / 1000)) "%Y-%m-%d %H:%M:%S")
         else Raise ValueError) /\
      (2 ^ 38 <= Z.abs (ms / 1000) ->
       is_ok (ESTScraper._format_timestamp h ts) = false) /\
      (2 ^ 38 <= Z.abs (ms / 1000) <= 2 ^ 55 ->
       ESTScraper._format_timestamp h ts = Raise ValueError) /\
      (10 ^ 17 <= Z.abs (ms / 1000) <= 9 * 10 ^ 18 ->
       ESTScraper._format_timestamp h ts = Raise OSError))).
Proof. exact (format_timestamp_cases ts). Qed.

Lemma rmap_first_error {A B} (f : A -> result B) good bad rest e :
  (forall x, In x good -> is_ok (f x) = true) ->
  f bad = Raise e ->
  rmap f (good ++ bad :: rest) = Raise e.
Proof.
  intros Hgood Hbad. induction good as [ | x good IH]; cbn [app rmap].
  - now rewrite Hbad.
  - pose proof (Hgood x (or_introl eq_refl)) as Hx.
    destruct (f x) as [y | e']; [ | discriminate].
    rewrite IH; [reflexivity | ].
    intros x' Hin. apply Hgood. now right.
Qed.

(** X7: all or nothing. If the entries before some entry can be
    formatted and that entry cannot (no timestamp, no value, or a
    timestamp that [_format_timestamp] rejects), [_format_response]
    raises the error of that entry: the records already built are
    dropped and the entries after it are not looked at. *)
Theorem format_response_first_error payload good bad rest e :
  ESTScraper.graph_data payload = Ok (VList (good ++ bad :: rest)) ->
  (forall item, In item good -> is_ok (ESTScraper.format_item h item) = true) ->
  ESTScraper.format_item h bad = Raise e ->
  ESTScraper._format_response h payload = Raise e.
Proof.
  intros Hpath Hgood Hbad. unfold ESTScraper._format_response.
  rewrite Hpath. cbn [rbind py_iter].
  now rewrite (rmap_first_error _ good bad rest e Hgood Hbad).
Qed.

(** X8: the timestamp of an entry is read and formatted before its
    value is read: an entry without ['timestamp'] raises
    KeyError('timestamp') whether or not it has a value, an entry that
    is not a dict raises TypeError, and KeyError('value') is raised only
    for an entry whose timestamp was formatted. *)
Theorem format_item_errors item :
  (forall d, item = VDict d -> dict_get d "timestamp" = None ->
     ESTScraper.format_item h item = Raise (KeyError "timestamp")) /\
  ((forall d, item <> VDict d) ->
     ESTScraper.format_item h item = Raise TypeError) /\
  (ESTScraper.format_item h item = Raise (KeyError "value") ->
   exists d ts s,
     item = VDict d /\ dict_get d "timestamp" = Some ts /\
     ESTScraper._format_timestamp h ts = Ok s /\ dict_get d "value" = None).
Proof.
  unfold ESTScraper.format_item. repeat split.
  - intros d -> Hts. cbn [py_getitem]. now rewrite Hts.
  - intros Hnot. destruct item; try reflexivity.
    now destruct (Hnot items).
  - destruct item as [ | | | | | | d]; try discriminate.
    cbn [py_getitem].
    destruct (dict_get d "timestamp") as [ts | ] eqn:Hts; [ | discriminate].
    cbn [rbind].
    destruct (ESTScraper._format_timestamp h ts) as [s | e] eqn:Hs.
    + cbn [rbind]. destruct (dict_get d "value") as [v | ] eqn:Hv;
        [discriminate | ].
      intros _. exists d, ts, s. auto.
    + cbn [rbind]. intros [= ->]. exfalso.
      destruct (format_timestamp_raises h ts _ Hs) as [H | [H | [H | H]]];
        discriminate.
Qed.

(** X9: when the object at the fixed path is empty, as a list, a dict
    or a string, the result is the empty list, not an error. *)
Theorem format_response_empty payload data :
  ESTScraper.graph_data payload = Ok data ->
  data = VList [] \/ data = VDict [] \/ data = VStr EmptyString ->
  ESTScraper._format_response h payload = Ok (VList []).
Proof.
  intros Hpath Hdata. unfold ESTScraper._format_response. rewrite Hpath.
  destruct Hdata as [-> | [-> | ->]]; reflexivity.
Qed.

(** X10: when the object at the fixed path is not a list, the call
    raises TypeError unless the object is an empty dict or string:
    numbers, booleans and [None] cannot be iterated, and the items of a
    dict (its keys) or of a string (its characters) cannot be indexed
    with ['timestamp']. *)
Theorem format_response_not_a_list payload data :
  ESTScraper.graph_data payload = Ok data ->
  match data with
  | VList _ | VDict [] | VStr EmptyString => True
  | _ => ESTScraper._format_response h payload = Raise TypeError
  end.
Proof.
  intros Hpath. unfold ESTScraper._format_response.
  destruct data as [ | b | z | f | [ | c s] | l | [ | [k v] d]];
    try exact I; rewrite Hpath; reflexivity.
Qed.

End NormalizerMore.

Lemma format_timestamp_outcome_witness :
  let h := Fixture.host_serving "chart" in
  ESTScraper._format_timestamp h (VInt (- 62135596800000)) = Raise ValueError /\
  ESTScraper._format_timestamp h (VInt (- 30627504000000))
  = Ok "999-06-15 02:00:00" /\
  ESTScraper._format_timestamp h (VInt (10 ^ 20)) = Raise OSError /\
  ESTScraper._format_timestamp h (VInt (10 ^ 30)) = Raise OverflowError /\
  ESTScraper._format_timestamp h (VInt (10 ^ 400)) = Raise OverflowError.
Proof.
  intros h.
  assert (Hoff : forall u, Z.abs (utcoffset h u) <= 86400)
    by (intros u; vm_compute; discriminate).
  split; [ | split; [ | split; [ | split]]].
  - destruct (format_timestamp_outcome h (VInt (- 62135596800000)))
      as (_ & _ & Hint).
    destruct (Hint _ eq_refl) as (_ & Hzone).
    destruct (Hzone Hoff) as (Hnear & _).
    rewrite Hnear by (vm_compute; reflexivity). reflexivity.
  - destruct (format_timestamp_outcome h (VInt (- 30627504000000)))
      as (_ & _ & Hint).
    destruct (Hint _ eq_refl) as (_ & Hzone).
    destruct (Hzone Hoff) as (Hnear & _).
    rewrite Hnear by (vm_compute; reflexivity). reflexivity.
  - destruct (format_timestamp_outcome h (VInt (10 ^ 20))) as (_ & _ & Hint).
    destruct (Hint _ eq_refl) as (_ & Hzone).
    destruct (Hzone Hoff) as (_ & _ & _ & Hos).
    apply Hos. vm_compute. split; discriminate.
  - destruct (format_timestamp_outcome h (VInt (10 ^ 30))) as (_ & _ & Hint).
    destruct (Hint _ eq_refl) as (Hbig & _).
    apply Hbig. right. vm_compute. discriminate.
  - destruct (format_timestamp_outcome h (VInt (10 ^ 400))) as (_ & _ & Hint).
    destruct (Hint _ eq_refl) as (Hbig & _).
    apply Hbig. left. vm_compute. discriminate.
Defined.

Lemma format_response_first_error_witness :
  let h := Fixture.host_serving "chart" in
  let good := [entry (VInt 1456790400000) (VInt 7)] in
  let bad := VDict [("timestamp", VStr "yesterday"); ("value", VInt 8)] in
  let rest := [entry (VInt 1456794000000) (VInt 9)] in
  ESTScraper.format_item h bad = Raise ValueError /\
  ESTScraper._format_response h (payload_of (good ++ bad :: rest))
  = Raise ValueError.
Proof.
  intros h good bad rest. split; [reflexivity | ].
  apply (format_response_first_error h _ good bad rest ValueError);
    [reflexivity | | reflexivity].
  intros item [<- | []]. vm_compute. reflexivity.
Defined.

Lemma format_item_errors_witness :
  let h := Fixture.host_serving "chart" in
  ESTScraper.format_item h (VDict [("when", VInt 1456790400000)])
    = Raise (KeyError "timestamp") /\
  ESTScraper.format_item h (VStr "timestamp") = Raise TypeError.
Proof.
  intros h. split.
  - destruct (format_item_errors h (VDict [("when", VInt 1456790400000)]))
      as (Hkey & _ & _).
    apply (Hkey [("when", VInt 1456790400000)]); reflexivity.
  - destruct (format_item_errors h (VStr "timestamp")) as (_ & Htype & _).
    apply Htype. discriminate.
Defined.

Lemma format_response_empty_witness :
  let h := Fixture.host_serving "chart" in
  ESTScraper.graph_data (payload_of []) = Ok (VList []) /\
  ESTScraper._format_response h (payload_of []) = Ok (VList []).
Proof.
  intros h. split; [reflexivity | ].
  apply (format_response_empty h (payload_of []) (VList []));
    [reflexivity | left; reflexivity].
Defined.

Lemma format_response_not_a_list_witness :
  let h := Fixture.host_serving "chart" in
  let payload :=
    VDict [("values", VDict [("A+", VDict [("total",
      VDict [("data", VDict [("timestamp", VInt 1456790400000);
                             ("value", VInt 7)])])])])] in
  ESTScraper._format_response h payload = Raise TypeError.
Proof.
  intros h payload.
  exact (format_response_not_a_list h payload
           (VDict [("timestamp", VInt 1456790400000); ("value", VInt 7)])
           eq_refl).
Defined.

(** ** The fetch beyond the claims *)

Section FetchMore.

Variable h : host.

(** X11: when the GET fails in the transport, or its response cannot be
    parsed, the fetch raises that error after this one request: the
    login POST is not sent, so the credentials do not leave. *)
Theorem get_failure_stops_fetch self p y m d g w url e :
  fst (ESTScraper._get_data_url h self p y m d g w) = Ok url ->
  remote h (sent w ++ [GET url]) = Raise e \/
  (exists text,
     remote h (sent w ++ [GET url]) = Ok text /\ PyQuery h text = Raise e) ->
  fst (ESTScraper._fetch_remote_data h self p y m d g w) = Raise e /\
  sent (snd (ESTScraper._fetch_remote_data h self p y m d g w))
  = sent w ++ [GET url].
Proof.
  intros Hurl Hfail.
  destruct (fetch_run h self p y m d g w) as (url' & tk & Hurl' & Hrun).
  rewrite Hurl in Hurl'. injection Hurl' as <-.
  cbv zeta in Hrun. rewrite Hrun.
  destruct Hfail as [-> | (text & -> & ->)]; split; reflexivity.
Qed.

(** X12: the happy path of the three public fetch operations. When the
    page answering the last request sent has a [div.chart] whose
    [data-values] is JSON, the result is [_format_response] of that JSON,
    and the requests sent are the GET and the login POST. What the GET
    returned plays no part, beyond being parsed for the hidden fields. *)
Theorem fetch_returns_chart_payload self y m d fetch :
  In fetch [ESTScraper.get_day_data h self y m d;
            ESTScraper.get_month_data h self y m;
            ESTScraper.get_year_data h self y] ->
  forall w r w' text root s payload,
    fetch w = (r, w') ->
    remote h (sent w') = Ok text ->
    PyQuery h text = Ok root ->
    chart_lookup root = Some s ->
    json_loads h s = Ok payload ->
    r = ESTScraper._format_response h payload /\
    (exists url body,
       sent w' = sent w ++ [GET url; POST ESTScraper.LOGIN_URL body]).
Proof.
  intros Hfetch w r w' text root s payload Hrun Hresp Hparse Hchart Hload.
  assert (Hout :
    (exists url body,
       sent w' = sent w ++ [GET url; POST ESTScraper.LOGIN_URL body]) /\
    r = rbind (py_json_loads h (chart_lookup root))
          (ESTScraper._format_response h)).
  { destruct Hfetch as [<- | [<- | [<- | []]]];
      eapply post_login_outcome; eassumption. }
  destruct Hout as [Hsent ->]. split; [ | exact Hsent].
  rewrite Hchart. cbn [py_json_loads]. now rewrite Hload.
Qed.

Lemma fetch_effects_run self p y m d g w :
  let w' := snd (ESTScraper._fetch_remote_data h self p y m d g w) in
  exists url added,
    stdout w' = stdout w ++ [url] /\
    written w' = written w /\
    sent w' = sent w ++ GET url :: added /\
    Forall to_endpoint (GET url :: added) /\
    (List.length added <= 1)%nat.
Proof.
  destruct (fetch_run h self p y m d g w) as (url & tk & Hurl & Hrun).
  assert (Hget : to_endpoint (GET url)).
  { destruct (get_data_url_run h self p y m d g w) as (ps & w0 & _ & Hurl0).
    rewrite Hurl0 in Hurl. cbn [fst] in Hurl.
    exists (urlencode ps). congruence. }
  cbv zeta in Hrun |- *. rewrite Hrun. clear Hrun Hurl.
  assert (Hone : forall r : result value,
            exists added,
              stdout (snd (r, mk_world tk (stdout w ++ [url])
                                (sent w ++ [GET url]) (written w)))
              = stdout w ++ [url] /\
              written (snd (r, mk_world tk (stdout w ++ [url])
                                 (sent w ++ [GET url]) (written w)))
              = written w /\
              sent (snd (r, mk_world tk (stdout w ++ [url])
                              (sent w ++ [GET url]) (written w)))
              = sent w ++ GET url :: added /\
              Forall to_endpoint (GET url :: added) /\
              (List.length added <= 1)%nat).
  { intros r. exists []. cbn [snd stdout written sent List.length].
    repeat split; auto. }
  assert (Htwo : forall (r : result value) body,
            exists added,
              stdout (snd (r, mk_world tk (stdout w ++ [url])
                                ((sent w ++ [GET url]) ++
                                 [POST ESTScraper.LOGIN_URL body]) (written w)))
              = stdout w ++ [url] /\
              written (snd (r, mk_world tk (stdout w ++ [url])
                                 ((sent w ++ [GET url]) ++
                                  [POST ESTScraper.LOGIN_URL body]) (written w)))
              = written w /\
              sent (snd (r, mk_world tk (stdout w ++ [url])
                              ((sent w ++ [GET url]) ++
                               [POST ESTScraper.LOGIN_URL body]) (written w)))
              = sent w ++ GET url :: added /\
              Forall to_endpoint (GET url :: added) /\
              (List.length added <= 1)%nat).
  { intros r body. exists [POST ESTScraper.LOGIN_URL body].
    cbn [snd stdout written sent List.length]. rewrite <- app_assoc.
    repeat split; auto.
    constructor; [exact Hget | constructor; [reflexivity | constructor]]. }
  exists url.
  destruct (remote h (sent w ++ [GET url])) as [text | e]; [ | apply Hone].
  destruct (PyQuery h text) as [root | e]; [ | apply Hone].
  match goal with
  | |- context [remote h ?log] => destruct (remote h log) as [text2 | e]
  end; [ | apply Htwo].
  destruct (PyQuery h text2) as [root2 | e]; apply Htwo.
Qed.

(** X13: what a fetch does to the world, whatever its outcome. It
    prints one line, the URL; it writes no file; it sends the GET of a
    URL under DATA_URL and then at most one more request, a POST to
    LOGIN_URL. *)
Theorem fetch_effects self p y m d g w :
  let w' := snd (ESTScraper._fetch_remote_data h self p y m d g w) in
  exists url added,
    stdout w' = stdout w ++ [url] /\
    written w' = written w /\
    sent w' = sent w ++ GET url :: added /\
    Forall to_endpoint (GET url :: added) /\
    (List.length added <= 1)%nat.
Proof. exact (fetch_effects_run self p y m d g w). Qed.

End FetchMore.

Lemma get_failure_stops_fetch_witness :
  let h :=
    mk_host (fun _ => Fixture.noon) Fixture.riga (fun _ => Raise TransportError)
      Fixture.parse Fixture.loads Fixture.dumps Fixture.isspace
      Fixture.todecimal 4300 Fixture.no_such_directory Fixture.device_full in
  let url :=
    "https://www.e-st.lv/lv/private/paterini-un-norekini/paterinu-grafiki/?counterNumber=12345&period=Y&year=2016" in
  remote h [GET url] = Raise TransportError /\
  fst (ESTScraper._fetch_remote_data h Fixture.me (Some "Y") (Some "2016")
         None None None Fixture.fresh) = Raise TransportError /\
  sent (snd (ESTScraper._fetch_remote_data h Fixture.me (Some "Y")
               (Some "2016") None None None Fixture.fresh)) = [GET url].
Proof.
  intros h url. split; [reflexivity | ].
  apply (get_failure_stops_fetch h Fixture.me (Some "Y") (Some "2016") None
           None None Fixture.fresh url TransportError);
    [reflexivity | left; reflexivity].
Defined.

Lemma fetch_returns_chart_payload_witness :
  let h := Fixture.host_serving "chart" in
  let run := ESTScraper.get_month_data h Fixture.me None None Fixture.fresh in
  chart_lookup (Fixture.chart_page "div" "march_first") = Some "march_first" /\
  fst run = ESTScraper._format_response h Fixture.march_first /\
  List.length (sent (snd run)) = 2%nat.
Proof.
  intros h run. split; [reflexivity | ].
  destruct (fetch_returns_chart_payload h Fixture.me None None None _
              (or_intror (or_introl eq_refl)) Fixture.fresh (fst run) (snd run)
              "chart" (Fixture.chart_page "div" "march_first") "march_first"
              Fixture.march_first)
    as [Hresult (url & body & Hsent)]; try reflexivity.
  split; [exact Hresult | ]. rewrite Hsent. reflexivity.
Defined.

Section Sessions.

Variable h : host.

Lemma success_sends_two self p y m d g w v w' :
  bind (ESTScraper._fetch_remote_data h self p y m d g)
    (fun response => lift (ESTScraper._format_response h response)) w
  = (Ok v, w') ->
  exists url root,
    sent w' = sent w ++
      [GET url; POST ESTScraper.LOGIN_URL (ESTScraper.login_form self root)].
Proof.
  destruct (fetch_run h self p y m d g w) as (url & tk & _ & Hfetch).
  cbv zeta in Hfetch. unfold bind. rewrite Hfetch. clear Hfetch.
  destruct (remote h (sent w ++ [GET url])) as [text1 | e1]; [ | discriminate].
  destruct (PyQuery h text1) as [root1 | e1]; [ | discriminate].
  match goal with
  | |- context [remote h ?log] => destruct (remote h log) as [text2 | e2]
  end; [ | discriminate].
  destruct (PyQuery h text2) as [root2 | e2]; [ | discriminate].
  destruct (py_json_loads h (chart_lookup root2)); [ | discriminate].
  unfold lift. intros [= _ <-]. exists url, root1.
  cbn [sent]. now rewrite <- app_assoc.
Qed.

(** X14: no session is reused. Two public fetches that succeed one
    after the other send four requests: each one its GET and then a
    login POST that carries the login and the password again. *)
Theorem every_fetch_logs_in_again self y1 m1 d1 y2 m2 d2 fetch1 fetch2 :
  In fetch1 [ESTScraper.get_day_data h self y1 m1 d1;
             ESTScraper.get_month_data h self y1 m1;
             ESTScraper.get_year_data h self y1] ->
  In fetch2 [ESTScraper.get_day_data h self y2 m2 d2;
             ESTScraper.get_month_data h self y2 m2;
             ESTScraper.get_year_data h self y2] ->
  forall w v1 w1 v2 w2,
    fetch1 w = (Ok v1, w1) ->
    fetch2 w1 = (Ok v2, w2) ->
    exists url1 body1 url2 body2,
      sent w2 = sent w ++
        [GET url1; POST ESTScraper.LOGIN_URL body1;
         GET url2; POST ESTScraper.LOGIN_URL body2] /\
      dict_get body1 "login" = Some (Some (ESTScraper.login self)) /\
      dict_get body1 "password" = Some (Some (ESTScraper.password self)) /\
      dict_get body2 "login" = Some (Some (ESTScraper.login self)) /\
      dict_get body2 "password" = Some (Some (ESTScraper.password self)).
Proof.
  intros Hf1 Hf2 w v1 w1 v2 w2 Hrun1 Hrun2.
  assert (H1 : exists url root,
            sent w1 = sent w ++
              [GET url; POST ESTScraper.LOGIN_URL (ESTScraper.login_form self root)]).
  { destruct Hf1 as [<- | [<- | [<- | []]]];
      eapply success_sends_two; eassumption. }
  assert (H2 : exists url root,
            sent w2 = sent w1 ++
              [GET url; POST ESTScraper.LOGIN_URL (ESTScraper.login_form self root)]).
  { destruct Hf2 as [<- | [<- | [<- | []]]];
      eapply success_sends_two; eassumption. }
  destruct H1 as (url1 & root1 & Hs1), H2 as (url2 & root2 & Hs2).
  exists url1, (ESTScraper.login_form self root1),
    url2, (ESTScraper.login_form self root2).
  split; [ | repeat split].
  rewrite Hs2, Hs1, <- app_assoc. reflexivity.
Qed.

End Sessions.

Lemma every_fetch_logs_in_again_witness :
  let h := Fixture.host_serving "chart" in
  let first :=
    ESTScraper.get_year_data h Fixture.me (Some "2015") Fixture.fresh in
  let second :=
    ESTScraper.get_year_data h Fixture.me (Some "2016") (snd first) in
  is_ok (fst first) = true /\ is_ok (fst second) = true /\
  List.length (sent (snd second)) = 4%nat.
Proof.
  intros h first second.
  assert (H1 : exists v, first = (Ok v, snd first))
    by (eexists; vm_compute; reflexivity).
  assert (H2 : exists v, second = (Ok v, snd second))
    by (eexists; vm_compute; reflexivity).
  destruct H1 as (v1 & H1), H2 as (v2 & H2).
  destruct (every_fetch_logs_in_again h Fixture.me (Some "2015") None None
              (Some "2016") None None _ _
              (or_intror (or_intror (or_introl eq_refl)))
              (or_intror (or_intror (or_introl eq_refl)))
              Fixture.fresh v1 (snd first) v2 (snd second) H1 H2)
    as (u1 & b1 & u2 & b2 & Hsent & _).
  split; [reflexivity | split; [reflexivity | ]].
  rewrite Hsent. reflexivity.
Defined.

(** ** The command line beyond the claims *)

Section CommandLineMore.

Variable h : host.

(** X15: without a user name or a password, given as [None] or as the
    empty string, the script raises before anything else happens; so it
    does without a meter. Nothing is sent, printed or written, and the
    clock is not read. *)
Theorem main_requires_credentials opts w :
  (truthy (Main.username opts) = false \/ truthy (Main.password opts) = false ->
   Main.main h opts w =
     (Raise (Exception "Username and/or password must be set"), w)) /\
  (truthy (Main.username opts) = true -> truthy (Main.password opts) = true ->
   truthy (Main.meter opts) = false ->
   Main.main h opts w =
     (Raise (Exception "Electricity meter ID must be set"), w)).
Proof.
  unfold Main.main. split.
  - intros [-> | ->]; [reflexivity | ].
    now rewrite orb_true_r.
  - intros -> -> ->. reflexivity.
Qed.

(** For a known period the dispatch is the fetch of that period. *)
Lemma dispatch_known scraper opts name fetch w :
  In (name, fetch)
    [("year", ESTScraper.get_year_data h scraper (Main.year opts));
     ("month", ESTScraper.get_month_data h scraper (Main.year opts) (Main.month opts));
     ("day", ESTScraper.get_day_data h scraper (Main.year opts) (Main.month opts)
               (Main.day opts))] ->
  Main.period opts = name ->
  Main.dispatch h scraper opts w =
  match fetch w with
  | (Ok v, w1) => (Ok (Some v), w1)
  | (Raise e, w1) => (Raise e, w1)
  end.
Proof.
  intros Hin Hname. unfold Main.dispatch. rewrite Hname.
  destruct Hin as [[= <- <-] | [[= <- <-] | [[= <- <-] | []]]];
    cbn [String.eqb Ascii.eqb Bool.eqb]; unfold bind, ret;
    match goal with
    | |- context [match ?run w with _ => _ end] =>
        destruct (run w) as [[v | e] w1]
    end; reflexivity.
Qed.

Lemma main_dispatches opts name fetch w :
  truthy (Main.username opts) = true ->
  truthy (Main.password opts) = true ->
  truthy (Main.meter opts) = true ->
  let scraper :=
    ESTScraper.init (py_str (Main.username opts)) (py_str (Main.password opts))
      (py_str (Main.meter opts)) in
  In (name, fetch)
    [("year", ESTScraper.get_year_data h scraper (Main.year opts));
     ("month", ESTScraper.get_month_data h scraper (Main.year opts) (Main.month opts));
     ("day", ESTScraper.get_day_data h scraper (Main.year opts) (Main.month opts)
               (Main.day opts))] ->
  Main.period opts = name ->
  Main.main h opts w =
  match fetch w with
  | (Raise e, w1) => (Raise e, w1)
  | (Ok v, w1) =>
      let text := json_dumps h v 4 in
      let file := py_str (Main.outfile opts) in
      if truthy (Main.outfile opts) then
        if has_nul file then (Raise ValueError, w1)
        else if open_fails h file then (Raise OSError, w1)
        else
          match write_fails h file text with
          | Some part =>
              (Raise OSError,
               mk_world (ticks w1) (stdout w1) (sent w1)
                 (written w1 ++ [(file, part)]))
          | None =>
              (Ok tt,
               mk_world (ticks w1) (stdout w1) (sent w1)
                 (written w1 ++ [(file, text)]))
          end
      else (Ok tt, mk_world (ticks w1) (stdout w1 ++ [text]) (sent w1)
                     (written w1))
  end.
Proof.
  intros Hu Hp Hm scraper Hin Hname. unfold Main.main.
  rewrite Hu, Hp, Hm. cbn [negb orb]. unfold bind.
  fold scraper. rewrite (dispatch_known scraper opts name fetch w Hin Hname).
  destruct (fetch w) as [[v | e] w1]; [ | reflexivity].
  cbn [Main.read_data ret]. cbv zeta.
  destruct (truthy (Main.outfile opts)); [ | reflexivity].
  unfold open_w, write_close.
  destruct (has_nul (py_str (Main.outfile opts))); [reflexivity | ].
  destruct (open_fails h (py_str (Main.outfile opts))); [reflexivity | ].
  cbn [ticks stdout sent written]. rewrite removelast_last.
  destruct (write_fails h (py_str (Main.outfile opts)) (json_dumps h v 4));
    reflexivity.
Qed.

(** What a fetch of one of the three operations that returned leaves
    behind: the URL printed and requested first, no file. *)
Lemma public_fetch_effects scraper opts name fetch w v w1 :
  In (name, fetch)
    [("year", ESTScraper.get_year_data h scraper (Main.year opts));
     ("month", ESTScraper.get_month_data h scraper (Main.year opts) (Main.month opts));
     ("day", ESTScraper.get_day_data h scraper (Main.year opts) (Main.month opts)
               (Main.day opts))] ->
  fetch w = (Ok v, w1) ->
  exists url added,
    to_endpoint (GET url) /\
    stdout w1 = stdout w ++ [url] /\
    sent w1 = sent w ++ GET url :: added /\
    written w1 = written w.
Proof.
  intros Hin Hrun.
  assert (Hfetch : exists p y m d g,
            fetch =
            bind (ESTScraper._fetch_remote_data h scraper p y m d g)
              (fun response => lift (ESTScraper._format_response h response))).
  { destruct Hin as [[= <- <-] | [[= <- <-] | [[= <- <-] | []]]].
    - now exists (Some ESTScraper.PERIOD_YEAR), (Main.year opts), None, None, None.
    - now exists (Some ESTScraper.PERIOD_MONTH), (Main.year opts),
        (Main.month opts), None, (Some ESTScraper.GRANULARITY_DAY).
    - now exists (Some ESTScraper.PERIOD_DAY), (Main.year opts),
        (Main.month opts), (Main.day opts), (Some ESTScraper.GRANULARITY_HOUR). }
  destruct Hfetch as (p & y & m & d & g & ->).
  destruct (fetch_effects_run h scraper p y m d g w)
    as (url & added & Hout & Hwritten & Hsent & Hto & _).
  cbv zeta in Hout, Hwritten, Hsent. unfold bind in Hrun.
  destruct (ESTScraper._fetch_remote_data h scraper p y m d g w)
    as [[response | e] w0]; [ | discriminate].
  cbn [snd] in Hout, Hwritten, Hsent. unfold lift in Hrun.
  injection Hrun as _ <-.
  exists url, added. inversion Hto as [ | ? ? Hget _].
  repeat split; assumption.
Qed.

(** X16: the outcome of the script for the periods year, month and day,
    with credentials and meter given. An error of the fetch is the
    outcome of the script: no file is opened and no JSON printed. A
    result is dumped with indent 4 and printed, or, with [--outfile],
    written to that file with nothing more printed; when the file
    cannot be opened the script raises and no file is there, when the
    text cannot be written it raises and the file holds what got
    through. The year period does not use [--month] and [--day], the
    month period does not use [--day]. *)
Theorem main_known_period opts name fetch w :
  truthy (Main.username opts) = true ->
  truthy (Main.password opts) = true ->
  truthy (Main.meter opts) = true ->
  let scraper :=
    ESTScraper.init (py_str (Main.username opts)) (py_str (Main.password opts))
      (py_str (Main.meter opts)) in
  In (name, fetch)
    [("year", ESTScraper.get_year_data h scraper (Main.year opts));
     ("month", ESTScraper.get_month_data h scraper (Main.year opts) (Main.month opts));
     ("day", ESTScraper.get_day_data h scraper (Main.year opts) (Main.month opts)
               (Main.day opts))] ->
  Main.period opts = name ->
  Main.main h opts w =
  match fetch w with
  | (Raise e, w1) => (Raise e, w1)
  | (Ok v, w1) =>
      let text := json_dumps h v 4 in
      let file := py_str (Main.outfile opts) in
      if truthy (Main.outfile opts) then
        if has_nul file then (Raise ValueError, w1)
        else if open_fails h file then (Raise OSError, w1)
        else
          match write_fails h file text with
          | Some part =>
              (Raise OSError,
               mk_world (ticks w1) (stdout w1) (sent w1)
                 (written w1 ++ [(file, part)]))
          | None =>
              (Ok tt,
               mk_world (ticks w1) (stdout w1) (sent w1)
                 (written w1 ++ [(file, text)]))
          end
      else (Ok tt, mk_world (ticks w1) (stdout w1 ++ [text]) (sent w1)
                     (written w1))
  end.
Proof. exact (main_dispatches opts name fetch w). Qed.

(** X17: what a successful run leaves on standard output is not the
    JSON text alone. The fetch of the period returned a value; the URL
    it requested first was printed by the builder, and then the script
    printed the JSON text of that value. With [--outfile] the URL is
    still printed, and the file gets the JSON text of the value. *)
Theorem main_prints_url_before_json opts name fetch w w' :
  truthy (Main.username opts) = true ->
  truthy (Main.password opts) = true ->
  truthy (Main.meter opts) = true ->
  let scraper :=
    ESTScraper.init (py_str (Main.username opts)) (py_str (Main.password opts))
      (py_str (Main.meter opts)) in
  In (name, fetch)
    [("year", ESTScraper.get_year_data h scraper (Main.year opts));
     ("month", ESTScraper.get_month_data h scraper (Main.year opts) (Main.month opts));
     ("day", ESTScraper.get_day_data h scraper (Main.year opts) (Main.month opts)
               (Main.day opts))] ->
  Main.period opts = name ->
  Main.main h opts w = (Ok tt, w') ->
  exists v w1 url added,
    fetch w = (Ok v, w1) /\
    (exists query, url = ESTScraper.DATA_URL +++ "?" +++ query) /\
    sent w' = sent w ++ GET url :: added /\
    let text := json_dumps h v 4 in
    if truthy (Main.outfile opts)
    then stdout w' = stdout w ++ [url] /\
         written w' = written w ++ [(py_str (Main.outfile opts), text)]
    else stdout w' = stdout w ++ [url; text] /\ written w' = written w.
Proof.
  intros Hu Hp Hm scraper Hin Hname Hmain.
  rewrite (main_dispatches opts name fetch w Hu Hp Hm Hin Hname) in Hmain.
  destruct (fetch w) as [[v | e] w1] eqn:Hrun; [ | discriminate].
  destruct (public_fetch_effects scraper opts name fetch w v w1 Hin Hrun)
    as (url & added & Hget & Hout & Hsent & Hwritten).
  exists v, w1, url, added.
  split; [reflexivity | split; [exact Hget | ]].
  cbv zeta in Hmain |- *.
  destruct (truthy (Main.outfile opts)).
  - destruct (has_nul (py_str (Main.outfile opts))); [discriminate | ].
    destruct (open_fails h (py_str (Main.outfile opts))); [discriminate | ].
    destruct (write_fails h (py_str (Main.outfile opts)) (json_dumps h v 4));
      [discriminate | ].
    injection Hmain as <-. cbn [stdout sent written].
    rewrite Hout, Hsent, Hwritten. repeat split; reflexivity.
  - injection Hmain as <-. cbn [stdout sent written].
    rewrite Hout, Hsent, Hwritten, <- app_assoc. repeat split; reflexivity.
Qed.

End CommandLineMore.

Lemma main_requires_credentials_witness :
  let h := Fixture.host_serving "chart" in
  let opts :=
    Main.mk_options (Some "user") (Some EmptyString) (Some "12345") "month"
      None None None None in
  truthy (Main.password opts) = false /\
  Main.main h opts Fixture.fresh =
    (Raise (Exception "Username and/or password must be set"), Fixture.fresh).
Proof.
  intros h opts. split; [reflexivity | ].
  destruct (main_requires_credentials h opts Fixture.fresh) as [Hmissing _].
  apply Hmissing. right. reflexivity.
Defined.

Lemma main_known_period_witness :
  let h := Fixture.host_serving "chart" in
  let opts file :=
    Main.mk_options (Some "user") (Some "secret") (Some "12345") "day"
      (Some "2016") (Some "03") (Some "01") (Some file) in
  let url :=
    "https://www.e-st.lv/lv/private/paterini-un-norekini/paterinu-grafiki/?counterNumber=12345&period=D&date=01.03.2016&granularity=H" in
  let requests :=
    [GET url;
     POST ESTScraper.LOGIN_URL
       [("_token", Some "abc123"); ("returnUrl", Some "/lv/");
        ("login", Some "user"); ("password", Some "secret")]] in
  Main.main h (opts "out.json") Fixture.fresh =
    (Ok tt, mk_world 0 [url] requests [("out.json", "<json>")]) /\
  Main.main h (opts "nodir/out.json") Fixture.fresh =
    (Raise OSError, mk_world 0 [url] requests []) /\
  Main.main h (opts "/dev/full") Fixture.fresh =
    (Raise OSError, mk_world 0 [url] requests [("/dev/full", "")]).
Proof.
  intros h opts url requests.
  assert (Hrun : forall file,
            Main.main h (opts file) Fixture.fresh =
            match
              ESTScraper.get_day_data h
                (ESTScraper.init "user" "secret" "12345")
                (Some "2016") (Some "03") (Some "01") Fixture.fresh
            with
            | (Raise e, w1) => (Raise e, w1)
            | (Ok v, w1) =>
                let text := json_dumps h v 4 in
                let file := py_str (Main.outfile (opts file)) in
                if truthy (Main.outfile (opts file)) then
                  if has_nul file then (Raise ValueError, w1)
                  else if open_fails h file then (Raise OSError, w1)
                  else
                    match write_fails h file text with
                    | Some part =>
                        (Raise OSError,
                         mk_world (ticks w1) (stdout w1) (sent w1)
                           (written w1 ++ [(file, part)]))
                    | None =>
                        (Ok tt,
                         mk_world (ticks w1) (stdout w1) (sent w1)
                           (written w1 ++ [(file, text)]))
                    end
                else (Ok tt, mk_world (ticks w1) (stdout w1 ++ [text]) (sent w1)
                               (written w1))
            end).
  { intros file.
    exact (main_known_period h (opts file) "day" _ Fixture.fresh
             eq_refl eq_refl eq_refl
             (or_intror (or_intror (or_introl eq_refl))) eq_refl). }
  split; [ | split]; rewrite Hrun; vm_compute; reflexivity.
Defined.

Lemma main_prints_url_before_json_witness :
  let h := Fixture.host_serving "chart" in
  let opts :=
    Main.mk_options (Some "user") (Some "secret") (Some "12345") "year"
      (Some "2016") None None None in
  let url :=
    "https://www.e-st.lv/lv/private/paterini-un-norekini/paterinu-grafiki/?counterNumber=12345&period=Y&year=2016" in
  exists w',
    Main.main h opts Fixture.fresh = (Ok tt, w') /\
    exists v,
      fst (ESTScraper.get_year_data h Fixture.me (Some "2016") Fixture.fresh)
      = Ok v /\
      stdout w' = [url; json_dumps h v 4] /\ written w' = [].
Proof.
  intros h opts url.
  exists (snd (Main.main h opts Fixture.fresh)).
  assert (Hrun : Main.main h opts Fixture.fresh
                 = (Ok tt, snd (Main.main h opts Fixture.fresh)))
    by (vm_compute; reflexivity).
  split; [exact Hrun | ].
  destruct (main_prints_url_before_json h opts "year"
              (ESTScraper.get_year_data h Fixture.me (Some "2016"))
              Fixture.fresh _ eq_refl eq_refl eq_refl
              (or_introl eq_refl) eq_refl Hrun)
    as (v & w1 & url' & added & Hfetch & _ & Hsent & Hout).
  exists v. split; [now rewrite Hfetch | ].
  cbv zeta in Hout. change (truthy (Main.outfile opts)) with false in Hout.
  destruct Hout as [Hout Hwritten]. split; [ | exact Hwritten].
  rewrite Hout. cbn [stdout Fixture.fresh app].
  assert (Hurl : url' = url).
  { assert (Hfirst : sent (snd (Main.main h opts Fixture.fresh))
                     = GET url' :: added) by exact Hsent.
    vm_compute in Hfirst. injection Hfirst as Hfirst _. now rewrite <- Hfirst. }
  now rewrite Hurl.
Defined.

(** ** The query string *)

Lemma count_char_app c s t :
  count_char c (s +++ t) = (count_char c s + count_char c t)%nat.
Proof.
  induction s as [ | c' s IH]; [reflexivity | ].
  cbn [String.append count_char]. rewrite IH. lia.
Qed.

Lemma quote_plus_cons c s :
  quote_plus (String c s) = quote_plus (String c EmptyString) +++ quote_plus s.
Proof.
  cbn [quote_plus].
  destruct (is_unreserved c); [reflexivity | ].
  destruct (Ascii.eqb c " "); reflexivity.
Qed.

Lemma quote_plus_one_clean c :
  count_char "&" (quote_plus (String c EmptyString)) = 0%nat /\
  count_char "=" (quote_plus (String c EmptyString)) = 0%nat.
Proof.
  destruct c as [[] [] [] [] [] [] [] []]; split; reflexivity.
Qed.

Lemma quote_plus_clean s :
  count_char "&" (quote_plus s) = 0%nat /\
  count_char "=" (quote_plus s) = 0%nat.
Proof.
  induction s as [ | c s [IHa IHe]]; [split; reflexivity | ].
  rewrite quote_plus_cons, !count_char_app, IHa, IHe.
  destruct (quote_plus_one_clean c) as [-> ->]. split; reflexivity.
Qed.

Lemma urlencode_separators params :
  count_char "=" (urlencode params) = List.length params /\
  count_char "&" (urlencode params) = (List.length params - 1)%nat.
Proof.
  unfold urlencode.
  induction params as [ | [k v] params [IHe IHa]]; [split; reflexivity | ].
  cbn [map fst snd List.length].
  destruct (quote_plus_clean k) as [Hka Hke].
  destruct (quote_plus_clean (py_str v)) as [Hva Hve].
  destruct params as [ | kv params].
  - cbn [map String.concat]. rewrite !count_char_app, Hka, Hke, Hva, Hve.
    split; reflexivity.
  - cbn [map] in *. cbn [String.concat] in *.
    rewrite !count_char_app, IHe, IHa, Hka, Hke, Hva, Hve.
    cbn [List.length count_char Ascii.eqb Bool.eqb]. split; cbn; lia.
Qed.

(** X18: whatever text the meter id, the period, the year, the month,
    the day and the granularity hold, the query of the URL has one [=]
    for each parameter the builder set and one [&] between two of them:
    a value cannot add a parameter or cut one short. *)
Theorem query_separators (h : host) self p y m d g w :
  exists params,
    fst (ESTScraper._get_data_url_params h self p y m d g w) = Ok params /\
    fst (ESTScraper._get_data_url h self p y m d g w)
    = Ok (ESTScraper.DATA_URL +++ "?" +++ urlencode params) /\
    count_char "=" (urlencode params) = List.length params /\
    count_char "&" (urlencode params) = (List.length params - 1)%nat /\
    (2 <= List.length params <= 5)%nat.
Proof.
  destruct (get_data_url_run h self p y m d g w) as (ps & w1 & Hparams & Hurl).
  exists ps. rewrite Hparams, Hurl. cbn [fst].
  destruct (urlencode_separators ps) as [He Ha].
  repeat split; try assumption;
    replace ps with
      (match fst (ESTScraper._get_data_url_params h self p y m d g w) with
       | Ok l => l | Raise _ => ps end) by now rewrite Hparams.
  all: clear; unfold ESTScraper._get_data_url_params, ESTScraper.or_else,
    ESTScraper._get_current_year, ESTScraper._get_current_month,
    ESTScraper._get_current_day, ESTScraper._format_now;
    change ESTScraper.PERIOD_YEAR with "Y";
    change ESTScraper.PERIOD_MONTH with "M";
    change ESTScraper.PERIOD_DAY with "D";
    destruct p as [p | ]; unfold ESTScraper.period_is;
    [ destruct (String.eqb p "Y") eqn:EY;
        [apply String.eqb_eq in EY; subst p | ];
        [ | destruct (String.eqb p "M") eqn:EM;
            [apply String.eqb_eq in EM; subst p | ] ];
        [ | | destruct (String.eqb p "D") eqn:ED;
              [apply String.eqb_eq in ED; subst p | ] ]
    | ];
    destruct (truthy y), (truthy m), (truthy d);
    cbn -[strftime]; lia.
Qed.

(** ** Key order, selections and the first request *)

(** X19: the dict assignments of the builder and of the login keep the
    keys in the order of the code, whatever the arguments and the page.
    In [params], counterNumber and period come first, then the keys of
    the period in the order they are assigned, each key once. In the
    login form the four fields are in the order of the loop, and the
    assignments of login and password replace the scraped values where
    they are. *)
Theorem request_keys_in_order (h : host) self p y m d g w root :
  (exists ps w1,
     ESTScraper._get_data_url_params h self p y m d g w = (Ok ps, w1) /\
     map fst ps =
       ["counterNumber"; "period"] ++
       (if ESTScraper.period_is p "Y" then ["year"]
        else if ESTScraper.period_is p "M" then ["year"; "month"; "granularity"]
        else if ESTScraper.period_is p "D" then ["date"; "granularity"]
        else [])) /\
  map fst (ESTScraper.login_form self root)
  = ["_token"; "returnUrl"; "login"; "password"].
Proof.
  split; [ | reflexivity].
  unfold ESTScraper._get_data_url_params, ESTScraper.or_else,
    ESTScraper._get_current_year, ESTScraper._get_current_month,
    ESTScraper._get_current_day, ESTScraper._format_now, ESTScraper.period_is.
  change ESTScraper.PERIOD_YEAR with "Y".
  change ESTScraper.PERIOD_MONTH with "M".
  change ESTScraper.PERIOD_DAY with "D".
  destruct p as [p | ].
  - destruct (String.eqb p "Y") eqn:EY;
      [apply String.eqb_eq in EY; subst p | ];
      [ | destruct (String.eqb p "M") eqn:EM;
          [apply String.eqb_eq in EM; subst p | ] ];
      [ | | destruct (String.eqb p "D") eqn:ED;
            [apply String.eqb_eq in ED; subst p | ] ];
      destruct (truthy y), (truthy m), (truthy d);
      cbn -[strftime];
      (do 2 eexists; split; reflexivity).
  - destruct (truthy y); cbn -[strftime];
      (do 2 eexists; split; reflexivity).
Qed.

Lemma select_first root sel before e after name :
  all_elements root = before ++ e :: after ->
  (forall x, In x before -> matches sel x = false) ->
  matches sel e = true ->
  pq_attr (pq_select root sel) name = get_attr e name.
Proof.
  intros Hall Hbefore He. unfold pq_select.
  change (flat_map descendants_or_self root) with (all_elements root).
  rewrite Hall, filter_app, (filter_none _ before Hbefore).
  cbn [app filter]. now rewrite He.
Qed.

(** X20: the first match decides. The hidden field of a name is read
    from the first [input] of that name in document order, and the
    payload from the first [div] of class chart: if that element lacks
    the attribute the result is [None], whatever later matches hold. *)
Theorem first_match_decides root before e after :
  all_elements root = before ++ e :: after ->
  (forall field,
     (forall x, In x before -> matches (TagAttr "input" "name" field) x = false) ->
     matches (TagAttr "input" "name" field) e = true ->
     scraped root field = get_attr e "value") /\
  ((forall x, In x before -> matches (TagClass "div" "chart") x = false) ->
   matches (TagClass "div" "chart") e = true ->
   chart_lookup root = get_attr e "data-values").
Proof.
  intros Hall. split.
  - intros field Hbefore He. now apply select_first with before after.
  - intros Hbefore He. now apply select_first with before after.
Qed.

Lemma first_match_decides_witness :
  let first := Element "div" [("class", "chart")] [] in
  let second := Element "div" [("class", "chart"); ("data-values", "mixed")] [] in
  let root := [Element "body" [] [first; second]] in
  all_elements root = [Element "body" [] [first; second]] ++ first :: [second] /\
  chart_lookup root = None.
Proof.
  intros first second root. split; [reflexivity | ].
  destruct (first_match_decides root [Element "body" [] [first; second]]
              first [second] eq_refl) as [_ Hchart].
  rewrite Hchart; [reflexivity | | reflexivity].
  intros x [<- | []]. reflexivity.
Defined.

Section PublicFetches.

Variable h : host.

Lemma first_request self p y m d g w url :
  fst (ESTScraper._get_data_url h self p y m d g w) = Ok url ->
  exists added,
    sent (snd (bind (ESTScraper._fetch_remote_data h self p y m d g)
                 (fun response =>
                    lift (ESTScraper._format_response h response)) w))
    = sent w ++ GET url :: added.
Proof.
  intros Hurl.
  destruct (fetch_effects_run h self p y m d g w)
    as (url' & added & _ & _ & Hsent & _).
  destruct (fetch_run h self p y m d g w) as (url'' & tk & Hurl'' & Hrun).
  cbv zeta in Hsent, Hrun.
  assert (url' = url'').
  { rewrite Hrun in Hsent.
    destruct (remote h (sent w ++ [GET url''])) as [text | e].
    2:{ cbn [snd sent] in Hsent. apply app_inv_head in Hsent. congruence. }
    destruct (PyQuery h text) as [root | e].
    2:{ cbn [snd sent] in Hsent. apply app_inv_head in Hsent. congruence. }
    match type of Hsent with
    | context [remote h ?log] => destruct (remote h log) as [text2 | e]
    end; [destruct (PyQuery h text2) as [root2 | e] | ];
      cbn [snd sent] in Hsent; rewrite <- app_assoc in Hsent;
      apply app_inv_head in Hsent; cbn [app] in Hsent; congruence. }
  subst url''. assert (url' = url) by congruence. subst url'.
  exists added. unfold bind.
  destruct (ESTScraper._fetch_remote_data h self p y m d g w) as [[v | e] w1];
    cbn [snd] in Hsent |- *; [ | exact Hsent].
  unfold lift. exact Hsent.
Qed.

(** X21: what the month and year operations ask for. With explicit
    year and month, [get_month_data] first requests the MONTH URL with
    granularity=D; with an explicit year, [get_year_data] first requests
    the YEAR URL, which has no granularity. *)
Theorem month_and_year_requests self Y Mo w :
  Y <> EmptyString -> Mo <> EmptyString ->
  (exists added,
     sent (snd (ESTScraper.get_month_data h self (Some Y) (Some Mo) w))
     = sent w ++
       GET (ESTScraper.DATA_URL +++ "?" +++
            urlencode [("counterNumber", Some (ESTScraper.meter_id self));
                       ("period", Some "M"); ("year", Some Y);
                       ("month", Some Mo); ("granularity", Some "D")])
       :: added) /\
  (exists added,
     sent (snd (ESTScraper.get_year_data h self (Some Y) w))
     = sent w ++
       GET (ESTScraper.DATA_URL +++ "?" +++
            urlencode [("counterNumber", Some (ESTScraper.meter_id self));
                       ("period", Some "Y"); ("year", Some Y)])
       :: added).
Proof.
  intros HY HM. split.
  - apply first_request.
    unfold ESTScraper._get_data_url, ESTScraper._get_data_url_params,
      ESTScraper.or_else.
    rewrite (truthy_nonempty Y HY), (truthy_nonempty Mo HM). reflexivity.
  - apply first_request.
    unfold ESTScraper._get_data_url, ESTScraper._get_data_url_params,
      ESTScraper.or_else.
    rewrite (truthy_nonempty Y HY). reflexivity.
Qed.

End PublicFetches.

Lemma month_and_year_requests_witness :
  let h := Fixture.host_serving "chart" in
  "2016" <> EmptyString /\ "03" <> EmptyString /\
  exists added,
    sent (snd (ESTScraper.get_month_data h Fixture.me (Some "2016")
                 (Some "03") Fixture.fresh))
    = GET "https://www.e-st.lv/lv/private/paterini-un-norekini/paterinu-grafiki/?counterNumber=12345&period=M&year=2016&month=03&granularity=D"
      :: added.
Proof.
  intros h.
  assert (HY : "2016" <> EmptyString) by discriminate.
  assert (HM : "03" <> EmptyString) by discriminate.
  split; [exact HY | split; [exact HM | ]].
  destruct (month_and_year_requests h Fixture.me "2016" "03" Fixture.fresh
              HY HM) as [(added & Hmonth) _].
  exists added. exact Hmonth.
Defined.
